(** * pdf-summarizer-lab: a model of [function_app.py]

    The program is an Azure Durable Functions application: a blob trigger
    starts an orchestration that calls three activities (extraction,
    summarization, persistence).  The Python functions are embedded as
    functions over an explicit [world]: the process environment, the storage
    account, the UTC clock, the two remote services and the logs of what the
    program sent out.  Each function of the source keeps its name.

    Calls to [logging.info] have no effect on the modelled state and are
    left out. *)

From Stdlib Require Import ZArith Ascii String List Lia.
From stdpp Require Import base option gmap strings list fin_maps.

Set Warnings "-register-all".
Local Open Scope Z_scope.

(** ** Python values and exceptions *)

(** The values the host passes between orchestrator and activities, and the
    values [resp.json()] produces.  Numbers are kept as integers. *)
Inductive json : Type :=
| JNull
| JBool (b : bool)
| JNum (z : Z)
| JStr (s : string)
| JArr (items : list json)
| JObj (fields : gmap string json).

(** The exceptions the modelled code can raise.  [KeyError] and [IndexError]
    are Python's two [LookupError]s. *)
Inductive exn : Type :=
| KeyError (key : string)
| IndexError
| TypeError
| HTTPError (status : Z)
| JSONDecodeError
| ConnectionError
| ResourceNotFoundError
| ResourceExistsError
| HttpResponseError
| ActivityNotFound (name : string)
| NotModelled.

Definition is_LookupError (e : exn) : bool :=
  match e with
  | KeyError _ | IndexError => true
  | _ => false
  end.

Inductive result (A : Type) : Type :=
| Ok (a : A)
| Raise (e : exn).
Arguments Ok {A} a.
Arguments Raise {A} e.


(** ** Python's built-in operations used by the program *)

(** [l[i]] on a list: negative indices count from the end, an index out of
    range raises [IndexError]. *)
Definition py_index {A} (l : list A) (i : Z) : result A :=
  let n := Z.of_nat (length l) in
  let j := if i <? 0 then i + n else i in
  if (0 <=? j) && (j <? n) then
    match l !! Z.to_nat j with
    | Some x => Ok x
    | None => Raise IndexError
    end
  else Raise IndexError.

(** [v[k]] with a string key [k]: only a dict can be subscripted by a
    string; a missing key raises [KeyError]. *)
Definition getitem_str (v : json) (k : string) : result json :=
  match v with
  | JObj d =>
      match d !! k with
      | Some x => Ok x
      | None => Raise (KeyError k)
      end
  | _ => Raise TypeError
  end.

(** [v[i]] with an integer [i]: a list or a string is indexed by position;
    a dict read from JSON has string keys only, so an integer key is
    missing; the other values cannot be subscripted. *)
Definition getitem_int (v : json) (i : Z) : result json :=
  match v with
  | JArr l => py_index l i
  | JStr s =>
      match py_index (list_ascii_of_string s) i with
      | Ok c => Ok (JStr (String c EmptyString))
      | Raise e => Raise e
      end
  | JObj _ => Raise (KeyError "0")
  | _ => Raise TypeError
  end.

(** [s.split(sep)] for a separator of one character: the pieces between
    the occurrences of [sep], never an empty list. *)
Fixpoint split (sep : ascii) (s : string) : list string :=
  match s with
  | EmptyString => [EmptyString]
  | String c s' =>
      if Ascii.eqb c sep then EmptyString :: split sep s'
      else match split sep s' with
           | [] => [String c EmptyString]
           | piece :: pieces => String c piece :: pieces
           end
  end.

(** [s.rstrip(c)] for one character [c]: drop every trailing [c]. *)
Fixpoint rstrip (c : ascii) (s : string) : string :=
  match s with
  | EmptyString => EmptyString
  | String a s' =>
      match rstrip c s' with
      | EmptyString => if Ascii.eqb a c then EmptyString else String a EmptyString
      | r => String a r
      end
  end.

(** [sep.join(l)] *)
Fixpoint join (sep : string) (l : list string) : string :=
  match l with
  | [] => EmptyString
  | x :: rest =>
      match rest with
      | [] => x
      | _ => x +:+ sep +:+ join sep rest
      end
  end.

Definition LF : string := String (ascii_of_nat 10) EmptyString.
Definition slash : ascii := ascii_of_nat 47.

(** ** [datetime] and [strftime] *)

Record datetime := Datetime {
  year : Z; month : Z; day : Z; hour : Z; minute : Z; second : Z
}.

(** The ranges a [datetime] of the present has; [%Y] prints four digits for
    such a year on every platform. *)
Definition valid_datetime (t : datetime) : Prop :=
  1000 <= year t <= 9999 /\ 1 <= month t <= 12 /\ 1 <= day t <= 31 /\
  0 <= hour t <= 23 /\ 0 <= minute t <= 59 /\ 0 <= second t <= 59.

Definition digit (n : Z) : ascii := ascii_of_nat (48 + Z.to_nat (n mod 10)).

(** A decimal number zero-padded to [width] digits ([%02d], [%04d]). *)
Fixpoint zpad (width : nat) (n : Z) : string :=
  match width with
  | O => EmptyString
  | S w => zpad w (n / 10) +:+ String (digit n) EmptyString
  end.

(** [t.strftime("%Y%m%d%H%M%S")] *)
Definition strftime_YmdHMS (t : datetime) : string :=
  zpad 4 (year t) +:+ zpad 2 (month t) +:+ zpad 2 (day t) +:+
  zpad 2 (hour t) +:+ zpad 2 (minute t) +:+ zpad 2 (second t).

(** ** The outside world *)

(** [azure.ai.formrecognizer]: the result of a layout analysis. *)
Record DocumentLine := { content : string }.
Record DocumentPage := { lines : list DocumentLine }.
Record AnalyzeResult := { pages : list DocumentPage }.

(** [requests]: what is sent and what comes back.  [body] is [None] when
    the payload is not JSON. *)
Record Request := {
  method : string;
  url : string;
  headers : gmap string string;
  payload : json
}.
Record Response := { status_code : Z; body : option json }.

Record AnalyzeRequest := {
  model_id : string; document : string; locale : string
}.

Record world := World {
  environ : gmap string string;                (* os.environ *)
  storage : gmap string (gmap string string);  (* container -> blob -> data *)
  now : datetime;                              (* the UTC clock *)
  future : list datetime;                      (* its later readings *)
  layout_service : list (result AnalyzeResult);(* answers still to come *)
  completion_service : list Response;          (* answers still to come *)
  analyzed : list AnalyzeRequest;              (* sent to the layout service *)
  posted : list Request;                       (* sent over HTTP *)
  started : list (string * json);              (* orchestrations started *)
  invoked : list (string * json);              (* activity executions *)
  timers : list Z                              (* delays the host waited *)
}.

Definition set_storage (f : gmap string (gmap string string) -> gmap string (gmap string string))
    (w : world) : world :=
  World (environ w) (f (storage w)) (now w) (future w) (layout_service w)
    (completion_service w) (analyzed w) (posted w) (started w) (invoked w) (timers w).

(** Time passes: the clock moves to its next reading, if any is given. *)
Definition tick (w : world) : world :=
  match future w with
  | [] => w
  | t :: later =>
      World (environ w) (storage w) t later (layout_service w)
        (completion_service w) (analyzed w) (posted w) (started w) (invoked w) (timers w)
  end.

Definition send_analyze (r : AnalyzeRequest) (w : world) : world :=
  World (environ w) (storage w) (now w) (future w) (tail (layout_service w))
    (completion_service w) (analyzed w ++ [r]) (posted w) (started w) (invoked w) (timers w).

Definition send_http (r : Request) (w : world) : world :=
  World (environ w) (storage w) (now w) (future w) (layout_service w)
    (tail (completion_service w)) (analyzed w) (posted w ++ [r]) (started w) (invoked w) (timers w).

Definition log_started (x : string * json) (w : world) : world :=
  World (environ w) (storage w) (now w) (future w) (layout_service w)
    (completion_service w) (analyzed w) (posted w) (started w ++ [x]) (invoked w) (timers w).

Definition log_invoked (x : string * json) (w : world) : world :=
  World (environ w) (storage w) (now w) (future w) (layout_service w)
    (completion_service w) (analyzed w) (posted w) (started w) (invoked w ++ [x]) (timers w).

Definition log_timer (ms : Z) (w : world) : world :=
  World (environ w) (storage w) (now w) (future w) (layout_service w)
    (completion_service w) (analyzed w) (posted w) (started w) (invoked w) (timers w ++ [ms]).

(** ** Computations: state passing with exceptions *)

Definition M (A : Type) : Type := world -> world * result A.

Definition ret {A} (a : A) : M A := fun w => (w, Ok a).
Definition raise {A} (e : exn) : M A := fun w => (w, Raise e).
Definition bind {A B} (c : M A) (k : A -> M B) : M B :=
  fun w =>
    match c w with
    | (w', Ok a) => k a w'
    | (w', Raise e) => (w', Raise e)
    end.
Definition lift {A} (r : result A) : M A := fun w => (w, r).

Declare Scope py_scope.
Delimit Scope py_scope with py.
Notation "x <- c ;; k" := (bind c (fun x => k))
  (at level 100, c at next level, right associativity) : py_scope.
Notation "c ;;; k" := (bind c (fun _ => k))
  (at level 100, right associativity) : py_scope.
Local Open Scope py_scope.

(** [os.environ[key]] *)
Definition os_environ (key : string) : M string :=
  fun w =>
    match environ w !! key with
    | Some v => (w, Ok v)
    | None => (w, Raise (KeyError key))
    end.

(** [datetime.utcnow()] *)
Definition utcnow : M datetime := fun w => (tick w, Ok (now w)).

(** ** [azure.storage.blob] *)

Record BlobServiceClient := { connection_string : string }.

(** [svc.get_container_client(c).get_blob_client(b).download_blob().readall()] *)
Definition download_blob (svc : BlobServiceClient) (container blob : string) : M string :=
  fun w =>
    match storage w !! container with
    | None => (w, Raise ResourceNotFoundError)
    | Some blobs =>
        match blobs !! blob with
        | None => (w, Raise ResourceNotFoundError)
        | Some data => (w, Ok data)
        end
    end.

(** [svc.get_container_client(c).upload_blob(name=.., data=..)]: the call is
    made without [overwrite], so an existing blob of that name is kept and
    the call raises. *)
Definition upload_blob (svc : BlobServiceClient) (container name data : string) : M unit :=
  fun w =>
    match storage w !! container with
    | None => (w, Raise ResourceNotFoundError)
    | Some blobs =>
        match blobs !! name with
        | Some _ => (w, Raise ResourceExistsError)
        | None => (set_storage (insert container (<[name := data]> blobs)) w, Ok tt)
        end
    end.

(** ** [azure.ai.formrecognizer] *)

Record DocumentAnalysisClient := { da_endpoint : string; da_key : string }.

(** [recog.begin_analyze_document(..).result()]: the document is sent and
    the next answer of the service comes back. *)
Definition begin_analyze_document_result (recog : DocumentAnalysisClient)
    (model doc loc : string) : M AnalyzeResult :=
  fun w =>
    let w' := send_analyze {| model_id := model; document := doc; locale := loc |} w in
    match layout_service w with
    | [] => (w', Raise ConnectionError)
    | r :: _ => (w', r)
    end.

(** ** [requests] *)

(** [requests.post(url, headers=.., json=..)] *)
Definition requests_post (u : string) (h : gmap string string) (j : json) : M Response :=
  fun w =>
    let w' := send_http {| method := "POST"; url := u; headers := h; payload := j |} w in
    match completion_service w with
    | [] => (w', Raise ConnectionError)
    | r :: _ => (w', Ok r)
    end.

(** [resp.raise_for_status()]: an [HTTPError] for the 4xx and 5xx codes. *)
Definition raise_for_status (resp : Response) : result unit :=
  if (400 <=? status_code resp) && (status_code resp <? 600)
  then Raise (HTTPError (status_code resp))
  else Ok tt.

(** [resp.json()] *)
Definition resp_json (resp : Response) : result json :=
  match body resp with
  | Some j => Ok j
  | None => Raise JSONDecodeError
  end.

(** ** [azure.functions] and [azure.durable_functions] *)

Module func.
(** [func.InputStream]: the blob that fired the trigger. *)
Record InputStream := { name : string; length : Z; data : string }.
End func.

Module df.
Record RetryOptions := {
  first_retry_interval_in_milliseconds : Z;
  max_number_of_attempts : nat
}.

(** What an orchestrator hands to the host at a [yield]. *)
Inductive Task : Type :=
| call_activity_with_retry (activity : string) (opts : RetryOptions) (input : json).

Record DurableOrchestrationContext := { get_input : json }.

(** An orchestrator function is a Python generator: it is suspended at
    a [yield] with a task, and resumed with the task's result, or it has
    returned.  When the task fails the host throws into the generator;
    a generator without [try] then ends with that exception, so a
    suspended generator needs no second continuation. *)
Inductive generator : Type :=
| Yield (t : Task) (resume : json -> generator)
| Return (v : json).

(** [client.start_new(name, client_input=..)] *)
Definition start_new (orchestration : string) (client_input : json) : M unit :=
  fun w => (log_started (orchestration, client_input) w, Ok tt).
End df.

Notation "x <-yield t ;; k" := (df.Yield t (fun x => k))
  (at level 100, t at next level, right associativity) : py_scope.

(** ** function_app.py *)

(** Module level: [blob_svc] is built when the module is imported. *)
Record globals := { blob_svc : BlobServiceClient }.

Definition function_app : M globals :=
  cs <- os_environ "BLOB_STORAGE_ENDPOINT" ;;
  ret {| blob_svc := {| connection_string := cs |} |}.

(** [blob_trigger(myblob, client)] *)
Definition blob_trigger (myblob : func.InputStream) : M unit :=
  name <- lift (py_index (split slash (func.name myblob)) (-1)) ;;
  df.start_new "orchestrator" (JStr name).

(** [orchestrator(context)] *)
Definition orchestrator (context : df.DurableOrchestrationContext) : df.generator :=
  let blob_name := df.get_input context in
  let opts := {| df.first_retry_interval_in_milliseconds := 5000;
                 df.max_number_of_attempts := 3 |} in
  text <-yield df.call_activity_with_retry "analyze_pdf" opts blob_name ;;
  summary <-yield df.call_activity_with_retry "summarize_text" opts text ;;
  outblob <-yield df.call_activity_with_retry "write_summary" opts
              (JObj (<["blob" := blob_name]> (<["summary" := summary]> ∅))) ;;
  df.Return outblob.

(** A blob is named by a string; the clients' treatment of any other value
    is not part of this model. *)
Definition as_name (v : json) : result string :=
  match v with
  | JStr s => Ok s
  | _ => Raise NotModelled
  end.

(** [analyze_pdf(blobName)] *)
Definition analyze_pdf (g : globals) (blobName : json) : M json :=
  blob <- lift (as_name blobName) ;;
  pdf_bytes <- download_blob (blob_svc g) "input" blob ;;
  endpoint <- os_environ "COGNITIVE_SERVICES_ENDPOINT" ;;
  key <- os_environ "COGNITIVE_SERVICES_KEY" ;;
  let recog := {| da_endpoint := endpoint; da_key := key |} in
  result <- begin_analyze_document_result recog "prebuilt-layout" pdf_bytes "en-US" ;;
  let txt := join LF (flat_map (fun p => map content (lines p)) (pages result)) in
  ret (JStr txt).

Definition api_ver : string := "2025-01-01-preview".

(** [summarize_text(text)] *)
Definition summarize_text (text : json) : M json :=
  endpoint0 <- os_environ "AZURE_OPENAI_ENDPOINT" ;;
  let endpoint := rstrip slash endpoint0 in
  deployment <- os_environ "AZURE_OPENAI_DEPLOYMENT_NAME" ;;
  let url := endpoint +:+ "/openai/deployments/" +:+ deployment +:+
             "/chat/completions?api-version=" +:+ api_ver in
  key <- os_environ "AZURE_OPENAI_KEY" ;;
  let headers : gmap string string :=
    <["api-key" := key]> (<["Content-Type" := "application/json"]> ∅) in
  let body :=
    JObj (<["messages" := JArr [JObj (<["role" := JStr "user"]> (<["content" := text]> ∅))]]>
          (<["max_tokens" := JNum 200]> ∅)) in
  resp <- requests_post url headers body ;;
  lift (raise_for_status resp) ;;;
  j <- lift (resp_json resp) ;;
  choices <- lift (getitem_str j "choices") ;;
  first <- lift (getitem_int choices 0) ;;
  message <- lift (getitem_str first "message") ;;
  choice <- lift (getitem_str message "content") ;;
  ret choice.

(** The data [upload_blob] accepts from this program: a [str]; the JSON
    values that are not strings are refused as an unsupported type. *)
Definition as_data (v : json) : result string :=
  match v with
  | JStr s => Ok s
  | _ => Raise TypeError
  end.

(** [write_summary(input)] *)
Definition write_summary (g : globals) (input : json) : M json :=
  blob_name <- lift (getitem_str input "blob") ;;
  summary <- lift (getitem_str input "summary") ;;
  t <- utcnow ;;
  let ts := strftime_YmdHMS t in
  prefix <- lift (as_name blob_name) ;;
  let out_name := prefix +:+ "-" +:+ ts +:+ ".txt" in
  data <- lift (as_data summary) ;;
  upload_blob (blob_svc g) "output" out_name data ;;;
  ret (JStr out_name).

(** ** The Durable Functions host *)

(** The host is the runtime the program is written for, not part of it.
    The model has what the program relies on: a yielded task is run to its
    end before the generator goes on; [call_activity_with_retry] executes
    the named activity up to [max_number_of_attempts] times, waiting
    [first_retry_interval_in_milliseconds] between two executions; a task
    whose last execution raised fails with that exception. *)

(** The activities registered with [@app.activity_trigger]. *)
Definition activities (g : globals) (name : string) : option (json -> M json) :=
  if String.eqb name "analyze_pdf" then Some (analyze_pdf g)
  else if String.eqb name "summarize_text" then Some summarize_text
  else if String.eqb name "write_summary" then Some (write_summary g)
  else None.

(** The host waits for a durable timer. *)
Definition sleep (ms : Z) : M unit := fun w => (tick (log_timer ms w), Ok tt).

(** One execution of an activity, then up to [retries] more after a failure,
    each after the fixed delay. *)
Fixpoint attempt (retries : nat) (delay : Z) (name : string) (act : json -> M json)
    (input : json) : M json :=
  fun w =>
    match act input (log_invoked (name, input) w) with
    | (w', Ok v) => (w', Ok v)
    | (w', Raise e) =>
        match retries with
        | O => (w', Raise e)
        | S k => (sleep delay ;;; attempt k delay name act input) w'
        end
    end.

(** The host runs a task: [max_number_of_attempts] counts the first
    execution. *)
Definition run_task (g : globals) (t : df.Task) : M json :=
  match t with
  | df.call_activity_with_retry name opts input =>
      match activities g name with
      | None => raise (ActivityNotFound name)
      | Some act =>
          attempt (Nat.pred (df.max_number_of_attempts opts))
                  (df.first_retry_interval_in_milliseconds opts) name act input
      end
  end.

(** The host drives the generator: each yielded task is run and its result
    sent back; a failed task ends the instance with its exception. *)
Fixpoint run_orchestration (g : globals) (gen : df.generator) : M json :=
  match gen with
  | df.Return v => ret v
  | df.Yield t resume =>
      fun w =>
        match run_task g t w with
        | (w', Ok v) => run_orchestration g (resume v) w'
        | (w', Raise e) => (w', Raise e)
        end
  end.

(** The generator alone: the tasks it yields when it is sent the given
    results, and what it returns, if it gets that far. *)
Fixpoint drive (gen : df.generator) (results : list json) : list df.Task * option json :=
  match gen with
  | df.Return v => ([], Some v)
  | df.Yield t resume =>
      match results with
      | [] => ([t], None)
      | r :: rest => let '(ts, out) := drive (resume r) rest in (t :: ts, out)
      end
  end.

(** One instance of the pipeline, as the host runs it for an input. *)
Definition run_instance (g : globals) (input : json) : M json :=
  run_orchestration g (orchestrator {| df.get_input := input |}).

(** The life of the function app for one storage event: the module is
    imported (cold start), the trigger fires, and the host runs the
    instance the trigger started. *)
Definition on_blob_event (myblob : func.InputStream) : M json :=
  g <- function_app ;;
  blob_trigger myblob ;;;
  fun w =>
    match last (started w) with
    | Some (_, input) => run_instance g input w
    | None => (w, Ok JNull)
    end.

(** ** Words of the specification *)

(** The character [c] occurs in [s]. *)
Fixpoint occurs (c : ascii) (s : string) : bool :=
  match s with
  | EmptyString => false
  | String a s' => Ascii.eqb a c || occurs c s'
  end.

(** The text lines of a document, page after page and, within a page, line
    after line. *)
Fixpoint lines_in_order (ps : list DocumentPage) : list string :=
  match ps with
  | [] => []
  | p :: ps' => map content (lines p) ++ lines_in_order ps'
  end.

(** The number a string of decimal digits denotes. *)
Definition digit_value (c : ascii) : Z := Z.of_nat (nat_of_ascii c) - 48.

Fixpoint decimal_value_from (acc : Z) (s : string) : Z :=
  match s with
  | EmptyString => acc
  | String c s' => decimal_value_from (10 * acc + digit_value c) s'
  end.

Definition decimal_value (s : string) : Z := decimal_value_from 0 s.

Definition is_digit (c : ascii) : bool :=
  (48 <=? nat_of_ascii c)%nat && (nat_of_ascii c <=? 57)%nat.

Fixpoint all_digits (s : string) : bool :=
  match s with
  | EmptyString => true
  | String c s' => is_digit c && all_digits s'
  end.

(** A stamp of the form yyyyMMddHHmmss for the time [t]: four digits of
    the year, then two each of month, day, hour, minute and second. *)
Definition is_timestamp_of (t : datetime) (ts : string) : Prop :=
  exists y mo d h mi s : string,
    ts = y +:+ mo +:+ d +:+ h +:+ mi +:+ s /\
    String.length y = 4%nat /\ String.length mo = 2%nat /\ String.length d = 2%nat /\
    String.length h = 2%nat /\ String.length mi = 2%nat /\ String.length s = 2%nat /\
    decimal_value y = year t /\ decimal_value mo = month t /\ decimal_value d = day t /\
    decimal_value h = hour t /\ decimal_value mi = minute t /\ decimal_value s = second t.

(** The request of the completion service: one POST with the key in the
    [api-key] header and a body of one user message and 200 tokens. *)
Definition completion_request (endpoint deployment key : string) (text : json) : Request :=
  {| method := "POST";
     url := endpoint +:+ "/openai/deployments/" +:+ deployment +:+
            "/chat/completions?api-version=2025-01-01-preview";
     headers := <["api-key" := key]> (<["Content-Type" := "application/json"]> ∅);
     payload :=
       JObj (<["messages" := JArr [JObj (<["role" := JStr "user"]> (<["content" := text]> ∅))]]>
             (<["max_tokens" := JNum 200]> ∅)) |}.

(** [choices[0].message.content] of a response document, when the document
    has that shape. *)
Definition choices_0_message_content (j : json) : option json :=
  match j with
  | JObj d =>
      match d !! "choices" with
      | Some (JArr (JObj c :: _)) =>
          match c !! "message" with
          | Some (JObj m) => m !! "content"
          | _ => None
          end
      | _ => None
      end
  | _ => None
  end.

(** A 2xx status. *)
Definition is_success (status : Z) : Prop := 200 <= status < 300.

(** What [summarize_text] makes of the response it got: lines 78 to 80. *)
Definition answer_of (resp : Response) : result json :=
  match raise_for_status resp with
  | Raise e => Raise e
  | Ok _ =>
      match resp_json resp with
      | Raise e => Raise e
      | Ok j =>
          match getitem_str j "choices" with
          | Raise e => Raise e
          | Ok choices =>
              match getitem_int choices 0 with
              | Raise e => Raise e
              | Ok first =>
                  match getitem_str first "message" with
                  | Raise e => Raise e
                  | Ok message => getitem_str message "content"
                  end
              end
          end
      end
  end.

(** ** Scenarios *)

(** A configured function app, noon of 1 January 2025, and the upload of
    [invoice.pdf], a document of two pages with one line each. *)
Definition env_full : gmap string string :=
  <["BLOB_STORAGE_ENDPOINT" := "UseDevelopmentStorage=true"]>
  (<["COGNITIVE_SERVICES_ENDPOINT" := "https://di.example"]>
  (<["COGNITIVE_SERVICES_KEY" := "k1"]>
  (<["AZURE_OPENAI_ENDPOINT" := "https://oai.example/"]>
  (<["AZURE_OPENAI_DEPLOYMENT_NAME" := "gpt"]>
  (<["AZURE_OPENAI_KEY" := "k2"]> ∅))))).

Definition noon : datetime := Datetime 2025 1 1 12 0 0.
Definition noon_05 : datetime := Datetime 2025 1 1 12 0 5.
Definition noon_10 : datetime := Datetime 2025 1 1 12 0 10.

Definition invoice : AnalyzeResult :=
  {| pages := [ {| lines := [ {| content := "Line 1" |} ] |};
                {| lines := [ {| content := "Line 2" |} ] |} ] |}.

Definition two_containers : gmap string (gmap string string) :=
  <["input" := <["invoice.pdf" := "%PDF-1.7"]> ∅]> (<["output" := ∅]> ∅).

(** A response of the completion service with the given status, whose
    document has [s] at [choices[0].message.content]. *)
Definition completion (status : Z) (s : string) : Response :=
  {| status_code := status;
     body := Some (JObj (<["choices" :=
               JArr [JObj (<["message" := JObj (<["content" := JStr s]> ∅)]> ∅)]]> ∅)) |}.

Definition throttled : Response := {| status_code := 429; body := None |}.

Definition world_with (env : gmap string string) (store : gmap string (gmap string string))
    (clock : list datetime) (answers : list Response) : world :=
  World env store noon clock [Ok invoice; Ok invoice; Ok invoice] answers [] [] [] [] [].

Definition invoice_world : world :=
  world_with env_full two_containers [noon_05; noon_10] [completion 200 "S"].

Definition invoice_event : func.InputStream :=
  {| func.name := "input/invoice.pdf"; func.length := 8; func.data := "%PDF-1.7" |}.

Definition app0 : globals := {| blob_svc := {| connection_string := "UseDevelopmentStorage=true" |} |}.

Definition summary_input (f S : string) : json :=
  JObj (<["blob" := JStr f]> (<["summary" := JStr S]> ∅)).

(** What an activity leaves alone: the host's logs, the storage. *)
Definition quiet (act : json -> M json) : Prop :=
  forall x w, invoked (fst (act x w)) = invoked w /\ timers (fst (act x w)) = timers w.

Definition keeps_storage (act : json -> M json) : Prop :=
  forall x w, storage (fst (act x w)) = storage w.

Definition keeps_storage_when_failing (act : json -> M json) : Prop :=
  forall x w w' e, act x w = (w', Raise e) -> storage w' = storage w.

(** The completion service throttles every attempt. *)
Definition throttled_world : world :=
  world_with env_full two_containers [noon_05; noon_10] [throttled; throttled; throttled].

(** The completion service answers 300 Multiple Choices, with a document. *)
Definition multiple_choices_world : world :=
  world_with env_full two_containers [] [completion 300 "S"].

(** The completion service answers 200 with an empty JSON object. *)
Definition no_choices_world : world :=
  world_with env_full two_containers [] [ {| status_code := 200; body := Some (JObj ∅) |} ].

(** The storage account has no container named "output". *)
Definition no_output_world : world :=
  world_with env_full (<["input" := <["invoice.pdf" := "%PDF-1.7"]> ∅]> ∅)
    [noon_05; noon_10] [completion 200 "S"].



(** ** test_openai_http.py *)

(** [requests.get(url, headers=..)]: a request without a body, which the
    log shows as the payload [None]. *)
Definition requests_get (u : string) (h : gmap string string) : M Response :=
  fun w =>
    let w' := send_http {| method := "GET"; url := u; headers := h; payload := JNull |} w in
    match completion_service w with
    | [] => (w', Raise ConnectionError)
    | r :: _ => (w', Ok r)
    end.

(** The script, run from top to bottom.  Beside the world it gives what it
    printed: one list per call of [print], holding the arguments of the
    call. *)
Definition test_openai_http (w : world) : world * list (list json) * result unit :=
  match (endpoint0 <- os_environ "AZURE_OPENAI_ENDPOINT" ;;
         let endpoint := rstrip slash endpoint0 in
         key <- os_environ "AZURE_OPENAI_KEY" ;;
         let url := endpoint +:+ "/openai/deployments?api-version=2023-05-15" in
         requests_get url
           (<["api-key" := key]> (<["Content-Type" := "application/json"]> ∅))) w with
  | (w', Raise e) => (w', [], Raise e)
  | (w', Ok resp) =>
      let status_line := [JStr "Status:"; JNum (status_code resp)] in
      match resp_json resp with
      | Raise e => (w', [status_line], Raise e)
      | Ok j => (w', [status_line; [j]], Ok tt)
      end
  end.

(** ** More words for properties *)

(** How often the character [c] occurs in [s]. *)
Fixpoint count_char (c : ascii) (s : string) : nat :=
  match s with
  | EmptyString => O
  | String a s' => (if Ascii.eqb a c then 1 else 0) + count_char c s'
  end.

Definition total_count (c : ascii) (l : list string) : nat :=
  fold_right (fun s n => count_char c s + n)%nat O l.

(** The request [analyze_pdf] sends for a document. *)
Definition layout_request (pdf : string) : AnalyzeRequest :=
  {| model_id := "prebuilt-layout"; document := pdf; locale := "en-US" |}.

(** The request the script sends. *)
Definition deployments_request (endpoint key : string) : Request :=
  {| method := "GET";
     url := endpoint +:+ "/openai/deployments?api-version=2023-05-15";
     headers := <["api-key" := key]> (<["Content-Type" := "application/json"]> ∅);
     payload := JNull |}.

(** A status that [raise_for_status] turns into an exception. *)
Definition is_error_status (status : Z) : Prop := 400 <= status < 600.

(** Earlier time, field by field from the year down. *)
Definition datetime_key (t : datetime) : list Z :=
  [year t; month t; day t; hour t; minute t; second t].

Fixpoint lex_lt (a b : list Z) : Prop :=
  match a, b with
  | x :: a', y :: b' => x < y \/ (x = y /\ lex_lt a' b')
  | _, _ => False
  end.

Definition earlier (t1 t2 : datetime) : Prop := lex_lt (datetime_key t1) (datetime_key t2).

(** The retry options of the orchestrator: three attempts, 5000 ms apart. *)
Definition orchestrator_opts : df.RetryOptions :=
  {| df.first_retry_interval_in_milliseconds := 5000; df.max_number_of_attempts := 3 |}.

(** The three tasks of the orchestrator. *)
Definition extraction_task (input : json) : df.Task :=
  df.call_activity_with_retry "analyze_pdf" orchestrator_opts input.
Definition summarization_task (text : json) : df.Task :=
  df.call_activity_with_retry "summarize_text" orchestrator_opts text.
Definition persistence_task (input summary : json) : df.Task :=
  df.call_activity_with_retry "write_summary" orchestrator_opts
    (JObj (<["blob" := input]> (<["summary" := summary]> ∅))).

(** ** More scenarios *)

(** The document was uploaded under a virtual folder. *)
Definition nested_event : func.InputStream :=
  {| func.name := "input/2025/invoice.pdf"; func.length := 8; func.data := "%PDF-1.7" |}.

Definition nested_world : world :=
  world_with env_full
    (<["input" := <["2025/invoice.pdf" := "%PDF-1.7"]> ∅]> (<["output" := ∅]> ∅))
    [noon_05; noon_10] [completion 200 "S"].

(** The completion service throttles twice, then answers. *)
Definition recovering_world : world :=
  world_with env_full two_containers [noon_05; noon_10]
    [throttled; throttled; completion 200 "S"].

(** The completion service answers with a null content. *)
Definition null_content : Response :=
  {| status_code := 200;
     body := Some (JObj (<["choices" :=
               JArr [JObj (<["message" := JObj (<["content" := JNull]> ∅)]> ∅)]]> ∅)) |}.

Definition null_content_world : world :=
  world_with env_full two_containers [noon_05; noon_10] [null_content].

(** The output container already holds the blob of this second. *)
Definition taken_world : world :=
  world_with env_full
    (<["input" := <["invoice.pdf" := "%PDF-1.7"]> ∅]>
     (<["output" := <["invoice.pdf-20250101120000.txt" := "old"]> ∅]> ∅))
    [] [completion 200 "S"].

(** The completion service answers 200 with a body that is not JSON. *)
Definition not_json_world : world :=
  world_with env_full two_containers [] [ {| status_code := 200; body := None |} ].

(** The endpoint is set without its trailing slash. *)
Definition no_slash_world : world :=
  world_with (<["AZURE_OPENAI_ENDPOINT" := "https://oai.example"]> env_full)
    two_containers [] [completion 200 "S"].

(** Five seconds after noon. *)
Definition later_world : world :=
  World env_full two_containers noon_05 [] [Ok invoice] [completion 200 "S"] [] [] [] [] [].

(** ** The retry ceiling, in the words of the specification *)

(** One execution of an activity for a step: the host records it, then the
    activity runs. *)
Definition execution (name : string) (act : json -> M json) (x : json) : M json :=
  fun w => act x (log_invoked (name, x) w).

(** The world in which the next execution starts, the fixed delay later. *)
Definition after_wait (ms : Z) (w : world) : world := tick (log_timer ms w).

(** A step exhausts its retry ceiling: executed three times, 5000 ms apart,
    the activity raised each time.  The outcome is the world after the
    third execution and the error of that execution. *)
Definition exhausts (name : string) (act : json -> M json) (x : json) (w : world)
    : option (world * exn) :=
  match execution name act x w with
  | (_, Ok _) => None
  | (w1, Raise _) =>
      match execution name act x (after_wait 5000 w1) with
      | (_, Ok _) => None
      | (w2, Raise _) =>
          match execution name act x (after_wait 5000 w2) with
          | (_, Ok _) => None
          | (w3, Raise e) => Some (w3, e)
          end
      end
  end.

(** A step returns within its ceiling: the first of at most three
    executions, 5000 ms apart, that returns a value, with the world after
    it. *)
Definition returns_within (name : string) (act : json -> M json) (x : json) (w : world)
    : option (world * json) :=
  match execution name act x w with
  | (w1, Ok v) => Some (w1, v)
  | (w1, Raise _) =>
      match execution name act x (after_wait 5000 w1) with
      | (w2, Ok v) => Some (w2, v)
      | (w2, Raise _) =>
          match execution name act x (after_wait 5000 w2) with
          | (w3, Ok v) => Some (w3, v)
          | (_, Raise _) => None
          end
      end
  end.

(** The executions an instance added to the log. *)
Definition executions_since (w w' : world) : list (string * json) :=
  drop (Datatypes.length (invoked w)) (invoked w').

(** The persistence activity is not among the executions. *)
Definition never_persisted (l : list (string * json)) : Prop :=
  Forall (fun p => fst p <> "write_summary") l.

(** The input the orchestrator gives the persistence activity. *)
Definition persistence_input (input summary : json) : json :=
  JObj (<["blob" := input]> (<["summary" := summary]> ∅)).

(** A JSON object, a [dict] in Python. *)
Definition is_object (v : json) : bool :=
  match v with JObj _ => true | _ => false end.

(** The completion service answers 200 with a first choice that is null. *)
Definition null_choice : Response :=
  {| status_code := 200; body := Some (JObj (<["choices" := JArr [JNull]]> ∅)) |}.

Definition null_choice_world : world :=
  world_with env_full two_containers [] [null_choice].

(** The completion service answers 200 with a message that is null. *)
Definition null_message : Response :=
  {| status_code := 200;
     body := Some (JObj (<["choices" := JArr [JObj (<["message" := JNull]> ∅)]]> ∅)) |}.

Definition null_message_world : world :=
  world_with env_full two_containers [] [null_message].

(** ** Strings *)

Section Strings.

Lemma append_nil_l (s : string) : EmptyString +:+ s = s.
Proof. reflexivity. Qed.

Lemma append_cons (x : ascii) (a b : string) : String x a +:+ b = String x (a +:+ b).
Proof. reflexivity. Qed.

Lemma append_assoc (a b c : string) : (a +:+ b) +:+ c = a +:+ (b +:+ c).
Proof.
  induction a as [|x a IH]; [reflexivity|].
  rewrite !append_cons. now rewrite IH.
Qed.

Lemma append_nil_r (a : string) : a +:+ EmptyString = a.
Proof.
  induction a as [|x a IH]; [reflexivity|].
  rewrite append_cons. now rewrite IH.
Qed.

Lemma length_append (a b : string) :
  String.length (a +:+ b) = (String.length a + String.length b)%nat.
Proof.
  induction a as [|x a IH]; [reflexivity|].
  rewrite append_cons. simpl. now rewrite IH.
Qed.

Lemma append_inj_length (a a' b b' : string) :
  String.length a = String.length a' -> a +:+ b = a' +:+ b' -> a = a' /\ b = b'.
Proof.
  revert a'. induction a as [|x a IH]; intros [|x' a'] Hl H;
    rewrite ?append_cons, ?append_nil_l in H; simpl in Hl; try discriminate.
  - split; [reflexivity | assumption].
  - injection H as -> H. injection Hl as Hl.
    destruct (IH a' Hl H) as [-> ->]. split; reflexivity.
Qed.

Lemma occurs_append (c : ascii) (a b : string) :
  occurs c (a +:+ b) = occurs c a || occurs c b.
Proof.
  induction a as [|x a IH]; [reflexivity|].
  rewrite append_cons. simpl. rewrite IH. now rewrite orb_assoc.
Qed.

Lemma all_digits_append (a b : string) :
  all_digits (a +:+ b) = all_digits a && all_digits b.
Proof.
  induction a as [|x a IH]; [reflexivity|].
  rewrite append_cons. simpl. rewrite IH. now rewrite andb_assoc.
Qed.

Lemma split_not_nil (sep : ascii) (s : string) : split sep s <> [].
Proof.
  destruct s as [|c s]; simpl; [discriminate|].
  destruct (Ascii.eqb c sep); [discriminate|].
  destruct (split sep s); discriminate.
Qed.

Lemma join_cons2 (sep a b : string) (l : list string) :
  join sep (a :: b :: l) = a +:+ sep +:+ join sep (b :: l).
Proof. reflexivity. Qed.

(** Joining the pieces with the separator gives the string back. *)
Lemma join_split (sep : ascii) (s : string) :
  join (String sep EmptyString) (split sep s) = s.
Proof.
  induction s as [|c s IH]; [reflexivity|].
  simpl split.
  destruct (Ascii.eqb_spec c sep) as [->|Hne].
  - pose proof (split_not_nil sep s) as Hnn.
    destruct (split sep s) as [|p ps] eqn:E; [contradiction|].
    rewrite join_cons2, IH. reflexivity.
  - destruct (split sep s) as [|p ps] eqn:E.
    + now destruct (split_not_nil sep s).
    + destruct ps as [|q ps].
      * simpl in *. now rewrite IH.
      * rewrite join_cons2 in *. rewrite append_cons. now rewrite IH.
Qed.

(** No piece contains the separator. *)
Lemma split_pieces (sep : ascii) (s : string) :
  Forall (fun p => occurs sep p = false) (split sep s).
Proof.
  induction s as [|c s IH]; simpl.
  - constructor; [reflexivity | constructor].
  - destruct (Ascii.eqb_spec c sep) as [->|Hne].
    + constructor; [reflexivity | assumption].
    + destruct (split sep s) as [|p ps]; simpl.
      * constructor; [|constructor]. simpl.
        destruct (Ascii.eqb_spec c sep); [contradiction | reflexivity].
      * inversion IH; subst. constructor; [|assumption]. simpl.
        destruct (Ascii.eqb_spec c sep); [contradiction | assumption].
Qed.

Lemma join_snoc (sep : string) (init : list string) (x : string) :
  init <> [] -> join sep (init ++ [x]) = join sep init +:+ sep +:+ x.
Proof.
  induction init as [|a init IH]; intros Hne; [contradiction|].
  destruct init as [|b init].
  - reflexivity.
  - change (join sep ((a :: b :: init) ++ [x]))
      with (a +:+ sep +:+ join sep ((b :: init) ++ [x])).
    rewrite IH by discriminate.
    rewrite join_cons2. now rewrite !append_assoc.
Qed.

Lemma py_index_last {A} (init : list A) (x : A) :
  py_index (init ++ [x]) (-1) = Ok x.
Proof.
  unfold py_index. rewrite length_app. simpl Datatypes.length.
  replace (-1 <? 0) with true by reflexivity.
  assert (Hj : -1 + Z.of_nat (Datatypes.length init + 1) = Z.of_nat (Datatypes.length init)) by lia.
  rewrite Hj.
  replace (0 <=? Z.of_nat (Datatypes.length init)) with true by (symmetry; apply Z.leb_le; lia).
  replace (Z.of_nat (Datatypes.length init) <? Z.of_nat (Datatypes.length init + 1))
    with true by (symmetry; apply Z.ltb_lt; lia).
  simpl. rewrite Nat2Z.id.
  rewrite lookup_app_r by lia. now rewrite Nat.sub_diag.
Qed.

Lemma snoc_view {A} (l : list A) : l <> [] -> exists init x, l = init ++ [x].
Proof.
  intros H. destruct (exists_last H) as (init & x & E). now exists init, x.
Qed.

(** [s.split(sep)[-1]] is the part of [s] after its last [sep]. *)
Lemma split_leaf (sep : ascii) (s : string) :
  exists leaf,
    py_index (split sep s) (-1) = Ok leaf /\
    occurs sep leaf = false /\
    (s = leaf \/ exists before, s = before +:+ String sep leaf).
Proof.
  destruct (snoc_view (split sep s) (split_not_nil sep s)) as (init & leaf & E).
  exists leaf. split; [rewrite E; apply py_index_last|].
  pose proof (split_pieces sep s) as HF. rewrite E in HF.
  apply Forall_app in HF as [_ HF]. inversion HF; subst.
  split; [assumption|].
  pose proof (join_split sep s) as J. rewrite E in J.
  destruct init as [|a init].
  - left. now rewrite <- J.
  - right. exists (join (String sep EmptyString) (a :: init)).
    rewrite join_snoc in J by discriminate. now rewrite <- J.
Qed.

End Strings.

(** ** The trigger *)

(** C9.  For every storage event, whatever the blob's bytes and length, the
    trigger starts exactly one orchestration, named "orchestrator", whose
    input is the leaf of the event's path: the part after the last '/', or
    the whole path when it has none.  Nothing else in the world changes. *)
Theorem blob_trigger_starts_one_instance_with_leaf (myblob : func.InputStream) (w : world) :
  exists leaf,
    blob_trigger myblob w = (log_started ("orchestrator", JStr leaf) w, Ok tt) /\
    started (fst (blob_trigger myblob w)) = started w ++ [("orchestrator", JStr leaf)] /\
    occurs slash leaf = false /\
    (func.name myblob = leaf \/
     exists before, func.name myblob = before +:+ String slash leaf).
Proof.
  destruct (split_leaf slash (func.name myblob)) as (leaf & Hidx & Hno & Hshape).
  exists leaf.
  assert (E : blob_trigger myblob w = (log_started ("orchestrator", JStr leaf) w, Ok tt)).
  { unfold blob_trigger, bind, lift. rewrite Hidx. reflexivity. }
  split; [exact E|]. split; [now rewrite E|]. split; assumption.
Qed.

(** ** Extraction *)

Section Extraction.

Lemma flat_map_lines (ps : list DocumentPage) :
  flat_map (fun p => map content (lines p)) ps = lines_in_order ps.
Proof. induction ps as [|p ps IH]; simpl; [reflexivity | now rewrite IH]. Qed.

Lemma lines_in_order_app (ps qs : list DocumentPage) :
  lines_in_order (ps ++ qs) = lines_in_order ps ++ lines_in_order qs.
Proof.
  induction ps as [|p ps IH]; simpl; [reflexivity|].
  rewrite IH. now rewrite app_assoc.
Qed.

Lemma lines_in_order_nil (ps : list DocumentPage) :
  Forall (fun p => lines p = []) ps -> lines_in_order ps = [].
Proof.
  induction 1 as [|p ps Hp _ IH]; simpl; [reflexivity|].
  rewrite Hp, IH. reflexivity.
Qed.

Lemma split_no_sep (sep : ascii) (a : string) :
  occurs sep a = false -> split sep a = [a].
Proof.
  induction a as [|c a IH]; simpl; [reflexivity|].
  intros H. apply orb_false_iff in H as [Hc Ha].
  rewrite Hc, (IH Ha). reflexivity.
Qed.

Lemma split_append_sep (sep : ascii) (a b : string) :
  occurs sep a = false -> split sep (a +:+ String sep b) = a :: split sep b.
Proof.
  induction a as [|c a IH]; intros H.
  - rewrite append_nil_l. simpl. now rewrite Ascii.eqb_refl.
  - simpl in H. apply orb_false_iff in H as [Hc Ha].
    rewrite append_cons. simpl. rewrite Hc, (IH Ha). reflexivity.
Qed.

(** Splitting a joined text at the separator gives the pieces back, in
    order, when no piece contains the separator. *)
Lemma split_join (sep : ascii) (l : list string) :
  l <> [] -> Forall (fun p => occurs sep p = false) l ->
  split sep (join (String sep EmptyString) l) = l.
Proof.
  induction l as [|a l IH]; intros Hne HF; [contradiction|].
  inversion HF as [|? ? Ha Hl]; subst.
  destruct l as [|b l].
  - simpl. now apply split_no_sep.
  - rewrite join_cons2, append_cons, append_nil_l.
    rewrite split_append_sep by assumption.
    rewrite IH by (discriminate || assumption). reflexivity.
Qed.

End Extraction.

(** C2.  When the blob is there, the service is configured and answers with
    an analysis, [analyze_pdf] returns the content of every line of every
    page, in page order then line order, joined by single newlines; with no
    line at all it returns the empty string; and when no line contains a
    newline, cutting the text at the newlines gives the lines back in that
    order. *)
Theorem analyze_pdf_joins_lines_in_order
    (g : globals) (blobName pdf endpoint key : string) (blobs : gmap string string)
    (res : AnalyzeResult) (later : list (result AnalyzeResult)) (w : world) :
  storage w !! "input" = Some blobs ->
  blobs !! blobName = Some pdf ->
  environ w !! "COGNITIVE_SERVICES_ENDPOINT" = Some endpoint ->
  environ w !! "COGNITIVE_SERVICES_KEY" = Some key ->
  layout_service w = Ok res :: later ->
  let all := lines_in_order (pages res) in
  snd (analyze_pdf g (JStr blobName) w) = Ok (JStr (join LF all)) /\
  (Forall (fun p => lines p = []) (pages res) ->
   snd (analyze_pdf g (JStr blobName) w) = Ok (JStr EmptyString)) /\
  (all <> [] -> Forall (fun l => occurs (ascii_of_nat 10) l = false) all ->
   split (ascii_of_nat 10) (join LF all) = all).
Proof.
  intros Hc Hb He Hk Hs all.
  assert (E : snd (analyze_pdf g (JStr blobName) w) = Ok (JStr (join LF all))).
  { unfold analyze_pdf, bind, lift, download_blob, os_environ,
      begin_analyze_document_result, ret. simpl as_name. cbv iota beta.
    rewrite Hc, Hb, He, Hk, Hs. cbv iota beta. simpl snd.
    now rewrite flat_map_lines. }
  split; [exact E|]. split.
  - intros Hz. rewrite E. subst all. now rewrite (lines_in_order_nil _ Hz).
  - intros Hne HF. now apply split_join.
Qed.

(** ** Persistence *)

Section Persistence.

Lemma zpad_length (width : nat) (n : Z) : String.length (zpad width n) = width.
Proof.
  revert n. induction width as [|k IH]; intros n; [reflexivity|].
  simpl zpad. rewrite length_append, IH. simpl. lia.
Qed.

Lemma digit_code (n : Z) : nat_of_ascii (digit n) = (48 + Z.to_nat (n mod 10))%nat.
Proof.
  unfold digit. apply nat_ascii_embedding.
  pose proof (Z.mod_pos_bound n 10 ltac:(lia)). lia.
Qed.

Lemma digit_is_digit (n : Z) : is_digit (digit n) = true.
Proof.
  unfold is_digit. rewrite digit_code.
  pose proof (Z.mod_pos_bound n 10 ltac:(lia)).
  apply andb_true_iff. split; apply Nat.leb_le; lia.
Qed.

Lemma digit_value_digit (n : Z) : digit_value (digit n) = n mod 10.
Proof.
  unfold digit_value. rewrite digit_code.
  pose proof (Z.mod_pos_bound n 10 ltac:(lia)). lia.
Qed.

Lemma zpad_all_digits (width : nat) (n : Z) : all_digits (zpad width n) = true.
Proof.
  revert n. induction width as [|k IH]; intros n; [reflexivity|].
  simpl zpad. rewrite all_digits_append, IH.
  change (all_digits (String (digit n) EmptyString)) with (is_digit (digit n) && true).
  now rewrite digit_is_digit.
Qed.

Lemma decimal_value_from_append (acc : Z) (a b : string) :
  decimal_value_from acc (a +:+ b) = decimal_value_from (decimal_value_from acc a) b.
Proof.
  revert acc. induction a as [|c a IH]; intros acc; [reflexivity|].
  rewrite append_cons. simpl. apply IH.
Qed.

(** The digits of [zpad] are the decimal digits of the number. *)
Lemma decimal_value_zpad (width : nat) (n : Z) :
  decimal_value (zpad width n) = n mod 10 ^ Z.of_nat width.
Proof.
  unfold decimal_value. revert n.
  induction width as [|k IH]; intros n.
  - cbn [zpad decimal_value_from Z.of_nat]. now rewrite Z.pow_0_r, Z.mod_1_r.
  - simpl zpad. rewrite decimal_value_from_append, IH.
    change (decimal_value_from ?a (String (digit n) EmptyString))
      with (10 * (n / 10 mod 10 ^ Z.of_nat k) + digit_value (digit n)).
    rewrite digit_value_digit.
    rewrite Nat2Z.inj_succ, Z.pow_succ_r by lia.
    rewrite Z.rem_mul_r by lia. lia.
Qed.

Lemma decimal_value_zpad_small (width : nat) (n : Z) :
  0 <= n < 10 ^ Z.of_nat width -> decimal_value (zpad width n) = n.
Proof. intros H. rewrite decimal_value_zpad. now apply Z.mod_small. Qed.

Lemma storage_tick (w : world) : storage (tick w) = storage w.
Proof. unfold tick. now destruct (future w). Qed.

(** The stamp has the form yyyyMMddHHmmss. *)
Lemma strftime_is_timestamp (t : datetime) :
  valid_datetime t -> is_timestamp_of t (strftime_YmdHMS t).
Proof.
  intros (Hy & Hm & Hd & HH & HM & HS).
  exists (zpad 4 (year t)), (zpad 2 (month t)), (zpad 2 (day t)),
         (zpad 2 (hour t)), (zpad 2 (minute t)), (zpad 2 (second t)).
  split; [reflexivity|].
  rewrite !zpad_length.
  rewrite !decimal_value_zpad_small by (cbn [Z.of_nat Pos.of_succ_nat Pos.succ]; lia).
  repeat split; reflexivity.
Qed.

Lemma strftime_length (t : datetime) : String.length (strftime_YmdHMS t) = 14%nat.
Proof. unfold strftime_YmdHMS. now rewrite !length_append, !zpad_length. Qed.

Lemma strftime_all_digits (t : datetime) : all_digits (strftime_YmdHMS t) = true.
Proof. unfold strftime_YmdHMS. now rewrite !all_digits_append, !zpad_all_digits. Qed.

(** What [write_summary] does with a dict that has a string under "blob"
    and a string under "summary". *)
Lemma write_summary_eq (g : globals) (d : gmap string json) (f S : string) (w : world) :
  d !! "blob" = Some (JStr f) -> d !! "summary" = Some (JStr S) ->
  write_summary g (JObj d) w =
    let out_name := f +:+ "-" +:+ strftime_YmdHMS (now w) +:+ ".txt" in
    match upload_blob (blob_svc g) "output" out_name S (tick w) with
    | (w', Ok _) => (w', Ok (JStr out_name))
    | (w', Raise e) => (w', Raise e)
    end.
Proof.
  intros Hb Hs. unfold write_summary, bind, lift, utcnow, getitem_str, ret.
  rewrite Hb, Hs. reflexivity.
Qed.

End Persistence.

(** C1.  A successful run of [write_summary] on a document name [f] and a
    summary string [S] returns the name [f-<stamp>.txt], where the stamp is
    the UTC time of the call as yyyyMMddHHmmss; no blob of that name was in
    the output container before, the container afterwards is the one
    before plus that blob with content exactly [S], and the other
    containers are untouched. *)
Theorem write_summary_creates_one_timestamped_blob
    (g : globals) (d : gmap string json) (f S : string) (w w' : world) (out : json) :
  d !! "blob" = Some (JStr f) ->
  d !! "summary" = Some (JStr S) ->
  valid_datetime (now w) ->
  write_summary g (JObj d) w = (w', Ok out) ->
  let ts := strftime_YmdHMS (now w) in
  let out_name := f +:+ "-" +:+ ts +:+ ".txt" in
  out = JStr out_name /\
  is_timestamp_of (now w) ts /\
  String.length ts = 14%nat /\ all_digits ts = true /\
  (exists before : gmap string string,
     storage w !! "output" = Some before /\
     before !! out_name = None /\
     storage w' !! "output" = Some (<[out_name := S]> before) /\
     size (<[out_name := S]> before) = Datatypes.S (size before)) /\
  (forall c : string, c <> "output" -> storage w' !! c = storage w !! c).
Proof.
  intros Hb Hs Hv Hrun ts out_name.
  rewrite (write_summary_eq g d f S w Hb Hs) in Hrun. cbv zeta in Hrun.
  fold ts in Hrun. fold out_name in Hrun.
  unfold upload_blob in Hrun. rewrite storage_tick in Hrun.
  destruct (storage w !! "output") as [before|] eqn:Hc; [|discriminate].
  destruct (before !! out_name) as [old|] eqn:Hn; [discriminate|].
  injection Hrun as <- <-.
  split; [reflexivity|].
  split; [now apply strftime_is_timestamp|].
  split; [apply strftime_length|].
  split; [apply strftime_all_digits|].
  split.
  - exists before. split; [reflexivity|]. split; [exact Hn|]. split.
    + unfold set_storage. simpl storage. rewrite storage_tick.
      apply lookup_insert_eq.
    + now apply map_size_insert_None.
  - intros c Hne. unfold set_storage. simpl storage. rewrite storage_tick.
    now apply lookup_insert_ne.
Qed.

(** ** Summarization *)

Section Summarization.

Variables (endpoint deployment key : string) (w : world).
Hypothesis Hendpoint : environ w !! "AZURE_OPENAI_ENDPOINT" = Some endpoint.
Hypothesis Hdeployment : environ w !! "AZURE_OPENAI_DEPLOYMENT_NAME" = Some deployment.
Hypothesis Hkey : environ w !! "AZURE_OPENAI_KEY" = Some key.

(** With its three settings present, [summarize_text] sends its request
    and returns what [answer_of] makes of the response. *)
Lemma summarize_text_eq (text : json) :
  summarize_text text w =
    (send_http (completion_request (rstrip slash endpoint) deployment key text) w,
     match completion_service w with
     | [] => Raise ConnectionError
     | resp :: _ => answer_of resp
     end).
Proof.
  unfold summarize_text, bind, os_environ.
  rewrite Hendpoint, Hdeployment, Hkey.
  unfold requests_post, lift, ret, answer_of, completion_request, api_ver.
  destruct (completion_service w) as [|resp rest]; [reflexivity|].
  destruct (raise_for_status resp); [|reflexivity].
  destruct (resp_json resp) as [j|]; [|reflexivity].
  destruct (getitem_str j "choices") as [choices|]; [|reflexivity].
  destruct (getitem_int choices 0) as [first|]; [|reflexivity].
  destruct (getitem_str first "message") as [message|]; [|reflexivity].
  destruct (getitem_str message "content"); reflexivity.
Qed.

End Summarization.

Lemma summarize_text_missing_endpoint (text : json) (w : world) :
  environ w !! "AZURE_OPENAI_ENDPOINT" = None ->
  summarize_text text w = (w, Raise (KeyError "AZURE_OPENAI_ENDPOINT")).
Proof. intros H. unfold summarize_text, bind, os_environ. now rewrite H. Qed.

Lemma summarize_text_missing_deployment (text : json) (w : world) (endpoint : string) :
  environ w !! "AZURE_OPENAI_ENDPOINT" = Some endpoint ->
  environ w !! "AZURE_OPENAI_DEPLOYMENT_NAME" = None ->
  summarize_text text w = (w, Raise (KeyError "AZURE_OPENAI_DEPLOYMENT_NAME")).
Proof. intros He Hd. unfold summarize_text, bind, os_environ. now rewrite He, Hd. Qed.

Lemma summarize_text_missing_key (text : json) (w : world) (endpoint deployment : string) :
  environ w !! "AZURE_OPENAI_ENDPOINT" = Some endpoint ->
  environ w !! "AZURE_OPENAI_DEPLOYMENT_NAME" = Some deployment ->
  environ w !! "AZURE_OPENAI_KEY" = None ->
  summarize_text text w = (w, Raise (KeyError "AZURE_OPENAI_KEY")).
Proof.
  intros He Hd Hk. unfold summarize_text, bind, os_environ. now rewrite He, Hd, Hk.
Qed.

Lemma py_index_0 {A} (l : list A) (x : A) : py_index l 0 = Ok x -> exists rest, l = x :: rest.
Proof.
  destruct l as [|a l]; unfold py_index; simpl.
  - discriminate.
  - replace (0 <? Z.pos (Pos.of_succ_nat (Datatypes.length l))) with true
      by (symmetry; apply Z.ltb_lt; lia).
    simpl. intros [= ->]. now exists l.
Qed.

Lemma getitem_str_Ok (v : json) (k : string) (x : json) :
  getitem_str v k = Ok x -> exists d, v = JObj d /\ d !! k = Some x.
Proof.
  destruct v; simpl; try discriminate.
  destruct (fields !! k) as [y|] eqn:E; [|discriminate].
  intros [= ->]. now exists fields.
Qed.

(** [answer_of] returns normally exactly when the document has the path,
    and then returns what is there. *)
Lemma answer_of_Ok (resp : Response) (v : json) :
  answer_of resp = Ok v ->
  exists j, body resp = Some j /\ choices_0_message_content j = Some v.
Proof.
  unfold answer_of. destruct (raise_for_status resp); [|discriminate].
  unfold resp_json. destruct (body resp) as [j|]; [|discriminate].
  destruct (getitem_str j "choices") as [choices|] eqn:E1; [|discriminate].
  destruct (getitem_int choices 0) as [first|] eqn:E2; [|discriminate].
  destruct (getitem_str first "message") as [message|] eqn:E3; [|discriminate].
  intros E4. exists j. split; [reflexivity|].
  apply getitem_str_Ok in E1 as (d & -> & Hd).
  apply getitem_str_Ok in E3 as (c & -> & Hc).
  apply getitem_str_Ok in E4 as (m & -> & Hm).
  destruct choices; simpl in E2; try discriminate.
  - destruct (py_index (list_ascii_of_string s) 0); discriminate.
  - apply py_index_0 in E2 as (rest & ->).
    simpl. rewrite Hd, Hc. exact Hm.
Qed.

Lemma answer_of_content (resp : Response) (j v : json) :
  raise_for_status resp = Ok tt ->
  body resp = Some j -> choices_0_message_content j = Some v ->
  answer_of resp = Ok v.
Proof.
  intros Hs Hb Hc. unfold answer_of, resp_json. rewrite Hs, Hb.
  destruct j as [| | | | |d]; try discriminate.
  unfold choices_0_message_content in Hc. unfold getitem_str at 1.
  destruct (d !! "choices") as [[| | | |[|[| | | | |c] rest]|]|]; try discriminate.
  assert (E0 : getitem_int (JArr (JObj c :: rest)) 0 = Ok (JObj c)) by reflexivity.
  rewrite E0. unfold getitem_str at 1.
  destruct (c !! "message") as [[| | | | |m]|]; try discriminate.
  unfold getitem_str. now rewrite Hc.
Qed.

Lemma raise_for_status_error (resp : Response) :
  400 <= status_code resp < 600 -> raise_for_status resp = Raise (HTTPError (status_code resp)).
Proof.
  intros H. unfold raise_for_status.
  replace (400 <=? status_code resp) with true by (symmetry; apply Z.leb_le; lia).
  replace (status_code resp <? 600) with true by (symmetry; apply Z.ltb_lt; lia).
  reflexivity.
Qed.

Lemma raise_for_status_pass (resp : Response) :
  ~ 400 <= status_code resp < 600 -> raise_for_status resp = Ok tt.
Proof.
  intros H. unfold raise_for_status.
  destruct (Z.leb_spec 400 (status_code resp)); [|reflexivity].
  destruct (Z.ltb_spec (status_code resp) 600); [|reflexivity].
  exfalso. apply H. lia.
Qed.

Lemma rstrip_last_other (c a : ascii) (s : string) :
  a <> c -> rstrip c (s +:+ String a EmptyString) = s +:+ String a EmptyString.
Proof.
  intros Hne. induction s as [|x s IH].
  - rewrite append_nil_l. simpl.
    destruct (Ascii.eqb_spec a c); [contradiction | reflexivity].
  - rewrite append_cons. simpl rstrip. rewrite IH.
    destruct s; reflexivity.
Qed.

(** C3, as the code has it.  With the three settings present and a response
    received: a 4xx or 5xx status makes [summarize_text] raise [HTTPError];
    any other status, the 2xx ones among them, makes it return
    [choices[0].message.content] of the response document as it is, when
    the document has it. *)
Theorem summarize_text_raises_on_4xx_5xx
    (endpoint deployment key : string) (text : json) (w : world)
    (resp : Response) (later : list Response) :
  environ w !! "AZURE_OPENAI_ENDPOINT" = Some endpoint ->
  environ w !! "AZURE_OPENAI_DEPLOYMENT_NAME" = Some deployment ->
  environ w !! "AZURE_OPENAI_KEY" = Some key ->
  completion_service w = resp :: later ->
  (400 <= status_code resp < 600 ->
   snd (summarize_text text w) = Raise (HTTPError (status_code resp))) /\
  (~ 400 <= status_code resp < 600 ->
   forall j v, body resp = Some j -> choices_0_message_content j = Some v ->
   snd (summarize_text text w) = Ok v) /\
  (is_success (status_code resp) ->
   forall j v, body resp = Some j -> choices_0_message_content j = Some v ->
   snd (summarize_text text w) = Ok v).
Proof.
  intros He Hd Hk Hs.
  rewrite (summarize_text_eq endpoint deployment key w He Hd Hk text), Hs.
  simpl snd. split; [|split].
  - intros H. unfold answer_of. now rewrite raise_for_status_error.
  - intros H j v Hb Hc. apply (answer_of_content resp j v); auto.
    now apply raise_for_status_pass.
  - intros H j v Hb Hc. apply (answer_of_content resp j v); auto.
    apply raise_for_status_pass. unfold is_success in H. lia.
Qed.

Lemma getitem_int_first (x : json) (rest : list json) :
  getitem_int (JArr (x :: rest)) 0 = Ok x.
Proof.
  unfold getitem_int, py_index. simpl Datatypes.length.
  replace (0 <? Z.of_nat (S (Datatypes.length rest)))
    with true by (symmetry; apply Z.ltb_lt; lia).
  reflexivity.
Qed.

Lemma getitem_int_first_char (a : ascii) (s : string) :
  getitem_int (JStr (String a s)) 0 = Ok (JStr (String a EmptyString)).
Proof.
  unfold getitem_int, py_index. simpl list_ascii_of_string. simpl Datatypes.length.
  replace (0 <? Z.of_nat (S (Datatypes.length (list_ascii_of_string s))))
    with true by (symmetry; apply Z.ltb_lt; lia).
  reflexivity.
Qed.

(** On a status that passes, a document without the path makes the lookups
    of line 79 raise: a lookup error, or [TypeError] where a value that is
    not an object is subscripted by a name. *)
Lemma answer_of_without_content (resp : Response) (j : json) :
  raise_for_status resp = Ok tt -> body resp = Some j ->
  choices_0_message_content j = None ->
  exists e, answer_of resp = Raise e /\ (is_LookupError e = true \/ e = TypeError).
Proof.
  intros Hs Hb Hc. unfold answer_of, resp_json. rewrite Hs, Hb.
  destruct j as [| | | | |d]; try (exists TypeError; split; [reflexivity | now right]).
  unfold choices_0_message_content in Hc. unfold getitem_str at 1.
  destruct (d !! "choices") as [c|];
    [|exists (KeyError "choices"); split; [reflexivity | now left]].
  destruct c as [| | |s|items|o];
    try (exists TypeError; split; [reflexivity | now right]).
  - destruct s as [|a s].
    + exists IndexError. split; [reflexivity | now left].
    + rewrite getitem_int_first_char. exists TypeError. split; [reflexivity | now right].
  - destruct items as [|x rest]; [exists IndexError; split; [reflexivity | now left]|].
    rewrite getitem_int_first.
    destruct x as [| | | | |first];
      try (exists TypeError; split; [reflexivity | now right]).
    unfold getitem_str at 1.
    destruct (first !! "message") as [m|];
      [|exists (KeyError "message"); split; [reflexivity | now left]].
    destruct m as [| | | | |m];
      try (exists TypeError; split; [reflexivity | now right]).
    unfold getitem_str. rewrite Hc.
    exists (KeyError "content"). split; [reflexivity | now left].
  - exists (KeyError "0"). split; [reflexivity | now left].
Qed.

(** C10, as the code has it.  With the three settings present and a
    response of success status:
    - a document that is an object without "choices", or with an empty list
      of choices, or whose first choice is an object without "message", or
      whose message is an object without "content", makes [summarize_text]
      raise a lookup error ([KeyError] or [IndexError]);
    - a document, a first choice or a message that is not an object (null,
      say) makes it raise [TypeError], which is not a lookup error;
    - whenever it returns a value, that value is
      [choices[0].message.content] of the response document; a document
      without that path never makes it return: it raises a lookup error or
      [TypeError]. *)
Theorem summarize_text_lookup_errors
    (endpoint deployment key : string) (text : json) (w : world)
    (resp : Response) (later : list Response) :
  environ w !! "AZURE_OPENAI_ENDPOINT" = Some endpoint ->
  environ w !! "AZURE_OPENAI_DEPLOYMENT_NAME" = Some deployment ->
  environ w !! "AZURE_OPENAI_KEY" = Some key ->
  completion_service w = resp :: later ->
  is_success (status_code resp) ->
  (forall d, body resp = Some (JObj d) -> d !! "choices" = None ->
     snd (summarize_text text w) = Raise (KeyError "choices")) /\
  (forall d, body resp = Some (JObj d) -> d !! "choices" = Some (JArr []) ->
     snd (summarize_text text w) = Raise IndexError) /\
  (forall d c rest, body resp = Some (JObj d) ->
     d !! "choices" = Some (JArr (JObj c :: rest)) -> c !! "message" = None ->
     snd (summarize_text text w) = Raise (KeyError "message")) /\
  (forall d c rest m, body resp = Some (JObj d) ->
     d !! "choices" = Some (JArr (JObj c :: rest)) -> c !! "message" = Some (JObj m) ->
     m !! "content" = None ->
     snd (summarize_text text w) = Raise (KeyError "content")) /\
  (forall j, body resp = Some j -> is_object j = false ->
     snd (summarize_text text w) = Raise TypeError) /\
  (forall d c rest, body resp = Some (JObj d) ->
     d !! "choices" = Some (JArr (c :: rest)) -> is_object c = false ->
     snd (summarize_text text w) = Raise TypeError) /\
  (forall d c rest m, body resp = Some (JObj d) ->
     d !! "choices" = Some (JArr (JObj c :: rest)) -> c !! "message" = Some m ->
     is_object m = false ->
     snd (summarize_text text w) = Raise TypeError) /\
  (forall v, snd (summarize_text text w) = Ok v ->
     exists j, body resp = Some j /\ choices_0_message_content j = Some v) /\
  (forall j, body resp = Some j -> choices_0_message_content j = None ->
     exists e, snd (summarize_text text w) = Raise e /\
               (is_LookupError e = true \/ e = TypeError)) /\
  (forall k, is_LookupError (KeyError k) = true) /\
  is_LookupError IndexError = true /\
  is_LookupError TypeError = false.
Proof.
  intros He Hd Hk Hs Hok.
  rewrite (summarize_text_eq endpoint deployment key w He Hd Hk text), Hs.
  simpl snd.
  assert (Hpass : raise_for_status resp = Ok tt).
  { apply raise_for_status_pass. unfold is_success in Hok. lia. }
  split; [|split; [|split; [|split; [|split; [|split; [|split; [|split; [|split]]]]]]]].
  - intros d Hb Hc. unfold answer_of, resp_json, getitem_str.
    now rewrite Hpass, Hb, Hc.
  - intros d Hb Hc. unfold answer_of, resp_json. rewrite Hpass, Hb.
    unfold getitem_str at 1. now rewrite Hc.
  - intros d c rest Hb Hc Hm. unfold answer_of, resp_json. rewrite Hpass, Hb.
    unfold getitem_str at 1. rewrite Hc, getitem_int_first.
    unfold getitem_str. now rewrite Hm.
  - intros d c rest m Hb Hc Hm Hn. unfold answer_of, resp_json. rewrite Hpass, Hb.
    unfold getitem_str at 1. rewrite Hc, getitem_int_first.
    unfold getitem_str. now rewrite Hm, Hn.
  - intros j Hb Hj. unfold answer_of, resp_json. rewrite Hpass, Hb.
    destruct j; try reflexivity. discriminate.
  - intros d c rest Hb Hc Hj. unfold answer_of, resp_json. rewrite Hpass, Hb.
    unfold getitem_str at 1. rewrite Hc, getitem_int_first.
    destruct c; try reflexivity. discriminate.
  - intros d c rest m Hb Hc Hm Hj. unfold answer_of, resp_json. rewrite Hpass, Hb.
    unfold getitem_str at 1. rewrite Hc, getitem_int_first.
    unfold getitem_str at 1. rewrite Hm.
    destruct m; try reflexivity. discriminate.
  - intros v Hv. now apply answer_of_Ok.
  - intros j Hb Hn. now apply (answer_of_without_content resp j).
  - repeat split.
Qed.

(** C8.  With the three settings present, [summarize_text] sends, whatever
    the text and whatever comes back, exactly one request: a POST to
    <endpoint>/openai/deployments/<deployment>/chat/completions with the
    api-version 2025-01-01-preview, where the endpoint has lost its
    trailing slashes, the key in the [api-key] header, and a body of one
    user message holding the text and [max_tokens] 200. *)
Theorem summarize_text_posts_one_request
    (endpoint deployment key : string) (text : json) (w : world) :
  environ w !! "AZURE_OPENAI_ENDPOINT" = Some endpoint ->
  environ w !! "AZURE_OPENAI_DEPLOYMENT_NAME" = Some deployment ->
  environ w !! "AZURE_OPENAI_KEY" = Some key ->
  let w' := fst (summarize_text text w) in
  let req := completion_request (rstrip slash endpoint) deployment key text in
  posted w' = posted w ++ [req] /\
  method req = "POST" /\
  url req = rstrip slash endpoint +:+ "/openai/deployments/" +:+ deployment +:+
            "/chat/completions?api-version=2025-01-01-preview" /\
  (forall e a, endpoint = e +:+ String a EmptyString -> a <> slash ->
     rstrip slash endpoint = endpoint) /\
  headers req !! "api-key" = Some key /\
  getitem_str (payload req) "max_tokens" = Ok (JNum 200) /\
  (exists msg : gmap string json,
     getitem_str (payload req) "messages" = Ok (JArr [JObj msg]) /\
     msg !! "role" = Some (JStr "user") /\ msg !! "content" = Some text /\
     dom msg = {["role"; "content"]}) /\
  (exists fields, payload req = JObj fields /\ dom fields = {["messages"; "max_tokens"]}).
Proof.
  intros He Hd Hk w' req. subst w'.
  rewrite (summarize_text_eq endpoint deployment key w He Hd Hk text).
  simpl fst.
  split; [reflexivity|]. split; [reflexivity|]. split; [reflexivity|].
  split; [|split; [|split; [|split]]].
  - intros e a -> Hne. now apply rstrip_last_other.
  - unfold req, completion_request. simpl headers. apply lookup_insert_eq.
  - unfold req, completion_request. simpl payload. unfold getitem_str.
    rewrite lookup_insert_ne by discriminate. now rewrite lookup_insert_eq.
  - eexists. split; [|split; [|split]].
    + unfold req, completion_request. simpl payload. unfold getitem_str.
      rewrite lookup_insert_eq. reflexivity.
    + apply lookup_insert_eq.
    + rewrite lookup_insert_ne by discriminate. apply lookup_insert_eq.
    + rewrite !dom_insert_L, dom_empty_L. set_solver.
  - eexists. split; [reflexivity|].
    rewrite !dom_insert_L, dom_empty_L. set_solver.
Qed.

(** ** The orchestration *)

(** C4.  Whatever the input and whatever the activities return, the
    orchestrator yields exactly three tasks, in this order: extraction on
    its input, summarization on what extraction returned, persistence on
    the input together with what summarization returned; then it returns
    what persistence returned.  Sent fewer results it has not returned. *)
Theorem orchestrator_three_activities_in_order
    (context : df.DurableOrchestrationContext) (text summary outblob : json)
    (more : list json) :
  let blob_name := df.get_input context in
  let opts := {| df.first_retry_interval_in_milliseconds := 5000;
                 df.max_number_of_attempts := 3 |} in
  let extraction := df.call_activity_with_retry "analyze_pdf" opts blob_name in
  let summarization := df.call_activity_with_retry "summarize_text" opts text in
  let persistence := df.call_activity_with_retry "write_summary" opts
        (JObj (<["blob" := blob_name]> (<["summary" := summary]> ∅))) in
  drive (orchestrator context) (text :: summary :: outblob :: more)
    = ([extraction; summarization; persistence], Some outblob) /\
  drive (orchestrator context) [text; summary]
    = ([extraction; summarization; persistence], None) /\
  drive (orchestrator context) [text] = ([extraction; summarization], None) /\
  drive (orchestrator context) [] = ([extraction], None) /\
  (exists d : gmap string json,
     persistence = df.call_activity_with_retry "write_summary" opts (JObj d) /\
     d !! "blob" = Some blob_name /\ d !! "summary" = Some summary).
Proof.
  cbv zeta. repeat (split; [reflexivity|]).
  eexists. split; [reflexivity|]. split.
  - apply lookup_insert_eq.
  - rewrite lookup_insert_ne by discriminate. apply lookup_insert_eq.
Qed.

Section Host.

Lemma invoked_tick (w : world) : invoked (tick w) = invoked w.
Proof. unfold tick. now destruct (future w). Qed.

Lemma timers_tick (w : world) : timers (tick w) = timers w.
Proof. unfold tick. now destruct (future w). Qed.

Lemma environ_tick (w : world) : environ (tick w) = environ w.
Proof. unfold tick. now destruct (future w). Qed.

Lemma posted_tick (w : world) : posted (tick w) = posted w.
Proof. unfold tick. now destruct (future w). Qed.

Lemma completion_service_tick (w : world) : completion_service (tick w) = completion_service w.
Proof. unfold tick. now destruct (future w). Qed.

(** The world after [analyze_pdf]: as before, or with one document sent. *)
Lemma analyze_pdf_world (g : globals) (x : json) (w : world) :
  fst (analyze_pdf g x w) = w \/ exists r, fst (analyze_pdf g x w) = send_analyze r w.
Proof.
  unfold analyze_pdf, bind, lift, download_blob, os_environ,
    begin_analyze_document_result, ret.
  destruct (as_name x) as [blob|]; [|now left].
  destruct (storage w !! "input") as [blobs|]; [|now left].
  destruct (blobs !! blob) as [pdf|]; [|now left].
  destruct (environ w !! "COGNITIVE_SERVICES_ENDPOINT"); [|now left].
  destruct (environ w !! "COGNITIVE_SERVICES_KEY"); [|now left].
  right. eexists.
  destruct (layout_service w) as [|[res|e] rest]; reflexivity.
Qed.

(** The world after [summarize_text]: as before, or with one request sent. *)
Lemma summarize_text_world (x : json) (w : world) :
  fst (summarize_text x w) = w \/ exists r, fst (summarize_text x w) = send_http r w.
Proof.
  destruct (environ w !! "AZURE_OPENAI_ENDPOINT") as [e|] eqn:He.
  2:{ left. now rewrite summarize_text_missing_endpoint. }
  destruct (environ w !! "AZURE_OPENAI_DEPLOYMENT_NAME") as [d|] eqn:Hd.
  2:{ left. now rewrite (summarize_text_missing_deployment x w e). }
  destruct (environ w !! "AZURE_OPENAI_KEY") as [k|] eqn:Hk.
  2:{ left. now rewrite (summarize_text_missing_key x w e d). }
  right. eexists. now rewrite (summarize_text_eq e d k w He Hd Hk x).
Qed.

(** [write_summary] either raises, the storage being as before, or uploads
    one blob. *)
Lemma write_summary_world (g : globals) (x : json) (w : world) :
  (exists e, snd (write_summary g x w) = Raise e /\
             (fst (write_summary g x w) = w \/ fst (write_summary g x w) = tick w)) \/
  (exists f v, snd (write_summary g x w) = Ok v /\
               fst (write_summary g x w) = set_storage f (tick w)).
Proof.
  unfold write_summary, bind, lift, utcnow, upload_blob, ret.
  destruct (getitem_str x "blob") as [b|]; [|left; eexists; split; [reflexivity|now left]].
  destruct (getitem_str x "summary") as [s|]; [|left; eexists; split; [reflexivity|now left]].
  destruct (as_name b) as [f|]; [|left; eexists; split; [reflexivity|now right]].
  destruct (as_data s) as [d|]; [|left; eexists; split; [reflexivity|now right]].
  destruct (storage (tick w) !! "output") as [blobs|];
    [|left; eexists; split; [reflexivity|now right]].
  destruct (blobs !! (f +:+ "-" +:+ strftime_YmdHMS (now w) +:+ ".txt"));
    [left; eexists; split; [reflexivity|now right]|].
  right. eexists _, _. split; reflexivity.
Qed.

Lemma analyze_pdf_quiet (g : globals) : quiet (analyze_pdf g).
Proof.
  intros x w. destruct (analyze_pdf_world g x w) as [->|[r ->]]; split; reflexivity.
Qed.

Lemma summarize_text_quiet : quiet summarize_text.
Proof.
  intros x w. destruct (summarize_text_world x w) as [->|[r ->]]; split; reflexivity.
Qed.

Lemma write_summary_quiet (g : globals) : quiet (write_summary g).
Proof.
  intros x w.
  destruct (write_summary_world g x w) as [(e & _ & [->| ->])|(f & v & _ & ->)];
    unfold set_storage; simpl; rewrite ?invoked_tick, ?timers_tick; split; reflexivity.
Qed.

Lemma analyze_pdf_keeps_storage (g : globals) : keeps_storage (analyze_pdf g).
Proof.
  intros x w. destruct (analyze_pdf_world g x w) as [->|[r ->]]; reflexivity.
Qed.

Lemma summarize_text_keeps_storage : keeps_storage summarize_text.
Proof.
  intros x w. destruct (summarize_text_world x w) as [->|[r ->]]; reflexivity.
Qed.

Lemma write_summary_keeps_storage_when_failing (g : globals) :
  keeps_storage_when_failing (write_summary g).
Proof.
  intros x w w' e H.
  destruct (write_summary_world g x w) as [(e' & _ & [E|E])|(f & v & Hv & _)].
  - rewrite H in E. simpl in E. now subst.
  - rewrite H in E. simpl in E. subst. apply storage_tick.
  - rewrite H in Hv. discriminate.
Qed.

Lemma keeps_storage_failing (act : json -> M json) :
  keeps_storage act -> keeps_storage_when_failing act.
Proof. intros H x w w' e E. specialize (H x w). now rewrite E in H. Qed.

Variables (act : json -> M json) (name : string) (delay : Z) (x : json).
Hypothesis act_quiet : quiet act.

(** The executions and the timers of a task: one execution more than
    timers, and as many timers as retries allowed when the task fails. *)
Lemma attempt_log (retries : nat) (w w' : world) (r : result json) :
  attempt retries delay name act x w = (w', r) ->
  exists k : nat,
    (k <= retries)%nat /\
    invoked w' = invoked w ++ repeat (name, x) (S k) /\
    timers w' = timers w ++ repeat delay k /\
    (forall e, r = Raise e -> k = retries).
Proof.
  revert w. induction retries as [|n IH]; intros w H; simpl in H.
  - destruct (act x (log_invoked (name, x) w)) as [w1 [v|e]] eqn:E;
      injection H as <- <-; exists 0%nat;
      pose proof (act_quiet x (log_invoked (name, x) w)) as [Hi Ht];
      rewrite E in Hi, Ht; simpl in Hi, Ht;
      (split; [lia|]); (split; [exact Hi|]);
      (split; [now rewrite Ht, app_nil_r|]); intros; reflexivity.
  - destruct (act x (log_invoked (name, x) w)) as [w1 [v|e]] eqn:E;
      pose proof (act_quiet x (log_invoked (name, x) w)) as [Hi Ht];
      rewrite E in Hi, Ht; simpl in Hi, Ht.
    + injection H as <- <-. exists 0%nat.
      split; [lia|]. split; [exact Hi|]. split; [now rewrite Ht, app_nil_r|].
      intros; discriminate.
    + unfold bind, sleep in H.
      apply IH in H as (k & Hk & Hi' & Ht' & Hr).
      rewrite invoked_tick in Hi'. rewrite timers_tick in Ht'.
      simpl in Hi', Ht'. exists (S k).
      split; [lia|]. split; [|split].
      * rewrite Hi', Hi. now rewrite <- app_assoc.
      * rewrite Ht', Ht. now rewrite <- app_assoc.
      * intros e' He'. now rewrite (Hr e' He').
Qed.

Lemma attempt_storage_failing (retries : nat) (w w' : world) (e : exn) :
  keeps_storage_when_failing act ->
  attempt retries delay name act x w = (w', Raise e) -> storage w' = storage w.
Proof.
  intros Hk. revert w. induction retries as [|n IH]; intros w H; simpl in H.
  - destruct (act x (log_invoked (name, x) w)) as [w1 [v|e1]] eqn:E; [discriminate|].
    injection H as <- <-. now rewrite (Hk _ _ _ _ E).
  - destruct (act x (log_invoked (name, x) w)) as [w1 [v|e1]] eqn:E; [discriminate|].
    unfold bind, sleep in H. apply IH in H.
    rewrite storage_tick in H. simpl in H. rewrite H. now rewrite (Hk _ _ _ _ E).
Qed.

Lemma attempt_storage (retries : nat) (w : world) :
  keeps_storage act ->
  storage (fst (attempt retries delay name act x w)) = storage w.
Proof.
  intros Hk. revert w. induction retries as [|n IH]; intros w; simpl.
  - pose proof (Hk x (log_invoked (name, x) w)) as H.
    destruct (act x (log_invoked (name, x) w)) as [w1 [v|e1]]; exact H.
  - pose proof (Hk x (log_invoked (name, x) w)) as H.
    destruct (act x (log_invoked (name, x) w)) as [w1 [v|e1]]; [exact H|].
    unfold bind, sleep. simpl in H.
    specialize (IH (tick (log_timer delay w1))).
    destruct (attempt n delay name act x (tick (log_timer delay w1))) as [w2 [v|e2]];
      simpl in *; rewrite IH, storage_tick; exact H.
Qed.

(** What the host's steps and the activity leave alone, a task leaves
    alone. *)
Lemma attempt_keeps {A} (f : world -> A) (retries : nat) (w : world) :
  (forall p u, f (log_invoked p u) = f u) ->
  (forall d u, f (tick (log_timer d u)) = f u) ->
  (forall y u, f (fst (act y u)) = f u) ->
  f (fst (attempt retries delay name act x w)) = f w.
Proof.
  intros Hi Ht Ha. revert w. induction retries as [|n IH]; intros w; simpl.
  - pose proof (Ha x (log_invoked (name, x) w)) as H. rewrite Hi in H.
    destruct (act x (log_invoked (name, x) w)) as [w1 [v|e1]]; exact H.
  - pose proof (Ha x (log_invoked (name, x) w)) as H. rewrite Hi in H.
    destruct (act x (log_invoked (name, x) w)) as [w1 [v|e1]]; [exact H|].
    unfold bind, sleep. simpl in H.
    specialize (IH (tick (log_timer delay w1))). rewrite Ht in IH.
    destruct (attempt n delay name act x (tick (log_timer delay w1))) as [w2 [v|e2]];
      simpl in *; now rewrite IH.
Qed.

End Host.

(** The host's run of one instance, task by task. *)
Lemma run_instance_eq (g : globals) (input : json) (w : world) :
  run_instance g input w =
    match attempt 2 5000 "analyze_pdf" (analyze_pdf g) input w with
    | (w1, Raise e) => (w1, Raise e)
    | (w1, Ok text) =>
        match attempt 2 5000 "summarize_text" summarize_text text w1 with
        | (w2, Raise e) => (w2, Raise e)
        | (w2, Ok summary) =>
            match attempt 2 5000 "write_summary" (write_summary g)
                    (JObj (<["blob" := input]> (<["summary" := summary]> ∅))) w2 with
            | (w3, Raise e) => (w3, Raise e)
            | (w3, Ok outblob) => (w3, Ok outblob)
            end
        end
    end.
Proof.
  unfold run_instance, orchestrator. cbn [run_orchestration df.get_input].
  change (run_task g (df.call_activity_with_retry "analyze_pdf" ?o input))
    with (attempt 2 5000 "analyze_pdf" (analyze_pdf g) input).
  destruct (attempt 2 5000 "analyze_pdf" (analyze_pdf g) input w) as [w1 [text|e]];
    [|reflexivity].
  change (run_task g (df.call_activity_with_retry "summarize_text" ?o text))
    with (attempt 2 5000 "summarize_text" summarize_text text).
  destruct (attempt 2 5000 "summarize_text" summarize_text text w1) as [w2 [summary|e]];
    [|reflexivity].
  change (run_task g (df.call_activity_with_retry "write_summary" ?o ?i))
    with (attempt 2 5000 "write_summary" (write_summary g) i).
  destruct (attempt 2 5000 "write_summary" (write_summary g) _ w2) as [w3 [out|e]];
    reflexivity.
Qed.

(** A successful instance is the chain of its three tasks, each fed the
    result of the one before, and its result is the result of the last. *)
Lemma successful_instance_chain (g : globals) (input outblob : json) (w w' : world) :
  run_instance g input w = (w', Ok outblob) ->
  exists w1 w2 text summary,
    attempt 2 5000 "analyze_pdf" (analyze_pdf g) input w = (w1, Ok text) /\
    attempt 2 5000 "summarize_text" summarize_text text w1 = (w2, Ok summary) /\
    attempt 2 5000 "write_summary" (write_summary g)
      (JObj (<["blob" := input]> (<["summary" := summary]> ∅))) w2 = (w', Ok outblob).
Proof.
  rewrite run_instance_eq.
  destruct (attempt 2 5000 "analyze_pdf" (analyze_pdf g) input w) as [w1 [text|e1]] eqn:E1;
    [|discriminate].
  destruct (attempt 2 5000 "summarize_text" summarize_text text w1) as [w2 [summary|e2]] eqn:E2;
    [|discriminate].
  destruct (attempt 2 5000 "write_summary" (write_summary g) _ w2) as [w3 [out|e3]] eqn:E3;
    [|discriminate].
  intros [= <- <-]. exists w1, w2, text, summary. repeat split; assumption.
Qed.

Lemma Forall_repeat {A} (P : A -> Prop) (a : A) (n : nat) : P a -> Forall P (repeat a n).
Proof. intros H. induction n; simpl; constructor; assumption. Qed.

(** Executions of extraction and summarization are not executions of
    persistence. *)
Ltac other_steps :=
  repeat (apply Forall_app; split);
  first [ apply Forall_repeat; discriminate
        | repeat (constructor; [discriminate|]); constructor ].

(** When an instance fails, no blob has been created or removed; the
    executions it added to the log end with three executions of the step
    that failed, after two waits of 5000 ms; before them there is no
    execution of the persistence activity; so persistence was never
    executed unless it is itself the step that failed. *)
Lemma failed_instance_log
    (g : globals) (input : json) (w w' : world) (e : exn) :
  run_instance g input w = (w', Raise e) ->
  storage w' = storage w /\
  exists (done : list (string * json)) (failed : string) (x : json) (earlier : list Z),
    invoked w' = invoked w ++ done ++ repeat (failed, x) 3 /\
    timers w' = timers w ++ earlier ++ [5000; 5000] /\
    (failed = "analyze_pdf" \/ failed = "summarize_text" \/ failed = "write_summary") /\
    Forall (fun p => fst p <> "write_summary") done /\
    (failed <> "write_summary" ->
     Forall (fun p => fst p <> "write_summary") (done ++ repeat (failed, x) 3)).
Proof.
  rewrite run_instance_eq.
  destruct (attempt 2 5000 "analyze_pdf" (analyze_pdf g) input w) as [w1 [text|e1]] eqn:E1.
  2:{ intros [= <- <-].
      split; [apply (attempt_storage_failing _ _ _ _ _ _ _ _
                       (keeps_storage_failing _ (analyze_pdf_keeps_storage g)) E1)|].
      apply (attempt_log _ _ _ _ (analyze_pdf_quiet g)) in E1 as (k & _ & Hi & Ht & Hr).
      rewrite (Hr _ eq_refl) in Hi, Ht.
      exists [], "analyze_pdf", input, []. simpl app.
      split; [exact Hi|]. split; [exact Ht|]. split; [now left|].
      split; [constructor|]. intros _. other_steps. }
  pose proof (attempt_storage _ "analyze_pdf" 5000 input 2 w (analyze_pdf_keeps_storage g)) as S1.
  rewrite E1 in S1. simpl in S1.
  apply (attempt_log _ _ _ _ (analyze_pdf_quiet g)) in E1 as (k1 & _ & Hi1 & Ht1 & _).
  destruct (attempt 2 5000 "summarize_text" summarize_text text w1) as [w2 [summary|e2]] eqn:E2.
  2:{ intros [= <- <-].
      split; [rewrite <- S1;
              apply (attempt_storage_failing _ _ _ _ _ _ _ _
                       (keeps_storage_failing _ summarize_text_keeps_storage) E2)|].
      apply (attempt_log _ _ _ _ summarize_text_quiet) in E2 as (k & _ & Hi & Ht & Hr).
      rewrite (Hr _ eq_refl) in Hi, Ht.
      exists (repeat ("analyze_pdf", input) (S k1)), "summarize_text", text, (repeat 5000 k1).
      split; [rewrite Hi, Hi1; now rewrite <- app_assoc|].
      split; [rewrite Ht, Ht1; now rewrite <- app_assoc|].
      split; [right; now left|].
      split; [other_steps|].
      intros _. other_steps. }
  pose proof (attempt_storage _ "summarize_text" 5000 text 2 w1 summarize_text_keeps_storage) as S2.
  rewrite E2 in S2. simpl in S2.
  apply (attempt_log _ _ _ _ summarize_text_quiet) in E2 as (k2 & _ & Hi2 & Ht2 & _).
  destruct (attempt 2 5000 "write_summary" (write_summary g) _ w2) as [w3 [out|e3]] eqn:E3;
    [discriminate|].
  intros [= <- <-].
  split; [rewrite <- S1, <- S2;
          apply (attempt_storage_failing _ _ _ _ _ _ _ _
                   (write_summary_keeps_storage_when_failing g) E3)|].
  apply (attempt_log _ _ _ _ (write_summary_quiet g)) in E3 as (k & _ & Hi & Ht & Hr).
  rewrite (Hr _ eq_refl) in Hi, Ht.
  exists (repeat ("analyze_pdf", input) (S k1) ++ repeat ("summarize_text", text) (S k2)),
         "write_summary", (JObj (<["blob" := input]> (<["summary" := summary]> ∅))),
         (repeat 5000 k1 ++ repeat 5000 k2).
  split; [rewrite Hi, Hi2, Hi1; now rewrite <- !app_assoc|].
  split; [rewrite Ht, Ht2, Ht1; now rewrite <- !app_assoc|].
  split; [right; now right|].
  split; [other_steps|].
  intros H. now destruct H.
Qed.

(** ** The retry ceiling *)

(** The host's run of a task with the orchestrator's options fails exactly
    when the step exhausts its ceiling, and returns exactly when the step
    returns within it. *)
Lemma attempt_exhausts (act : json -> M json) (name : string) (x : json)
    (w w' : world) (e : exn) :
  attempt 2 5000 name act x w = (w', Raise e) <-> exhausts name act x w = Some (w', e).
Proof.
  unfold exhausts, execution, after_wait. cbn [attempt]. unfold bind, sleep.
  destruct (act x (log_invoked (name, x) w)) as [w1 [v1|e1]]; [split; discriminate|].
  destruct (act x (log_invoked (name, x) (tick (log_timer 5000 w1)))) as [w2 [v2|e2]];
    [split; discriminate|].
  destruct (act x (log_invoked (name, x) (tick (log_timer 5000 w2)))) as [w3 [v3|e3]];
    [split; discriminate|].
  split; intros [= <- <-]; reflexivity.
Qed.

Lemma attempt_returns_within (act : json -> M json) (name : string) (x : json)
    (w w' : world) (v : json) :
  attempt 2 5000 name act x w = (w', Ok v) <-> returns_within name act x w = Some (w', v).
Proof.
  unfold returns_within, execution, after_wait. cbn [attempt]. unfold bind, sleep.
  destruct (act x (log_invoked (name, x) w)) as [w1 [v1|e1]];
    [split; intros [= <- <-]; reflexivity|].
  destruct (act x (log_invoked (name, x) (tick (log_timer 5000 w1)))) as [w2 [v2|e2]];
    [split; intros [= <- <-]; reflexivity|].
  destruct (act x (log_invoked (name, x) (tick (log_timer 5000 w2)))) as [w3 [v3|e3]];
    [split; intros [= <- <-]; reflexivity|].
  split; discriminate.
Qed.

Lemma executions_since_app (w w' : world) (added : list (string * json)) :
  invoked w' = invoked w ++ added -> executions_since w w' = added.
Proof. intros H. unfold executions_since. rewrite H. apply drop_app_length. Qed.

(** A step that exhausts its ceiling was executed three times, with two
    waits of 5000 ms. *)
Lemma exhausts_log (act : json -> M json) (name : string) (x : json)
    (w w' : world) (e : exn) :
  quiet act ->
  exhausts name act x w = Some (w', e) ->
  invoked w' = invoked w ++ repeat (name, x) 3 /\ timers w' = timers w ++ [5000; 5000].
Proof.
  intros Hq H. apply attempt_exhausts in H.
  apply (attempt_log _ _ _ _ Hq) in H as (k & _ & Hi & Ht & Hr).
  rewrite (Hr _ eq_refl) in Hi, Ht. split; assumption.
Qed.

(** A step that returns within its ceiling was executed once, twice or
    three times, and the host waited before each execution but the first. *)
Lemma returns_within_log (act : json -> M json) (name : string) (x : json)
    (w w' : world) (v : json) :
  quiet act ->
  returns_within name act x w = Some (w', v) ->
  exists k : nat, (1 <= k <= 3)%nat /\
    invoked w' = invoked w ++ repeat (name, x) k /\
    timers w' = timers w ++ repeat 5000 (Nat.pred k).
Proof.
  intros Hq H. apply attempt_returns_within in H.
  apply (attempt_log _ _ _ _ Hq) in H as (k & Hk & Hi & Ht & _).
  exists (S k). split; [lia|]. split; assumption.
Qed.

Lemma returns_within_storage (act : json -> M json) (name : string) (x : json)
    (w w' : world) (v : json) :
  keeps_storage act ->
  returns_within name act x w = Some (w', v) -> storage w' = storage w.
Proof.
  intros Hk H. apply attempt_returns_within in H.
  pose proof (attempt_storage act name 5000 x 2 w Hk) as S. now rewrite H in S.
Qed.

(** One execution of [summarize_text] against an error status. *)
Lemma execution_summarize_text_error (endpoint deployment key : string) (text : json)
    (w : world) (r : Response) (rest : list Response) :
  environ w !! "AZURE_OPENAI_ENDPOINT" = Some endpoint ->
  environ w !! "AZURE_OPENAI_DEPLOYMENT_NAME" = Some deployment ->
  environ w !! "AZURE_OPENAI_KEY" = Some key ->
  completion_service w = r :: rest ->
  is_error_status (status_code r) ->
  execution "summarize_text" summarize_text text w =
    (send_http (completion_request (rstrip slash endpoint) deployment key text)
       (log_invoked ("summarize_text", text) w),
     Raise (HTTPError (status_code r))).
Proof.
  intros He Hd Hk Hs Hr. unfold execution.
  rewrite (summarize_text_eq endpoint deployment key
             (log_invoked ("summarize_text", text) w) He Hd Hk text).
  change (completion_service (log_invoked ("summarize_text", text) w))
    with (completion_service w).
  rewrite Hs. unfold answer_of. now rewrite raise_for_status_error.
Qed.

(** Three error statuses in a row exhaust the summarization step. *)
Lemma summarize_text_exhausts (endpoint deployment key : string) (text : json)
    (w : world) (r1 r2 r3 : Response) (rest : list Response) :
  environ w !! "AZURE_OPENAI_ENDPOINT" = Some endpoint ->
  environ w !! "AZURE_OPENAI_DEPLOYMENT_NAME" = Some deployment ->
  environ w !! "AZURE_OPENAI_KEY" = Some key ->
  completion_service w = r1 :: r2 :: r3 :: rest ->
  is_error_status (status_code r1) ->
  is_error_status (status_code r2) ->
  is_error_status (status_code r3) ->
  exists w',
    exhausts "summarize_text" summarize_text text w = Some (w', HTTPError (status_code r3)) /\
    posted w' = posted w ++
      repeat (completion_request (rstrip slash endpoint) deployment key text) 3 /\
    completion_service w' = rest.
Proof.
  intros He Hd Hk Hs H1 H2 H3.
  set (req := completion_request (rstrip slash endpoint) deployment key text).
  set (p := ("summarize_text", text)).
  set (u1 := after_wait 5000 (send_http req (log_invoked p w))).
  set (u2 := after_wait 5000 (send_http req (log_invoked p u1))).
  assert (Hs1 : completion_service u1 = r2 :: r3 :: rest).
  { unfold u1, after_wait. rewrite completion_service_tick. simpl. now rewrite Hs. }
  assert (Hs2 : completion_service u2 = r3 :: rest).
  { unfold u2, after_wait. rewrite completion_service_tick. simpl. now rewrite Hs1. }
  assert (Henv1 : environ u1 = environ w).
  { unfold u1, after_wait. now rewrite environ_tick. }
  assert (Henv2 : environ u2 = environ w).
  { unfold u2, after_wait. rewrite environ_tick. exact Henv1. }
  assert (Hp1 : posted u1 = posted w ++ [req]).
  { unfold u1, after_wait. now rewrite posted_tick. }
  assert (Hp2 : posted u2 = (posted w ++ [req]) ++ [req]).
  { unfold u2, after_wait. rewrite posted_tick. simpl. now rewrite Hp1. }
  exists (send_http req (log_invoked p u2)).
  split; [|split].
  - unfold exhausts.
    rewrite (execution_summarize_text_error endpoint deployment key text w r1 _ He Hd Hk Hs H1).
    fold req p u1.
    rewrite (execution_summarize_text_error endpoint deployment key text u1 r2 (r3 :: rest));
      try rewrite Henv1; auto.
    fold req p u2.
    rewrite (execution_summarize_text_error endpoint deployment key text u2 r3 rest);
      try rewrite Henv2; auto.
  - simpl posted. rewrite Hp2. now rewrite <- !app_assoc.
  - simpl. now rewrite Hs2.
Qed.

(** C5, as the code has it.  For an instance started on [input] in the
    world [w]:
    - when extraction exhausts its retry ceiling (three executions, 5000 ms
      apart, each raising), the instance fails with the error of the third
      execution, nothing is stored, and extraction is all that was executed;
    - when extraction returns within its ceiling and summarization exhausts
      its own, the instance fails with the error of the third execution,
      nothing is stored, and persistence was never executed;
    - when extraction and summarization return and persistence exhausts its
      ceiling, the instance fails with the error of the third execution and
      nothing is stored; persistence was executed three times;
    - an instance fails in one of these three ways only, and no failed
      instance changes the storage;
    - for example, when the completion service answers three 4xx or 5xx
      statuses in a row (429, say), the instance fails with the [HTTPError]
      of the third, after three requests, without executing persistence and
      without storing anything. *)
Theorem failed_instance_creates_no_blob (g : globals) (input : json) (w : world) :
  (forall w' e,
     exhausts "analyze_pdf" (analyze_pdf g) input w = Some (w', e) ->
     run_instance g input w = (w', Raise e) /\
     storage w' = storage w /\
     invoked w' = invoked w ++ repeat ("analyze_pdf", input) 3 /\
     timers w' = timers w ++ [5000; 5000] /\
     never_persisted (executions_since w w')) /\
  (forall w1 text w' e,
     returns_within "analyze_pdf" (analyze_pdf g) input w = Some (w1, text) ->
     exhausts "summarize_text" summarize_text text w1 = Some (w', e) ->
     run_instance g input w = (w', Raise e) /\
     storage w' = storage w /\
     (exists k : nat, (1 <= k <= 3)%nat /\
        invoked w' = invoked w ++ repeat ("analyze_pdf", input) k ++
                                  repeat ("summarize_text", text) 3) /\
     timers w' = timers w1 ++ [5000; 5000] /\
     never_persisted (executions_since w w')) /\
  (forall w1 text w2 summary w' e,
     returns_within "analyze_pdf" (analyze_pdf g) input w = Some (w1, text) ->
     returns_within "summarize_text" summarize_text text w1 = Some (w2, summary) ->
     exhausts "write_summary" (write_summary g) (persistence_input input summary) w2
       = Some (w', e) ->
     run_instance g input w = (w', Raise e) /\
     storage w' = storage w /\
     invoked w' = invoked w2 ++ repeat ("write_summary", persistence_input input summary) 3 /\
     timers w' = timers w2 ++ [5000; 5000] /\
     never_persisted (executions_since w w2)) /\
  (forall w' e,
     run_instance g input w = (w', Raise e) ->
     storage w' = storage w /\
     (exhausts "analyze_pdf" (analyze_pdf g) input w = Some (w', e) \/
      (exists w1 text,
         returns_within "analyze_pdf" (analyze_pdf g) input w = Some (w1, text) /\
         exhausts "summarize_text" summarize_text text w1 = Some (w', e)) \/
      (exists w1 text w2 summary,
         returns_within "analyze_pdf" (analyze_pdf g) input w = Some (w1, text) /\
         returns_within "summarize_text" summarize_text text w1 = Some (w2, summary) /\
         exhausts "write_summary" (write_summary g) (persistence_input input summary) w2
           = Some (w', e)))) /\
  (forall endpoint deployment key w1 text r1 r2 r3 rest,
     returns_within "analyze_pdf" (analyze_pdf g) input w = Some (w1, text) ->
     environ w !! "AZURE_OPENAI_ENDPOINT" = Some endpoint ->
     environ w !! "AZURE_OPENAI_DEPLOYMENT_NAME" = Some deployment ->
     environ w !! "AZURE_OPENAI_KEY" = Some key ->
     completion_service w = r1 :: r2 :: r3 :: rest ->
     is_error_status (status_code r1) ->
     is_error_status (status_code r2) ->
     is_error_status (status_code r3) ->
     exists w',
       run_instance g input w = (w', Raise (HTTPError (status_code r3))) /\
       storage w' = storage w /\
       posted w' = posted w ++
         repeat (completion_request (rstrip slash endpoint) deployment key text) 3 /\
       never_persisted (executions_since w w')).
Proof.
  assert (first : forall w' e,
     exhausts "analyze_pdf" (analyze_pdf g) input w = Some (w', e) ->
     run_instance g input w = (w', Raise e) /\
     storage w' = storage w /\
     invoked w' = invoked w ++ repeat ("analyze_pdf", input) 3 /\
     timers w' = timers w ++ [5000; 5000] /\
     never_persisted (executions_since w w')).
  { intros w' e H.
    destruct (exhausts_log _ _ _ _ _ _ (analyze_pdf_quiet g) H) as (Hi & Ht).
    apply attempt_exhausts in H.
    split; [rewrite run_instance_eq; now rewrite H|].
    split; [apply (attempt_storage_failing _ _ _ _ _ _ _ _
                     (keeps_storage_failing _ (analyze_pdf_keeps_storage g)) H)|].
    split; [exact Hi|]. split; [exact Ht|].
    rewrite (executions_since_app _ _ _ Hi). unfold never_persisted. other_steps. }
  assert (second : forall w1 text w' e,
     returns_within "analyze_pdf" (analyze_pdf g) input w = Some (w1, text) ->
     exhausts "summarize_text" summarize_text text w1 = Some (w', e) ->
     run_instance g input w = (w', Raise e) /\
     storage w' = storage w /\
     (exists k : nat, (1 <= k <= 3)%nat /\
        invoked w' = invoked w ++ repeat ("analyze_pdf", input) k ++
                                  repeat ("summarize_text", text) 3) /\
     timers w' = timers w1 ++ [5000; 5000] /\
     never_persisted (executions_since w w')).
  { intros w1 text w' e H1 H2.
    destruct (returns_within_log _ _ _ _ _ _ (analyze_pdf_quiet g) H1) as (k & Hk & Hi1 & _).
    pose proof (returns_within_storage _ _ _ _ _ _ (analyze_pdf_keeps_storage g) H1) as S1.
    destruct (exhausts_log _ _ _ _ _ _ summarize_text_quiet H2) as (Hi2 & Ht2).
    apply attempt_returns_within in H1. apply attempt_exhausts in H2.
    assert (Hi : invoked w' = invoked w ++ repeat ("analyze_pdf", input) k ++
                                          repeat ("summarize_text", text) 3)
      by (rewrite Hi2, Hi1; now rewrite <- app_assoc).
    split; [rewrite run_instance_eq, H1; now rewrite H2|].
    split; [rewrite <- S1;
            apply (attempt_storage_failing _ _ _ _ _ _ _ _
                     (keeps_storage_failing _ summarize_text_keeps_storage) H2)|].
    split; [exists k; split; [exact Hk | exact Hi]|].
    split; [exact Ht2|].
    rewrite (executions_since_app _ _ _ Hi). unfold never_persisted. other_steps. }
  split; [exact first|]. split; [exact second|]. split; [|split].
  - intros w1 text w2 summary w' e H1 H2 H3.
    destruct (returns_within_log _ _ _ _ _ _ (analyze_pdf_quiet g) H1) as (k1 & _ & Hi1 & _).
    destruct (returns_within_log _ _ _ _ _ _ summarize_text_quiet H2) as (k2 & _ & Hi2 & _).
    pose proof (returns_within_storage _ _ _ _ _ _ (analyze_pdf_keeps_storage g) H1) as S1.
    pose proof (returns_within_storage _ _ _ _ _ _ summarize_text_keeps_storage H2) as S2.
    destruct (exhausts_log _ _ _ _ _ _ (write_summary_quiet g) H3) as (Hi3 & Ht3).
    apply attempt_returns_within in H1, H2. apply attempt_exhausts in H3.
    split; [rewrite run_instance_eq, H1, H2; unfold persistence_input in H3; now rewrite H3|].
    split; [rewrite <- S1, <- S2;
            apply (attempt_storage_failing _ _ _ _ _ _ _ _
                     (write_summary_keeps_storage_when_failing g) H3)|].
    split; [exact Hi3|]. split; [exact Ht3|].
    assert (Hi : invoked w2 = invoked w ++ repeat ("analyze_pdf", input) k1 ++
                                          repeat ("summarize_text", text) k2)
      by (rewrite Hi2, Hi1; now rewrite <- app_assoc).
    rewrite (executions_since_app _ _ _ Hi). unfold never_persisted. other_steps.
  - intros w' e H.
    split; [apply (failed_instance_log g input w w' e H)|].
    rewrite run_instance_eq in H.
    destruct (attempt 2 5000 "analyze_pdf" (analyze_pdf g) input w) as [w1 [text|e1]] eqn:E1.
    2:{ injection H as <- <-. left. now apply attempt_exhausts. }
    apply attempt_returns_within in E1.
    destruct (attempt 2 5000 "summarize_text" summarize_text text w1)
      as [w2 [summary|e2]] eqn:E2.
    2:{ injection H as <- <-. right. left. exists w1, text.
        split; [exact E1 | now apply attempt_exhausts]. }
    apply attempt_returns_within in E2.
    destruct (attempt 2 5000 "write_summary" (write_summary g) _ w2)
      as [w3 [out|e3]] eqn:E3; [discriminate|].
    injection H as <- <-. right. right. exists w1, text, w2, summary.
    split; [exact E1|]. split; [exact E2|]. now apply attempt_exhausts.
  - intros endpoint deployment key w1 text r1 r2 r3 rest H1 He Hd Hk Hs Hr1 Hr2 Hr3.
    pose proof H1 as A1. apply attempt_returns_within in A1.
    assert (Henv : environ w1 = environ w).
    { pose proof (attempt_keeps (analyze_pdf g) "analyze_pdf" 5000 input environ 2 w) as K.
      rewrite A1 in K. apply K; intros; rewrite ?environ_tick; try reflexivity.
      destruct (analyze_pdf_world g y u) as [->|[r ->]]; reflexivity. }
    assert (Hcs : completion_service w1 = completion_service w).
    { pose proof (attempt_keeps (analyze_pdf g) "analyze_pdf" 5000 input
                    completion_service 2 w) as K.
      rewrite A1 in K. apply K; intros; rewrite ?completion_service_tick; try reflexivity.
      destruct (analyze_pdf_world g y u) as [->|[r ->]]; reflexivity. }
    assert (Hpo : posted w1 = posted w).
    { pose proof (attempt_keeps (analyze_pdf g) "analyze_pdf" 5000 input posted 2 w) as K.
      rewrite A1 in K. apply K; intros; rewrite ?posted_tick; try reflexivity.
      destruct (analyze_pdf_world g y u) as [->|[r ->]]; reflexivity. }
    rewrite <- Henv in He, Hd, Hk. rewrite <- Hcs in Hs.
    destruct (summarize_text_exhausts endpoint deployment key text w1 r1 r2 r3 rest
                He Hd Hk Hs Hr1 Hr2 Hr3) as (w' & H2 & Hp & _).
    destruct (second w1 text w' _ H1 H2) as (R & S & _ & _ & N).
    exists w'. split; [exact R|]. split; [exact S|]. split; [|exact N].
    now rewrite Hp, Hpo.
Qed.

(** ** Running an activity twice *)

Section Twice.

Lemma zpad_inj (width : nat) (a b : Z) :
  0 <= a < 10 ^ Z.of_nat width -> 0 <= b < 10 ^ Z.of_nat width ->
  zpad width a = zpad width b -> a = b.
Proof.
  intros Ha Hb H.
  rewrite <- (decimal_value_zpad_small width a Ha), <- (decimal_value_zpad_small width b Hb).
  now rewrite H.
Qed.

(** Two times of different seconds have different stamps. *)
Lemma strftime_inj (t1 t2 : datetime) :
  valid_datetime t1 -> valid_datetime t2 ->
  strftime_YmdHMS t1 = strftime_YmdHMS t2 -> t1 = t2.
Proof.
  intros (Hy1 & Hm1 & Hd1 & HH1 & HM1 & HS1) (Hy2 & Hm2 & Hd2 & HH2 & HM2 & HS2) H.
  unfold strftime_YmdHMS in H.
  apply append_inj_length in H as [Ey H]; [|now rewrite !zpad_length].
  apply append_inj_length in H as [Em H]; [|now rewrite !zpad_length].
  apply append_inj_length in H as [Ed H]; [|now rewrite !zpad_length].
  apply append_inj_length in H as [EH H]; [|now rewrite !zpad_length].
  apply append_inj_length in H as [EM ES]; [|now rewrite !zpad_length].
  apply zpad_inj in Ey; [|cbn [Z.of_nat Pos.of_succ_nat Pos.succ]; lia ..].
  apply zpad_inj in Em; [|cbn [Z.of_nat Pos.of_succ_nat Pos.succ]; lia ..].
  apply zpad_inj in Ed; [|cbn [Z.of_nat Pos.of_succ_nat Pos.succ]; lia ..].
  apply zpad_inj in EH; [|cbn [Z.of_nat Pos.of_succ_nat Pos.succ]; lia ..].
  apply zpad_inj in EM; [|cbn [Z.of_nat Pos.of_succ_nat Pos.succ]; lia ..].
  apply zpad_inj in ES; [|cbn [Z.of_nat Pos.of_succ_nat Pos.succ]; lia ..].
  destruct t1, t2; simpl in *. congruence.
Qed.

(** The result of [analyze_pdf] depends on its input, the two settings,
    the blob read and the service's answer, and on nothing else. *)
Lemma analyze_pdf_eq (g : globals) (x : json) (w : world) :
  analyze_pdf g x w =
    match as_name x with
    | Raise e => (w, Raise e)
    | Ok blob =>
        match storage w !! "input" with
        | None => (w, Raise ResourceNotFoundError)
        | Some blobs =>
            match blobs !! blob with
            | None => (w, Raise ResourceNotFoundError)
            | Some pdf =>
                match environ w !! "COGNITIVE_SERVICES_ENDPOINT" with
                | None => (w, Raise (KeyError "COGNITIVE_SERVICES_ENDPOINT"))
                | Some _ =>
                    match environ w !! "COGNITIVE_SERVICES_KEY" with
                    | None => (w, Raise (KeyError "COGNITIVE_SERVICES_KEY"))
                    | Some _ =>
                        (send_analyze {| model_id := "prebuilt-layout"; document := pdf;
                                         locale := "en-US" |} w,
                         match head (layout_service w) with
                         | None => Raise ConnectionError
                         | Some (Raise e) => Raise e
                         | Some (Ok res) => Ok (JStr (join LF (lines_in_order (pages res))))
                         end)
                    end
                end
            end
        end
    end.
Proof.
  unfold analyze_pdf, bind, lift, download_blob, os_environ,
    begin_analyze_document_result, ret.
  destruct (as_name x) as [blob|]; [|reflexivity].
  destruct (storage w !! "input") as [blobs|]; [|reflexivity].
  destruct (blobs !! blob) as [pdf|]; [|reflexivity].
  destruct (environ w !! "COGNITIVE_SERVICES_ENDPOINT"); [|reflexivity].
  destruct (environ w !! "COGNITIVE_SERVICES_KEY"); [|reflexivity].
  destruct (layout_service w) as [|[res|e] rest]; simpl; rewrite ?flat_map_lines; reflexivity.
Qed.

Lemma analyze_pdf_determined (g g' : globals) (x : json) (w1 w2 : world) :
  environ w1 = environ w2 ->
  storage w1 !! "input" = storage w2 !! "input" ->
  head (layout_service w1) = head (layout_service w2) ->
  snd (analyze_pdf g x w1) = snd (analyze_pdf g' x w2).
Proof.
  intros He Hs Hl. rewrite !analyze_pdf_eq, He, Hs, Hl.
  destruct (as_name x) as [blob|]; [|reflexivity].
  destruct (storage w2 !! "input") as [blobs|]; [|reflexivity].
  destruct (blobs !! blob) as [pdf|]; [|reflexivity].
  destruct (environ w2 !! "COGNITIVE_SERVICES_ENDPOINT"); [|reflexivity].
  destruct (environ w2 !! "COGNITIVE_SERVICES_KEY"); reflexivity.
Qed.

(** The result of [summarize_text] depends on its input, the three
    settings and the service's answer, and on nothing else. *)
Lemma summarize_text_determined (x : json) (w1 w2 : world) :
  environ w1 = environ w2 ->
  head (completion_service w1) = head (completion_service w2) ->
  snd (summarize_text x w1) = snd (summarize_text x w2).
Proof.
  intros He Hl.
  destruct (environ w2 !! "AZURE_OPENAI_ENDPOINT") as [e|] eqn:E1.
  2:{ rewrite (summarize_text_missing_endpoint x w2 E1). rewrite <- He in E1.
      now rewrite (summarize_text_missing_endpoint x w1 E1). }
  destruct (environ w2 !! "AZURE_OPENAI_DEPLOYMENT_NAME") as [d|] eqn:E2.
  2:{ rewrite (summarize_text_missing_deployment x w2 e E1 E2). rewrite <- He in E1, E2.
      now rewrite (summarize_text_missing_deployment x w1 e E1 E2). }
  destruct (environ w2 !! "AZURE_OPENAI_KEY") as [k|] eqn:E3.
  2:{ rewrite (summarize_text_missing_key x w2 e d E1 E2 E3). rewrite <- He in E1, E2, E3.
      now rewrite (summarize_text_missing_key x w1 e d E1 E2 E3). }
  rewrite (summarize_text_eq e d k w2 E1 E2 E3 x).
  rewrite <- He in E1, E2, E3.
  rewrite (summarize_text_eq e d k w1 E1 E2 E3 x). simpl snd.
  destruct (completion_service w1) as [|r1 l1], (completion_service w2) as [|r2 l2];
    simpl in Hl; try discriminate; [reflexivity|].
  now injection Hl as ->.
Qed.

Lemma out_name_inj (f ts1 ts2 : string) :
  f +:+ "-" +:+ ts1 +:+ ".txt" = f +:+ "-" +:+ ts2 +:+ ".txt" ->
  String.length ts1 = String.length ts2 -> ts1 = ts2.
Proof.
  intros H Hl. apply String.app_inj in H. apply String.app_inj in H.
  now apply append_inj_length in H as [H _].
Qed.

End Twice.

(** C6, as the code has it.  Extraction and summarization are idempotent:
    with the same input, the same settings, the same blob and the same
    answer of the service, they give the same result, in particular when
    run twice in a row against a service that answers twice the same.
    Persistence is not: run with the same input at two different seconds
    it returns two different names. *)
Theorem extraction_and_summarization_idempotent :
  (forall g g' x w1 w2,
     environ w1 = environ w2 ->
     storage w1 !! "input" = storage w2 !! "input" ->
     head (layout_service w1) = head (layout_service w2) ->
     snd (analyze_pdf g x w1) = snd (analyze_pdf g' x w2)) /\
  (forall g x w r later,
     layout_service w = r :: r :: later ->
     snd (analyze_pdf g x (fst (analyze_pdf g x w))) = snd (analyze_pdf g x w)) /\
  (forall x w1 w2,
     environ w1 = environ w2 ->
     head (completion_service w1) = head (completion_service w2) ->
     snd (summarize_text x w1) = snd (summarize_text x w2)) /\
  (forall x w r later,
     completion_service w = r :: r :: later ->
     snd (summarize_text x (fst (summarize_text x w))) = snd (summarize_text x w)) /\
  (forall g d f S w1 w2 w1' w2' out1 out2,
     d !! "blob" = Some (JStr f) -> d !! "summary" = Some (JStr S) ->
     valid_datetime (now w1) -> valid_datetime (now w2) -> now w1 <> now w2 ->
     write_summary g (JObj d) w1 = (w1', Ok out1) ->
     write_summary g (JObj d) w2 = (w2', Ok out2) ->
     out1 <> out2).
Proof.
  split; [exact analyze_pdf_determined|].
  split.
  { intros g x w r later Hl.
    destruct (analyze_pdf_world g x w) as [->|[q ->]]; [reflexivity|].
    apply analyze_pdf_determined; try reflexivity.
    simpl. now rewrite Hl. }
  split; [exact summarize_text_determined|].
  split.
  { intros x w r later Hl.
    destruct (summarize_text_world x w) as [->|[q ->]]; [reflexivity|].
    apply summarize_text_determined; try reflexivity.
    simpl. now rewrite Hl. }
  intros g d f S w1 w2 w1' w2' out1 out2 Hb Hs Hv1 Hv2 Hne H1 H2 Heq.
  rewrite (write_summary_eq g d f S w1 Hb Hs) in H1.
  rewrite (write_summary_eq g d f S w2 Hb Hs) in H2. cbv zeta in H1, H2.
  destruct (upload_blob _ _ _ _ (tick w1)) as [u1 [[]|e1]]; [|discriminate].
  destruct (upload_blob _ _ _ _ (tick w2)) as [u2 [[]|e2]]; [|discriminate].
  injection H1 as _ <-. injection H2 as _ <-.
  injection Heq as Heq. apply out_name_inj in Heq; [|now rewrite !strftime_length].
  apply Hne. now apply strftime_inj.
Qed.

(** ** Configuration *)


(** ** The scenarios of the specification *)

(** Upload of [invoice.pdf], two lines of text: extraction yields the two
    lines, the summary [S] is stored as [invoice.pdf-20250101120000.txt]. *)
Example end_to_end_scenario :
  snd (on_blob_event invoice_event invoice_world) = Ok (JStr "invoice.pdf-20250101120000.txt") /\
  invoked (fst (on_blob_event invoice_event invoice_world)) =
    [("analyze_pdf", JStr "invoice.pdf");
     ("summarize_text", JStr ("Line 1" +:+ LF +:+ "Line 2"));
     ("write_summary", summary_input "invoice.pdf" "S")] /\
  storage (fst (on_blob_event invoice_event invoice_world)) !! "output" =
    Some (<["invoice.pdf-20250101120000.txt" := "S"]> ∅).
Proof. vm_compute. repeat split; reflexivity. Qed.

(** The completion service answers 429 three times: the instance fails
    after three requests and the output container stays empty. *)
Example throttled_scenario :
  snd (run_instance app0 (JStr "invoice.pdf") throttled_world) = Raise (HTTPError 429) /\
  map fst (invoked (fst (run_instance app0 (JStr "invoice.pdf") throttled_world))) =
    ["analyze_pdf"; "summarize_text"; "summarize_text"; "summarize_text"] /\
  Datatypes.length (posted (fst (run_instance app0 (JStr "invoice.pdf") throttled_world))) = 3%nat /\
  storage (fst (run_instance app0 (JStr "invoice.pdf") throttled_world)) !! "output" = Some ∅.
Proof. vm_compute. repeat split; reflexivity. Qed.

(** ** Witnesses *)

Lemma write_summary_creates_one_timestamped_blob_witness :
  JStr "invoice.pdf-20250101120000.txt" =
    JStr ("invoice.pdf" +:+ "-" +:+ strftime_YmdHMS (now invoice_world) +:+ ".txt") /\
  is_timestamp_of (now invoice_world) (strftime_YmdHMS (now invoice_world)).
Proof.
  destruct (write_summary_creates_one_timestamped_blob app0
              (<["blob" := JStr "invoice.pdf"]> (<["summary" := JStr "S"]> ∅))
              "invoice.pdf" "S" invoice_world
              (fst (write_summary app0 (summary_input "invoice.pdf" "S") invoice_world))
              (JStr "invoice.pdf-20250101120000.txt"))
    as (A & B & _).
  - vm_compute; reflexivity.
  - vm_compute; reflexivity.
  - unfold valid_datetime; simpl; lia.
  - vm_compute; reflexivity.
  - split; assumption.
Defined.

Lemma analyze_pdf_joins_lines_in_order_witness :
  snd (analyze_pdf app0 (JStr "invoice.pdf") invoice_world)
    = Ok (JStr (join LF (lines_in_order (pages invoice)))).
Proof.
  apply (analyze_pdf_joins_lines_in_order app0 "invoice.pdf" "%PDF-1.7"
           "https://di.example" "k1" (<["invoice.pdf" := "%PDF-1.7"]> ∅)
           invoice [Ok invoice; Ok invoice] invoice_world);
    vm_compute; reflexivity.
Defined.

Lemma summarize_text_raises_on_4xx_5xx_witness :
  snd (summarize_text (JStr "text") throttled_world) = Raise (HTTPError 429).
Proof.
  assert (He : environ throttled_world !! "AZURE_OPENAI_ENDPOINT" = Some "https://oai.example/")
    by (vm_compute; reflexivity).
  assert (Hd : environ throttled_world !! "AZURE_OPENAI_DEPLOYMENT_NAME" = Some "gpt")
    by (vm_compute; reflexivity).
  assert (Hk : environ throttled_world !! "AZURE_OPENAI_KEY" = Some "k2")
    by (vm_compute; reflexivity).
  assert (Hs : completion_service throttled_world = throttled :: [throttled; throttled])
    by reflexivity.
  destruct (summarize_text_raises_on_4xx_5xx "https://oai.example/" "gpt" "k2"
              (JStr "text") throttled_world throttled [throttled; throttled] He Hd Hk Hs)
    as (A & _).
  apply A. simpl. lia.
Defined.

Lemma summarize_text_lookup_errors_witness :
  snd (summarize_text (JStr "text") no_choices_world) = Raise (KeyError "choices").
Proof.
  assert (He : environ no_choices_world !! "AZURE_OPENAI_ENDPOINT" = Some "https://oai.example/")
    by (vm_compute; reflexivity).
  assert (Hd : environ no_choices_world !! "AZURE_OPENAI_DEPLOYMENT_NAME" = Some "gpt")
    by (vm_compute; reflexivity).
  assert (Hk : environ no_choices_world !! "AZURE_OPENAI_KEY" = Some "k2")
    by (vm_compute; reflexivity).
  assert (Hs : completion_service no_choices_world
               = {| status_code := 200; body := Some (JObj ∅) |} :: [])
    by reflexivity.
  assert (Hok : is_success (status_code {| status_code := 200; body := Some (JObj ∅) |}))
    by (unfold is_success; simpl; lia).
  destruct (summarize_text_lookup_errors "https://oai.example/" "gpt" "k2"
              (JStr "text") no_choices_world
              {| status_code := 200; body := Some (JObj ∅) |} [] He Hd Hk Hs Hok)
    as (A & _).
  apply (A ∅); reflexivity.
Defined.

Lemma summarize_text_posts_one_request_witness :
  posted (fst (summarize_text (JStr "text") invoice_world)) =
    posted invoice_world ++
    [completion_request (rstrip slash "https://oai.example/") "gpt" "k2" (JStr "text")].
Proof.
  apply (summarize_text_posts_one_request "https://oai.example/" "gpt" "k2"
           (JStr "text") invoice_world);
    vm_compute; reflexivity.
Defined.

Lemma failed_instance_creates_no_blob_witness :
  snd (run_instance app0 (JStr "invoice.pdf") throttled_world) = Raise (HTTPError 429) /\
  storage (fst (run_instance app0 (JStr "invoice.pdf") throttled_world))
    = storage throttled_world /\
  never_persisted
    (executions_since throttled_world
       (fst (run_instance app0 (JStr "invoice.pdf") throttled_world))).
Proof.
  destruct (failed_instance_creates_no_blob app0 (JStr "invoice.pdf") throttled_world)
    as (_ & _ & _ & _ & A).
  assert (H1 : returns_within "analyze_pdf" (analyze_pdf app0) (JStr "invoice.pdf")
                 throttled_world
               = Some (fst (execution "analyze_pdf" (analyze_pdf app0) (JStr "invoice.pdf")
                              throttled_world),
                       JStr ("Line 1" +:+ LF +:+ "Line 2")))
    by (vm_compute; reflexivity).
  assert (He : environ throttled_world !! "AZURE_OPENAI_ENDPOINT" = Some "https://oai.example/")
    by (vm_compute; reflexivity).
  assert (Hd : environ throttled_world !! "AZURE_OPENAI_DEPLOYMENT_NAME" = Some "gpt")
    by (vm_compute; reflexivity).
  assert (Hk : environ throttled_world !! "AZURE_OPENAI_KEY" = Some "k2")
    by (vm_compute; reflexivity).
  assert (Hs : completion_service throttled_world = throttled :: throttled :: throttled :: [])
    by reflexivity.
  assert (Hr : is_error_status (status_code throttled))
    by (unfold is_error_status; simpl; lia).
  destruct (A "https://oai.example/" "gpt" "k2" _ _ throttled throttled throttled []
              H1 He Hd Hk Hs Hr Hr Hr) as (w' & R & S & _ & N).
  rewrite R. simpl fst. simpl snd. repeat split; assumption.
Defined.

Lemma extraction_and_summarization_idempotent_witness :
  snd (analyze_pdf app0 (JStr "invoice.pdf")
         (fst (analyze_pdf app0 (JStr "invoice.pdf") invoice_world)))
    = snd (analyze_pdf app0 (JStr "invoice.pdf") invoice_world).
Proof.
  destruct extraction_and_summarization_idempotent as (_ & A & _).
  apply (A app0 (JStr "invoice.pdf") invoice_world (Ok invoice) [Ok invoice]).
  reflexivity.
Defined.


(** ** Where the code departs from the specification *)

(** C3: a status that is neither 2xx nor 4xx nor 5xx does not make
    [summarize_text] fail; here 300, and the content is returned. *)
Lemma summarize_text_returns_on_status_300 :
  ~ is_success (status_code (completion 300 "S")) /\
  completion_service multiple_choices_world = [completion 300 "S"] /\
  snd (summarize_text (JStr "text") multiple_choices_world) = Ok (JStr "S").
Proof.
  split; [unfold is_success; simpl; lia|].
  split; vm_compute; reflexivity.
Qed.

(** C5: when the step that uses up its attempts is persistence itself,
    persistence has been executed, three times. *)
Lemma persistence_executed_when_it_fails :
  snd (run_instance app0 (JStr "invoice.pdf") no_output_world) = Raise ResourceNotFoundError /\
  map fst (invoked (fst (run_instance app0 (JStr "invoice.pdf") no_output_world))) =
    ["analyze_pdf"; "summarize_text"; "write_summary"; "write_summary"; "write_summary"].
Proof. vm_compute. split; reflexivity. Qed.

(** C6: persistence run twice with the same input, the storage accepting
    both uploads, returns two different names. *)
Lemma write_summary_twice_returns_two_names :
  let input := summary_input "invoice.pdf" "S" in
  let first := write_summary app0 input invoice_world in
  let second := write_summary app0 input (fst first) in
  snd first = Ok (JStr "invoice.pdf-20250101120000.txt") /\
  snd second = Ok (JStr "invoice.pdf-20250101120005.txt") /\
  snd first <> snd second.
Proof.
  cbv zeta. split; [vm_compute; reflexivity|]. split; [vm_compute; reflexivity|].
  vm_compute. discriminate.
Qed.


(** C10: a first choice that is null has no "message", and a message that
    is null has no "content"; what [summarize_text] raises for them is
    [TypeError], which is not a lookup error. *)
Lemma summarize_text_raises_TypeError_on_null :
  is_success (status_code null_choice) /\
  completion_service null_choice_world = [null_choice] /\
  snd (summarize_text (JStr "text") null_choice_world) = Raise TypeError /\
  is_success (status_code null_message) /\
  completion_service null_message_world = [null_message] /\
  snd (summarize_text (JStr "text") null_message_world) = Raise TypeError /\
  is_LookupError TypeError = false.
Proof.
  split; [unfold is_success; simpl; lia|].
  split; [reflexivity|]. split; [vm_compute; reflexivity|].
  split; [unfold is_success; simpl; lia|].
  split; [reflexivity|]. split; [vm_compute; reflexivity|]. reflexivity.
Qed.

(** * Further properties of the code *)

(** ** The trigger and nested paths *)

Section Paths.

(** Cutting at a separator cuts the part before it and the part after it
    apart. *)
Lemma split_app (sep : ascii) (a b : string) :
  split sep (a +:+ String sep b) = split sep a ++ split sep b.
Proof.
  induction a as [|c a IH].
  - rewrite append_nil_l. simpl. now rewrite Ascii.eqb_refl.
  - rewrite append_cons. simpl split. rewrite IH.
    destruct (Ascii.eqb c sep); [reflexivity|].
    pose proof (split_not_nil sep a) as Hne.
    destruct (split sep a) as [|p ps]; [contradiction | reflexivity].
Qed.

Lemma leaf_of_path (sep : ascii) (before leaf : string) :
  occurs sep leaf = false ->
  py_index (split sep (before +:+ String sep leaf)) (-1) = Ok leaf.
Proof.
  intros H. rewrite split_app, (split_no_sep sep leaf H). apply py_index_last.
Qed.

Lemma started_tick (w : world) : started (tick w) = started w.
Proof. unfold tick. now destruct (future w). Qed.

Lemma analyzed_tick (w : world) : analyzed (tick w) = analyzed w.
Proof. unfold tick. now destruct (future w). Qed.

Lemma on_blob_event_eq (ev : func.InputStream) (w : world) (cs leaf : string) :
  environ w !! "BLOB_STORAGE_ENDPOINT" = Some cs ->
  py_index (split slash (func.name ev)) (-1) = Ok leaf ->
  on_blob_event ev w =
    run_instance {| blob_svc := {| connection_string := cs |} |} (JStr leaf)
      (log_started ("orchestrator", JStr leaf) w).
Proof.
  intros He Hl. unfold on_blob_event, function_app, blob_trigger, bind, os_environ, lift, ret.
  rewrite He, Hl. unfold df.start_new. cbv beta iota.
  change (started (log_started ("orchestrator", JStr leaf) w))
    with (started w ++ [("orchestrator", JStr leaf)]).
  now rewrite last_snoc.
Qed.

(** Extraction of a blob that is not in the input container: nothing is
    sent, the world stays as it is. *)
Lemma analyze_pdf_missing_blob (g : globals) (blob : string) (blobs : gmap string string)
    (w : world) :
  storage w !! "input" = Some blobs -> blobs !! blob = None ->
  analyze_pdf g (JStr blob) w = (w, Raise ResourceNotFoundError).
Proof.
  intros Hc Hb. rewrite analyze_pdf_eq. simpl as_name. cbv iota beta.
  now rewrite Hc, Hb.
Qed.

End Paths.

(** X1.  A document uploaded under a virtual folder is looked for under
    its leaf name: unless the input container holds a blob of that leaf
    name, every attempt of extraction raises [ResourceNotFoundError], the
    instance fails with it after three executions and two waits, and
    nothing is sent to either service and nothing is stored. *)
Theorem nested_upload_is_not_found
    (ev : func.InputStream) (w : world) (cs before leaf : string)
    (blobs : gmap string string) :
  environ w !! "BLOB_STORAGE_ENDPOINT" = Some cs ->
  func.name ev = before +:+ String slash leaf ->
  occurs slash leaf = false ->
  storage w !! "input" = Some blobs ->
  blobs !! leaf = None ->
  let w' := fst (on_blob_event ev w) in
  snd (on_blob_event ev w) = Raise ResourceNotFoundError /\
  started w' = started w ++ [("orchestrator", JStr leaf)] /\
  invoked w' = invoked w ++ repeat ("analyze_pdf", JStr leaf) 3 /\
  timers w' = timers w ++ [5000; 5000] /\
  analyzed w' = analyzed w /\ posted w' = posted w /\ storage w' = storage w.
Proof.
  intros He Hn Hl Hc Hb w'. subst w'.
  rewrite (on_blob_event_eq ev w cs leaf He) by (rewrite Hn; now apply leaf_of_path).
  rewrite run_instance_eq.
  set (g := {| blob_svc := {| connection_string := cs |} |}).
  set (w0 := log_started ("orchestrator", JStr leaf) w).
  assert (Hmiss : forall u, storage u = storage w ->
            analyze_pdf g (JStr leaf) u = (u, Raise ResourceNotFoundError)).
  { intros u Hu. apply (analyze_pdf_missing_blob g leaf blobs u); [now rewrite Hu | exact Hb]. }
  assert (E : attempt 2 5000 "analyze_pdf" (analyze_pdf g) (JStr leaf) w0 =
              (log_invoked ("analyze_pdf", JStr leaf)
                 (tick (log_timer 5000 (log_invoked ("analyze_pdf", JStr leaf)
                   (tick (log_timer 5000 (log_invoked ("analyze_pdf", JStr leaf) w0)))))),
               Raise ResourceNotFoundError)).
  { cbn [attempt]. rewrite Hmiss by reflexivity.
    unfold bind at 1, sleep at 1. cbn [attempt].
    rewrite Hmiss by (simpl; now rewrite storage_tick).
    unfold bind at 1, sleep at 1. cbn [attempt].
    rewrite Hmiss by (simpl; rewrite storage_tick; simpl; now rewrite storage_tick).
    reflexivity. }
  rewrite E. cbn [fst snd].
  split; [reflexivity|].
  repeat (cbn [log_invoked log_timer started invoked timers analyzed posted storage];
          rewrite ?started_tick, ?invoked_tick, ?timers_tick, ?analyzed_tick,
            ?posted_tick, ?storage_tick).
  repeat split; try reflexivity; now rewrite <- !app_assoc.
Qed.

(** ** What extraction sends and what its text shows *)

(** X2.  When the blob is there and the two settings are set, extraction
    sends the service exactly one request, whatever the answer: the layout
    model, the bytes of the blob as they are, the locale en-US.  It uses up
    one answer of the service, touches neither the storage nor the HTTP log,
    and raises the error the service answers with. *)
Theorem analyze_pdf_sends_one_request
    (g : globals) (blob pdf endpoint key : string) (blobs : gmap string string) (w : world) :
  storage w !! "input" = Some blobs ->
  blobs !! blob = Some pdf ->
  environ w !! "COGNITIVE_SERVICES_ENDPOINT" = Some endpoint ->
  environ w !! "COGNITIVE_SERVICES_KEY" = Some key ->
  let w' := fst (analyze_pdf g (JStr blob) w) in
  analyzed w' = analyzed w ++ [layout_request pdf] /\
  layout_service w' = tail (layout_service w) /\
  storage w' = storage w /\ posted w' = posted w /\
  (forall e later, layout_service w = Raise e :: later ->
     snd (analyze_pdf g (JStr blob) w) = Raise e) /\
  (layout_service w = [] -> snd (analyze_pdf g (JStr blob) w) = Raise ConnectionError).
Proof.
  intros Hc Hb He Hk w'. subst w'. rewrite analyze_pdf_eq. simpl as_name. cbv iota beta.
  rewrite Hc, Hb, He, Hk. cbn [fst snd].
  split; [reflexivity|]. split; [reflexivity|]. split; [reflexivity|].
  split; [reflexivity|]. split.
  - intros e later ->. reflexivity.
  - intros ->. reflexivity.
Qed.

Section Text.

Lemma count_char_append (c : ascii) (a b : string) :
  count_char c (a +:+ b) = (count_char c a + count_char c b)%nat.
Proof.
  induction a as [|x a IH]; [reflexivity|].
  rewrite append_cons. simpl. rewrite IH. lia.
Qed.

Lemma count_char_join (c : ascii) (l : list string) :
  l <> [] ->
  count_char c (join (String c EmptyString) l)
    = (Datatypes.length l - 1 + total_count c l)%nat.
Proof.
  induction l as [|a l IH]; intros Hne; [contradiction|].
  destruct l as [|b l].
  - simpl. lia.
  - rewrite join_cons2, !count_char_append, IH by discriminate.
    change (count_char c (String c EmptyString))
      with ((if Ascii.eqb c c then 1 else 0) + 0)%nat.
    rewrite Ascii.eqb_refl. simpl. lia.
Qed.

Lemma join_empty (sep : ascii) (l : list string) :
  join (String sep EmptyString) l = EmptyString <-> l = [] \/ l = [EmptyString].
Proof.
  split.
  - destruct l as [|a [|b l]]; intros H.
    + now left.
    + right. simpl in H. now subst.
    + rewrite join_cons2 in H.
      apply (f_equal String.length) in H.
      rewrite !length_append in H. simpl in H. lia.
  - intros [->| ->]; reflexivity.
Qed.

End Text.

(** X3.  The text extraction returns has exactly one newline between two
    lines and none at its end: with n >= 1 lines it holds n - 1 newlines
    beside those inside the lines.  It is empty exactly when the document
    has no line or has one line that is empty, so the empty text does not
    tell these two apart. *)
Theorem analyze_pdf_text_shape
    (g : globals) (blob pdf endpoint key : string) (blobs : gmap string string)
    (res : AnalyzeResult) (later : list (result AnalyzeResult)) (w : world) :
  storage w !! "input" = Some blobs ->
  blobs !! blob = Some pdf ->
  environ w !! "COGNITIVE_SERVICES_ENDPOINT" = Some endpoint ->
  environ w !! "COGNITIVE_SERVICES_KEY" = Some key ->
  layout_service w = Ok res :: later ->
  exists txt,
    snd (analyze_pdf g (JStr blob) w) = Ok (JStr txt) /\
    (txt = EmptyString <->
     lines_in_order (pages res) = [] \/ lines_in_order (pages res) = [EmptyString]) /\
    (lines_in_order (pages res) <> [] ->
     count_char (ascii_of_nat 10) txt =
       (Datatypes.length (lines_in_order (pages res)) - 1
        + total_count (ascii_of_nat 10) (lines_in_order (pages res)))%nat).
Proof.
  intros Hc Hb He Hk Hs.
  exists (join LF (lines_in_order (pages res))). split; [|split].
  - rewrite analyze_pdf_eq. simpl as_name. cbv iota beta.
    now rewrite Hc, Hb, He, Hk, Hs.
  - apply join_empty.
  - apply count_char_join.
Qed.

(** ** What persistence does to the storage *)

Section Storage.

(** A successful [write_summary], in full. *)
Lemma write_summary_Ok (g : globals) (x v : json) (w w' : world) :
  write_summary g x w = (w', Ok v) ->
  exists f S blobs,
    getitem_str x "blob" = Ok (JStr f) /\
    getitem_str x "summary" = Ok (JStr S) /\
    storage w !! "output" = Some blobs /\
    blobs !! (f +:+ "-" +:+ strftime_YmdHMS (now w) +:+ ".txt") = None /\
    v = JStr (f +:+ "-" +:+ strftime_YmdHMS (now w) +:+ ".txt") /\
    w' = set_storage
           (insert "output"
              (<[f +:+ "-" +:+ strftime_YmdHMS (now w) +:+ ".txt" := S]> blobs))
           (tick w).
Proof.
  unfold write_summary, bind, lift, utcnow, upload_blob, ret.
  destruct (getitem_str x "blob") as [b|]; [|discriminate].
  destruct (getitem_str x "summary") as [s|]; [|discriminate].
  destruct b as [| | |f| |]; simpl as_name; cbv iota beta; try discriminate.
  destruct s as [| | |S| |]; simpl as_data; cbv iota beta; try discriminate.
  rewrite storage_tick.
  destruct (storage w !! "output") as [blobs|]; [|discriminate].
  destruct (blobs !! (f +:+ "-" +:+ strftime_YmdHMS (now w) +:+ ".txt")) eqn:E;
    [discriminate|].
  intros [= <- <-]. exists f, S, blobs. repeat split; assumption.
Qed.

(** The storage after [write_summary]: as before, or with one new blob in
    the output container. *)
Lemma write_summary_storage (g : globals) (x : json) (w : world) :
  storage (fst (write_summary g x w)) = storage w \/
  exists blobs name data,
    storage w !! "output" = Some blobs /\ blobs !! name = None /\
    storage (fst (write_summary g x w)) = <["output" := <[name := data]> blobs]> (storage w).
Proof.
  destruct (write_summary g x w) as [w' [v|e]] eqn:E.
  - right. apply write_summary_Ok in E as (f & S & blobs & _ & _ & Hc & Hn & _ & ->).
    exists blobs, (f +:+ "-" +:+ strftime_YmdHMS (now w) +:+ ".txt"), S.
    split; [exact Hc|]. split; [exact Hn|].
    simpl. now rewrite storage_tick.
  - left. apply (write_summary_keeps_storage_when_failing g x w w' e E).
Qed.

Variables (act : json -> M json) (name : string) (delay : Z) (x : json).

(** A measure that an execution raises by at most [c] is raised by at most
    [c] per execution allowed. *)
Lemma attempt_measure (m : world -> nat) (c : nat) (retries : nat) (w : world) :
  (forall p u, m (log_invoked p u) = m u) ->
  (forall d u, m (tick (log_timer d u)) = m u) ->
  (forall y u, (m (fst (act y u)) <= m u + c)%nat) ->
  (m (fst (attempt retries delay name act x w)) <= m w + c * S retries)%nat.
Proof.
  intros Hi Ht Ha. revert w. induction retries as [|n IH]; intros w; simpl attempt.
  - pose proof (Ha x (log_invoked (name, x) w)) as H. rewrite Hi in H.
    destruct (act x (log_invoked (name, x) w)) as [w1 [v|e1]]; simpl in *; lia.
  - pose proof (Ha x (log_invoked (name, x) w)) as H. rewrite Hi in H.
    destruct (act x (log_invoked (name, x) w)) as [w1 [v|e1]]; [simpl in *; lia|].
    unfold bind, sleep. simpl in H.
    specialize (IH (tick (log_timer delay w1))). rewrite Ht in IH.
    destruct (attempt n delay name act x (tick (log_timer delay w1))) as [w2 [v|e2]];
      simpl in *; lia.
Qed.

(** The execution that made a task succeed. *)
Lemma attempt_Ok_last (retries : nat) (w w' : world) (v : json) :
  keeps_storage_when_failing act ->
  attempt retries delay name act x w = (w', Ok v) ->
  exists w0, act x w0 = (w', Ok v) /\ storage w0 = storage w.
Proof.
  intros Hk. revert w. induction retries as [|n IH]; intros w H; simpl in H.
  - destruct (act x (log_invoked (name, x) w)) as [w1 [v1|e1]] eqn:E; [|discriminate].
    injection H as <- <-. now exists (log_invoked (name, x) w).
  - destruct (act x (log_invoked (name, x) w)) as [w1 [v1|e1]] eqn:E.
    + injection H as <- <-. now exists (log_invoked (name, x) w).
    + unfold bind, sleep in H. apply IH in H as (w0 & H0 & Hs).
      exists w0. split; [exact H0|].
      rewrite Hs, storage_tick. simpl. apply (Hk _ _ _ _ E).
Qed.

(** A task whose every execution raises [e] fails with [e]. *)
Lemma attempt_always_raises (e : exn) (retries : nat) (w : world) :
  (forall u, snd (act x u) = Raise e) ->
  snd (attempt retries delay name act x w) = Raise e.
Proof.
  intros H. revert w. induction retries as [|n IH]; intros w; simpl.
  - pose proof (H (log_invoked (name, x) w)) as E.
    destruct (act x (log_invoked (name, x) w)) as [w1 [v1|e1]]; simpl in E;
      [discriminate | now injection E as ->].
  - pose proof (H (log_invoked (name, x) w)) as E.
    destruct (act x (log_invoked (name, x) w)) as [w1 [v1|e1]]; simpl in E; [discriminate|].
    unfold bind, sleep. specialize (IH (tick (log_timer delay w1))).
    destruct (attempt n delay name act x (tick (log_timer delay w1))) as [w2 [v2|e2]];
      simpl in *; [discriminate | exact IH].
Qed.

End Storage.

(** The storage after the persistence task: as before, or with one new blob
    in the output container. *)
Lemma attempt_write_summary_storage (g : globals) (x : json) (retries : nat) (w : world) :
  let w' := fst (attempt retries 5000 "write_summary" (write_summary g) x w) in
  storage w' = storage w \/
  exists blobs name data,
    storage w !! "output" = Some blobs /\ blobs !! name = None /\
    storage w' = <["output" := <[name := data]> blobs]> (storage w).
Proof.
  cbv zeta.
  destruct (attempt retries 5000 "write_summary" (write_summary g) x w) as [w' [v|e]] eqn:E.
  - right.
    apply (attempt_Ok_last _ _ _ _ _ _ _ _ (write_summary_keeps_storage_when_failing g)) in E
      as (w0 & E0 & Hs).
    apply write_summary_Ok in E0 as (f & S & blobs & _ & _ & Hc & Hn & _ & ->).
    exists blobs, (f +:+ "-" +:+ strftime_YmdHMS (now w0) +:+ ".txt"), S.
    rewrite <- Hs. split; [exact Hc|]. split; [exact Hn|].
    simpl. now rewrite storage_tick.
  - left. apply (attempt_storage_failing _ _ _ _ _ _ _ _
                   (write_summary_keeps_storage_when_failing g) E).
Qed.

(** X4.  [write_summary] never changes and never removes a blob: whatever
    its input and whatever the world, every blob that was in the storage is
    there afterwards with the same content, and no container appears or
    disappears.  When the name it computes is taken it raises
    [ResourceExistsError] and leaves the storage as it was. *)
Theorem write_summary_never_overwrites (g : globals) (x : json) (w : world) :
  let w' := fst (write_summary g x w) in
  (forall c blobs n data,
     storage w !! c = Some blobs -> blobs !! n = Some data ->
     exists blobs', storage w' !! c = Some blobs' /\ blobs' !! n = Some data) /\
  (forall c, storage w' !! c = None <-> storage w !! c = None) /\
  (forall d f S blobs old,
     x = JObj d -> d !! "blob" = Some (JStr f) -> d !! "summary" = Some (JStr S) ->
     storage w !! "output" = Some blobs ->
     blobs !! (f +:+ "-" +:+ strftime_YmdHMS (now w) +:+ ".txt") = Some old ->
     snd (write_summary g x w) = Raise ResourceExistsError /\ storage w' = storage w).
Proof.
  cbv zeta. split; [|split].
  - intros c blobs n data Hc Hn.
    destruct (write_summary_storage g x w) as [->|(bs & nm & dt & Ho & Hf & ->)].
    + now exists blobs.
    + destruct (decide (c = "output")) as [->|Hne].
      * rewrite Ho in Hc. injection Hc as <-.
        exists (<[nm := dt]> bs). split; [apply lookup_insert_eq|].
        rewrite lookup_insert_ne; [exact Hn|]. intros ->. congruence.
      * exists blobs. split; [|exact Hn]. now rewrite lookup_insert_ne.
  - intros c.
    destruct (write_summary_storage g x w) as [->|(bs & nm & dt & Ho & Hf & ->)];
      [reflexivity|].
    destruct (decide (c = "output")) as [->|Hne].
    + rewrite lookup_insert_eq, Ho. split; discriminate.
    + now rewrite lookup_insert_ne.
  - intros d f S blobs old -> Hb Hs Ho Hold.
    rewrite (write_summary_eq g d f S w Hb Hs). cbv zeta.
    unfold upload_blob. rewrite storage_tick, Ho, Hold. simpl.
    split; [reflexivity | apply storage_tick].
Qed.

(** ** What an instance does to the world *)

Section Frames.

Lemma analyze_pdf_keeps_environ (g : globals) (y : json) (u : world) :
  environ (fst (analyze_pdf g y u)) = environ u.
Proof. destruct (analyze_pdf_world g y u) as [->|[r ->]]; reflexivity. Qed.

Lemma summarize_text_keeps_environ (y : json) (u : world) :
  environ (fst (summarize_text y u)) = environ u.
Proof. destruct (summarize_text_world y u) as [->|[r ->]]; reflexivity. Qed.

Lemma write_summary_keeps_environ (g : globals) (y : json) (u : world) :
  environ (fst (write_summary g y u)) = environ u.
Proof.
  destruct (write_summary_world g y u) as [(e & _ & [->| ->])|(f & v & _ & ->)];
    unfold set_storage; simpl; rewrite ?environ_tick; reflexivity.
Qed.

Lemma analyze_pdf_keeps_posted (g : globals) (y : json) (u : world) :
  posted (fst (analyze_pdf g y u)) = posted u.
Proof. destruct (analyze_pdf_world g y u) as [->|[r ->]]; reflexivity. Qed.

Lemma write_summary_keeps_posted (g : globals) (y : json) (u : world) :
  posted (fst (write_summary g y u)) = posted u.
Proof.
  destruct (write_summary_world g y u) as [(e & _ & [->| ->])|(f & v & _ & ->)];
    unfold set_storage; simpl; rewrite ?posted_tick; reflexivity.
Qed.

Lemma summarize_text_keeps_analyzed (y : json) (u : world) :
  analyzed (fst (summarize_text y u)) = analyzed u.
Proof. destruct (summarize_text_world y u) as [->|[r ->]]; reflexivity. Qed.

Lemma write_summary_keeps_analyzed (g : globals) (y : json) (u : world) :
  analyzed (fst (write_summary g y u)) = analyzed u.
Proof.
  destruct (write_summary_world g y u) as [(e & _ & [->| ->])|(f & v & _ & ->)];
    unfold set_storage; simpl; rewrite ?analyzed_tick; reflexivity.
Qed.

Lemma summarize_text_posts_at_most_one (y : json) (u : world) :
  (Datatypes.length (posted (fst (summarize_text y u))) <= Datatypes.length (posted u) + 1)%nat.
Proof.
  destruct (summarize_text_world y u) as [->|[r ->]]; simpl; [lia|].
  rewrite length_app. simpl. lia.
Qed.

Lemma analyze_pdf_sends_at_most_one (g : globals) (y : json) (u : world) :
  (Datatypes.length (analyzed (fst (analyze_pdf g y u)))
   <= Datatypes.length (analyzed u) + 1)%nat.
Proof.
  destruct (analyze_pdf_world g y u) as [->|[r ->]]; simpl; [lia|].
  rewrite length_app. simpl. lia.
Qed.

(** The three worlds an instance goes through: after the first task, after
    the second if there is one, after the third if there is one. *)
Lemma run_instance_worlds (g : globals) (input : json) (w : world) :
  let w1 := fst (attempt 2 5000 "analyze_pdf" (analyze_pdf g) input w) in
  fst (run_instance g input w) = w1 \/
  exists text,
    let w2 := fst (attempt 2 5000 "summarize_text" summarize_text text w1) in
    fst (run_instance g input w) = w2 \/
    exists summary,
      fst (run_instance g input w) =
        fst (attempt 2 5000 "write_summary" (write_summary g)
               (JObj (<["blob" := input]> (<["summary" := summary]> ∅))) w2).
Proof.
  cbv zeta. rewrite run_instance_eq.
  destruct (attempt 2 5000 "analyze_pdf" (analyze_pdf g) input w) as [w1 [text|e1]];
    [|now left].
  right. exists text. cbn [fst].
  destruct (attempt 2 5000 "summarize_text" summarize_text text w1) as [w2 [summary|e2]];
    [|now left].
  right. exists summary. cbn [fst].
  destruct (attempt 2 5000 "write_summary" (write_summary g) _ w2) as [w3 [out|e3]];
    reflexivity.
Qed.

End Frames.

(** X5.  An instance never touches the environment, and of the storage it
    changes at most this: one new blob in the output container.  So the
    input container is as it was (the document is not deleted), no
    container appears or goes, and every blob there was is still there
    with its content, whether the instance succeeds or fails. *)
Theorem instance_adds_at_most_one_blob (g : globals) (input : json) (w : world) :
  let w' := fst (run_instance g input w) in
  environ w' = environ w /\
  (storage w' = storage w \/
   exists blobs name data,
     storage w !! "output" = Some blobs /\ blobs !! name = None /\
     storage w' = <["output" := <[name := data]> blobs]> (storage w)) /\
  (forall c, c <> "output" -> storage w' !! c = storage w !! c) /\
  (forall c blobs n data,
     storage w !! c = Some blobs -> blobs !! n = Some data ->
     exists blobs', storage w' !! c = Some blobs' /\ blobs' !! n = Some data).
Proof.
  cbv zeta.
  set (w1 := fst (attempt 2 5000 "analyze_pdf" (analyze_pdf g) input w)).
  assert (He1 : environ w1 = environ w).
  { apply (attempt_keeps _ _ _ _ environ); intros; rewrite ?environ_tick;
      try reflexivity. apply analyze_pdf_keeps_environ. }
  assert (Hs1 : storage w1 = storage w) by apply attempt_storage, analyze_pdf_keeps_storage.
  assert (He2 : forall text,
            environ (fst (attempt 2 5000 "summarize_text" summarize_text text w1)) = environ w).
  { intros text. rewrite <- He1.
    apply (attempt_keeps _ _ _ _ environ); intros; rewrite ?environ_tick;
      try reflexivity. apply summarize_text_keeps_environ. }
  assert (Hs2 : forall text,
            storage (fst (attempt 2 5000 "summarize_text" summarize_text text w1)) = storage w).
  { intros text. rewrite <- Hs1. apply attempt_storage, summarize_text_keeps_storage. }
  assert (Hmain : environ (fst (run_instance g input w)) = environ w /\
    (storage (fst (run_instance g input w)) = storage w \/
     exists blobs name data,
       storage w !! "output" = Some blobs /\ blobs !! name = None /\
       storage (fst (run_instance g input w))
         = <["output" := <[name := data]> blobs]> (storage w))).
  { destruct (run_instance_worlds g input w) as [->|(text & [->|(summary & ->)])].
    - split; [exact He1 | left; exact Hs1].
    - split; [apply He2 | left; apply Hs2].
    - split.
      + rewrite <- (He2 text).
        apply (attempt_keeps _ _ _ _ environ); intros; rewrite ?environ_tick;
          try reflexivity. apply write_summary_keeps_environ.
      + pose proof (attempt_write_summary_storage g
                      (JObj (<["blob" := input]> (<["summary" := summary]> ∅))) 2
                      (fst (attempt 2 5000 "summarize_text" summarize_text text w1))) as H.
        cbv zeta in H. rewrite (Hs2 text) in H. exact H. }
  destruct Hmain as [He Hs]. split; [exact He|]. split; [exact Hs|]. split.
  - intros c Hne. destruct Hs as [->|(bs & nm & dt & Ho & Hf & ->)]; [reflexivity|].
    now rewrite lookup_insert_ne.
  - intros c blobs n data Hc Hn.
    destruct Hs as [->|(bs & nm & dt & Ho & Hf & ->)]; [now exists blobs|].
    destruct (decide (c = "output")) as [->|Hne].
    + rewrite Ho in Hc. injection Hc as <-.
      exists (<[nm := dt]> bs). split; [apply lookup_insert_eq|].
      rewrite lookup_insert_ne; [exact Hn|]. intros ->. congruence.
    + exists blobs. split; [|exact Hn]. now rewrite lookup_insert_ne.
Qed.

(** X6.  An instance sends at most three documents to the layout service
    and at most three requests to the completion service, and the host
    executes at most nine activities and waits at most six times for it. *)
Theorem instance_cost_is_bounded (g : globals) (input : json) (w : world) :
  let w' := fst (run_instance g input w) in
  (Datatypes.length (analyzed w') <= Datatypes.length (analyzed w) + 3)%nat /\
  (Datatypes.length (posted w') <= Datatypes.length (posted w) + 3)%nat /\
  (Datatypes.length (invoked w') <= Datatypes.length (invoked w) + 9)%nat /\
  (Datatypes.length (timers w') <= Datatypes.length (timers w) + 6)%nat.
Proof.
  cbv zeta.
  set (w1 := fst (attempt 2 5000 "analyze_pdf" (analyze_pdf g) input w)).
  assert (A1 : (Datatypes.length (analyzed w1) <= Datatypes.length (analyzed w) + 3)%nat).
  { pose proof (attempt_measure (analyze_pdf g) "analyze_pdf" 5000 input
                  (fun u => Datatypes.length (analyzed u)) 1 2 w) as H.
    simpl in H. apply H; intros; rewrite ?analyzed_tick; try reflexivity.
    apply analyze_pdf_sends_at_most_one. }
  assert (P1 : posted w1 = posted w).
  { apply (attempt_keeps _ _ _ _ posted); intros; rewrite ?posted_tick; try reflexivity.
    apply analyze_pdf_keeps_posted. }
  assert (L1 : exists k, (k <= 2)%nat /\
             Datatypes.length (invoked w1) = (Datatypes.length (invoked w) + S k)%nat /\
             Datatypes.length (timers w1) = (Datatypes.length (timers w) + k)%nat).
  { destruct (attempt 2 5000 "analyze_pdf" (analyze_pdf g) input w) as [u r] eqn:E.
    apply (attempt_log _ _ _ _ (analyze_pdf_quiet g)) in E as (k & Hk & Hi & Ht & _).
    exists k. subst w1. simpl. rewrite Hi, Ht, !length_app, !repeat_length. lia. }
  destruct L1 as (k1 & Hk1 & I1 & T1).
  destruct (run_instance_worlds g input w) as [E|(text & H)].
  { rewrite E. fold w1. rewrite P1. repeat split; lia. }
  cbv zeta in H. fold w1 in H.
  set (w2 := fst (attempt 2 5000 "summarize_text" summarize_text text w1)) in *.
  assert (A2 : analyzed w2 = analyzed w1).
  { apply (attempt_keeps _ _ _ _ analyzed); intros; rewrite ?analyzed_tick; try reflexivity.
    apply summarize_text_keeps_analyzed. }
  assert (P2 : (Datatypes.length (posted w2) <= Datatypes.length (posted w1) + 3)%nat).
  { pose proof (attempt_measure summarize_text "summarize_text" 5000 text
                  (fun u => Datatypes.length (posted u)) 1 2 w1) as H2.
    simpl in H2. apply H2; intros; rewrite ?posted_tick; try reflexivity.
    apply summarize_text_posts_at_most_one. }
  assert (L2 : exists k, (k <= 2)%nat /\
             Datatypes.length (invoked w2) = (Datatypes.length (invoked w1) + S k)%nat /\
             Datatypes.length (timers w2) = (Datatypes.length (timers w1) + k)%nat).
  { destruct (attempt 2 5000 "summarize_text" summarize_text text w1) as [u r] eqn:E.
    apply (attempt_log _ _ _ _ summarize_text_quiet) in E as (k & Hk & Hi & Ht & _).
    exists k. subst w2. simpl. rewrite Hi, Ht, !length_app, !repeat_length. lia. }
  destruct L2 as (k2 & Hk2 & I2 & T2).
  destruct H as [->|(summary & ->)].
  { rewrite A2, P1 in *. repeat split; lia. }
  set (x3 := JObj (<["blob" := input]> (<["summary" := summary]> ∅))).
  set (w3 := fst (attempt 2 5000 "write_summary" (write_summary g) x3 w2)).
  assert (A3 : analyzed w3 = analyzed w2).
  { apply (attempt_keeps _ _ _ _ analyzed); intros; rewrite ?analyzed_tick; try reflexivity.
    apply write_summary_keeps_analyzed. }
  assert (P3 : posted w3 = posted w2).
  { apply (attempt_keeps _ _ _ _ posted); intros; rewrite ?posted_tick; try reflexivity.
    apply write_summary_keeps_posted. }
  assert (L3 : exists k, (k <= 2)%nat /\
             Datatypes.length (invoked w3) = (Datatypes.length (invoked w2) + S k)%nat /\
             Datatypes.length (timers w3) = (Datatypes.length (timers w2) + k)%nat).
  { destruct (attempt 2 5000 "write_summary" (write_summary g) x3 w2) as [u r] eqn:E.
    apply (attempt_log _ _ _ _ (write_summary_quiet g)) in E as (k & Hk & Hi & Ht & _).
    exists k. subst w3. simpl. rewrite Hi, Ht, !length_app, !repeat_length. lia. }
  destruct L3 as (k3 & Hk3 & I3 & T3).
  rewrite A3, A2, P3, P1 in *. repeat split; lia.
Qed.

(** ** How the three steps compose *)

Section Composition.

Lemma analyze_pdf_Ok (g : globals) (x v : json) (w w' : world) :
  analyze_pdf g x w = (w', Ok v) -> exists f txt, x = JStr f /\ v = JStr txt.
Proof.
  rewrite analyze_pdf_eq.
  destruct x as [| | |f| |]; simpl as_name; cbv iota beta; try discriminate.
  destruct (storage w !! "input") as [blobs|]; [|discriminate].
  destruct (blobs !! f) as [pdf|]; [|discriminate].
  destruct (environ w !! "COGNITIVE_SERVICES_ENDPOINT"); [|discriminate].
  destruct (environ w !! "COGNITIVE_SERVICES_KEY"); [|discriminate].
  destruct (head (layout_service w)) as [[res|e]|]; try discriminate.
  intros [= _ <-]. now exists f, (join LF (lines_in_order (pages res))).
Qed.

(** The orchestrator's tasks, as the host runs them. *)
Lemma run_instance_tasks (g : globals) (input : json) (w : world) :
  run_instance g input w =
    match run_task g (extraction_task input) w with
    | (w1, Raise e) => (w1, Raise e)
    | (w1, Ok text) =>
        match run_task g (summarization_task text) w1 with
        | (w2, Raise e) => (w2, Raise e)
        | (w2, Ok summary) =>
            match run_task g (persistence_task input summary) w2 with
            | (w3, Raise e) => (w3, Raise e)
            | (w3, Ok outblob) => (w3, Ok outblob)
            end
        end
    end.
Proof. apply run_instance_eq. Qed.

End Composition.

(** X7.  When an instance succeeds, its input is a document name [f],
    extraction returned a text, summarization returned a string [S] for
    that text, and the result of the instance is the name
    [f-<stamp>.txt] of a blob that was not in the output container before
    and now is, with content exactly [S]; nothing else in the storage has
    changed. *)
Theorem successful_instance_stores_the_summary
    (g : globals) (input outblob : json) (w w' : world) :
  run_instance g input w = (w', Ok outblob) ->
  exists (f text S : string) (t : datetime) (blobs : gmap string string) (w1 w2 : world),
    input = JStr f /\
    run_task g (extraction_task input) w = (w1, Ok (JStr text)) /\
    run_task g (summarization_task (JStr text)) w1 = (w2, Ok (JStr S)) /\
    run_task g (persistence_task input (JStr S)) w2 = (w', Ok outblob) /\
    outblob = JStr (f +:+ "-" +:+ strftime_YmdHMS t +:+ ".txt") /\
    storage w !! "output" = Some blobs /\
    blobs !! (f +:+ "-" +:+ strftime_YmdHMS t +:+ ".txt") = None /\
    storage w' = <["output" := <[f +:+ "-" +:+ strftime_YmdHMS t +:+ ".txt" := S]> blobs]>
                   (storage w).
Proof.
  intros H. apply successful_instance_chain in H as (w1 & w2 & text & summary & E1 & E2 & E3).
  pose proof (attempt_storage _ "analyze_pdf" 5000 input 2 w (analyze_pdf_keeps_storage g)) as S1.
  rewrite E1 in S1. simpl in S1.
  pose proof (attempt_storage _ "summarize_text" 5000 text 2 w1 summarize_text_keeps_storage) as S2.
  rewrite E2 in S2. simpl in S2.
  pose proof E1 as E1'.
  apply (attempt_Ok_last _ _ _ _ _ _ _ _
           (keeps_storage_failing _ (analyze_pdf_keeps_storage g))) in E1'
    as (u1 & A1 & _).
  apply analyze_pdf_Ok in A1 as (f & txt & -> & ->).
  pose proof E3 as E3'.
  apply (attempt_Ok_last _ _ _ _ _ _ _ _ (write_summary_keeps_storage_when_failing g)) in E3'
    as (u3 & A3 & S3).
  apply write_summary_Ok in A3 as (f' & S & blobs & Hb & Hs & Hc & Hn & Hv & Hw).
  unfold getitem_str in Hb, Hs.
  rewrite lookup_insert_eq in Hb. injection Hb as <-.
  rewrite lookup_insert_ne in Hs by discriminate.
  rewrite lookup_insert_eq in Hs. injection Hs as ->.
  exists f, txt, S, (now u3), blobs, w1, w2.
  split; [reflexivity|]. split; [exact E1|]. split; [exact E2|]. split; [exact E3|].
  split; [exact Hv|].
  rewrite S3, S2, S1 in Hc. split; [exact Hc|]. split; [exact Hn|].
  rewrite Hw. simpl. now rewrite storage_tick, S3, S2, S1.
Qed.

(** X8.  When summarization returns a value that is not a string, as it
    does for a completion whose content is null, the persistence step
    raises [TypeError] at every attempt: the instance fails with
    [TypeError] and stores nothing. *)
Theorem non_string_summary_fails_in_persistence
    (g : globals) (input text summary : json) (w w1 w2 : world) :
  run_task g (extraction_task input) w = (w1, Ok text) ->
  run_task g (summarization_task text) w1 = (w2, Ok summary) ->
  (forall s, summary <> JStr s) ->
  snd (run_instance g input w) = Raise TypeError /\
  storage (fst (run_instance g input w)) = storage w /\
  exists before,
    invoked (fst (run_instance g input w)) =
      before ++ repeat ("write_summary",
                        JObj (<["blob" := input]> (<["summary" := summary]> ∅))) 3.
Proof.
  intros E1 E2 Hns.
  assert (Hin : exists f, input = JStr f).
  { pose proof E1 as E1'.
    apply (attempt_Ok_last _ _ _ _ _ _ _ _
             (keeps_storage_failing _ (analyze_pdf_keeps_storage g))) in E1'
      as (u1 & A1 & _).
    apply analyze_pdf_Ok in A1 as (f & txt & -> & _). now exists f. }
  destruct Hin as (f & ->).
  set (x := JObj (<["blob" := JStr f]> (<["summary" := summary]> ∅))).
  assert (Hraise : forall u, snd (write_summary g x u) = Raise TypeError).
  { intros u. unfold write_summary, bind, lift, utcnow, x, getitem_str.
    rewrite lookup_insert_eq. rewrite lookup_insert_ne by discriminate.
    rewrite lookup_insert_eq. simpl as_name. cbv iota beta.
    destruct summary as [| | |s| |]; try reflexivity. now destruct (Hns s). }
  pose proof (attempt_always_raises (write_summary g) "write_summary" 5000 x
                TypeError 2 w2 Hraise) as R3.
  rewrite run_instance_tasks, E1, E2.
  change (run_task g (persistence_task (JStr f) summary) w2)
    with (attempt 2 5000 "write_summary" (write_summary g) x w2).
  destruct (attempt 2 5000 "write_summary" (write_summary g) x w2) as [w3 [v|e]] eqn:E3;
    simpl in R3; [discriminate|]. injection R3 as ->.
  cbn [fst snd]. split; [reflexivity|]. split.
  - pose proof (attempt_storage _ "analyze_pdf" 5000 (JStr f) 2 w
                  (analyze_pdf_keeps_storage g)) as S1.
    change (attempt 2 5000 "analyze_pdf" (analyze_pdf g) (JStr f) w)
      with (run_task g (extraction_task (JStr f)) w) in S1.
    rewrite E1 in S1. simpl in S1.
    pose proof (attempt_storage _ "summarize_text" 5000 text 2 w1
                  summarize_text_keeps_storage) as S2.
    change (attempt 2 5000 "summarize_text" summarize_text text w1)
      with (run_task g (summarization_task text) w1) in S2.
    rewrite E2 in S2. simpl in S2.
    rewrite <- S1, <- S2.
    apply (attempt_storage_failing _ _ _ _ _ _ _ _
             (write_summary_keeps_storage_when_failing g) E3).
  - apply (attempt_log _ _ _ _ (write_summary_quiet g)) in E3 as (k & _ & Hi & _ & Hr).
    rewrite (Hr _ eq_refl) in Hi. now exists (invoked w2).
Qed.

(** ** Retries of summarization *)

Section Retries.

Lemma attempt_first_Ok (act : json -> M json) (name : string) (delay : Z) (x v : json)
    (retries : nat) (w w1 : world) :
  act x (log_invoked (name, x) w) = (w1, Ok v) ->
  attempt retries delay name act x w = (w1, Ok v).
Proof. intros E. destruct retries; simpl; now rewrite E. Qed.

Lemma attempt_first_Raise (act : json -> M json) (name : string) (delay : Z) (x : json)
    (e : exn) (retries : nat) (w w1 : world) :
  act x (log_invoked (name, x) w) = (w1, Raise e) ->
  attempt (S retries) delay name act x w
    = attempt retries delay name act x (tick (log_timer delay w1)).
Proof. intros E. simpl. rewrite E. reflexivity. Qed.

Variables (endpoint deployment key : string) (text : json).

(** Summarization under the host's retries, against a service that answers
    some error statuses and then a response that passes. *)
Lemma attempt_summarize_text_recovers (fails : list Response) :
  forall (retries : nat) (w : world) (r : Response) (later : list Response) (j v : json),
  environ w !! "AZURE_OPENAI_ENDPOINT" = Some endpoint ->
  environ w !! "AZURE_OPENAI_DEPLOYMENT_NAME" = Some deployment ->
  environ w !! "AZURE_OPENAI_KEY" = Some key ->
  completion_service w = fails ++ r :: later ->
  Forall (fun q => is_error_status (status_code q)) fails ->
  (Datatypes.length fails <= retries)%nat ->
  ~ is_error_status (status_code r) ->
  body r = Some j -> choices_0_message_content j = Some v ->
  let w' := fst (attempt retries 5000 "summarize_text" summarize_text text w) in
  snd (attempt retries 5000 "summarize_text" summarize_text text w) = Ok v /\
  posted w' = posted w ++
    repeat (completion_request (rstrip slash endpoint) deployment key text)
           (S (Datatypes.length fails)) /\
  timers w' = timers w ++ repeat 5000 (Datatypes.length fails) /\
  completion_service w' = later.
Proof.
  induction fails as [|q fails IH];
    intros retries w r later j v He Hd Hk Hs HF Hlen Hr Hb Hc; cbv zeta.
  - assert (E : summarize_text text (log_invoked ("summarize_text", text) w) =
                (send_http (completion_request (rstrip slash endpoint) deployment key text)
                   (log_invoked ("summarize_text", text) w), Ok v)).
    { rewrite (summarize_text_eq endpoint deployment key
                 (log_invoked ("summarize_text", text) w) He Hd Hk text).
      change (completion_service (log_invoked ("summarize_text", text) w))
        with (completion_service w).
      rewrite Hs. simpl app. cbv iota beta.
      rewrite (answer_of_content r j v); auto.
      apply raise_for_status_pass. exact Hr. }
    rewrite (attempt_first_Ok _ _ _ _ _ _ _ _ E). cbn [fst snd].
    split; [reflexivity|]. simpl. rewrite Hs, app_nil_r. repeat split; reflexivity.
  - destruct retries as [|n]; [simpl in Hlen; lia|].
    inversion HF as [|? ? Hq HF']; subst.
    assert (E : summarize_text text (log_invoked ("summarize_text", text) w) =
                (send_http (completion_request (rstrip slash endpoint) deployment key text)
                   (log_invoked ("summarize_text", text) w),
                 Raise (HTTPError (status_code q)))).
    { rewrite (summarize_text_eq endpoint deployment key
                 (log_invoked ("summarize_text", text) w) He Hd Hk text).
      change (completion_service (log_invoked ("summarize_text", text) w))
        with (completion_service w).
      rewrite Hs. simpl app. cbv iota beta. unfold answer_of.
      now rewrite raise_for_status_error. }
    rewrite (attempt_first_Raise _ _ _ _ _ _ _ _ E).
    set (u := tick (log_timer 5000
                (send_http (completion_request (rstrip slash endpoint) deployment key text)
                   (log_invoked ("summarize_text", text) w)))).
    assert (He' : environ u !! "AZURE_OPENAI_ENDPOINT" = Some endpoint)
      by (unfold u; rewrite environ_tick; exact He).
    assert (Hd' : environ u !! "AZURE_OPENAI_DEPLOYMENT_NAME" = Some deployment)
      by (unfold u; rewrite environ_tick; exact Hd).
    assert (Hk' : environ u !! "AZURE_OPENAI_KEY" = Some key)
      by (unfold u; rewrite environ_tick; exact Hk).
    assert (Hs' : completion_service u = fails ++ r :: later).
    { unfold u. rewrite completion_service_tick. simpl. now rewrite Hs. }
    assert (Hlen' : (Datatypes.length fails <= n)%nat) by (simpl in Hlen; lia).
    destruct (IH n u r later j v He' Hd' Hk' Hs' HF' Hlen' Hr Hb Hc) as (A & B & C & D).
    split; [exact A|]. split; [|split; [|exact D]].
    + rewrite B. unfold u. rewrite posted_tick. simpl posted.
      rewrite <- app_assoc. reflexivity.
    + rewrite C. unfold u. rewrite timers_tick. simpl timers.
      rewrite <- app_assoc. reflexivity.
Qed.

End Retries.

(** X9.  The retries absorb up to two error answers of the completion
    service: when the service answers one or two 4xx or 5xx statuses (or
    none) and then a response that passes and has the content, the
    summarization task succeeds with that content, after one request per
    answer, each the same, and one wait of 5000 ms per error. *)
Theorem summarization_recovers_from_errors
    (g : globals) (endpoint deployment key : string) (text : json) (w : world)
    (fails : list Response) (r : Response) (later : list Response) (j v : json) :
  environ w !! "AZURE_OPENAI_ENDPOINT" = Some endpoint ->
  environ w !! "AZURE_OPENAI_DEPLOYMENT_NAME" = Some deployment ->
  environ w !! "AZURE_OPENAI_KEY" = Some key ->
  completion_service w = fails ++ r :: later ->
  Forall (fun q => is_error_status (status_code q)) fails ->
  (Datatypes.length fails <= 2)%nat ->
  ~ is_error_status (status_code r) ->
  body r = Some j -> choices_0_message_content j = Some v ->
  let w' := fst (run_task g (summarization_task text) w) in
  snd (run_task g (summarization_task text) w) = Ok v /\
  posted w' = posted w ++
    repeat (completion_request (rstrip slash endpoint) deployment key text)
           (S (Datatypes.length fails)) /\
  timers w' = timers w ++ repeat 5000 (Datatypes.length fails) /\
  completion_service w' = later.
Proof.
  intros He Hd Hk Hs HF Hlen Hr Hb Hc.
  change (run_task g (summarization_task text) w)
    with (attempt 2 5000 "summarize_text" summarize_text text w).
  now apply (attempt_summarize_text_recovers endpoint deployment key text fails 2 w r later j v).
Qed.

(** ** Responses that are not of the expected shape *)

(** X10.  On a status that passes, a body that is not JSON makes
    [summarize_text] raise [JSONDecodeError]; a document that is not an
    object, a first choice that is not an object and a message that is not
    an object make it raise [TypeError], not a lookup error; choices that
    are an object raise [KeyError], an empty string of choices
    [IndexError], any other string of choices and any other value
    [TypeError]. *)
Theorem summarize_text_malformed_response
    (endpoint deployment key : string) (text : json) (w : world)
    (resp : Response) (later : list Response) :
  environ w !! "AZURE_OPENAI_ENDPOINT" = Some endpoint ->
  environ w !! "AZURE_OPENAI_DEPLOYMENT_NAME" = Some deployment ->
  environ w !! "AZURE_OPENAI_KEY" = Some key ->
  completion_service w = resp :: later ->
  ~ is_error_status (status_code resp) ->
  (body resp = None -> snd (summarize_text text w) = Raise JSONDecodeError) /\
  (forall j, body resp = Some j -> (forall d, j <> JObj d) ->
     snd (summarize_text text w) = Raise TypeError) /\
  (forall d c, body resp = Some (JObj d) -> d !! "choices" = Some c ->
     snd (summarize_text text w) =
       match c with
       | JNull | JBool _ | JNum _ => Raise TypeError
       | JObj _ => Raise (KeyError "0")
       | JStr EmptyString => Raise IndexError
       | JStr (String _ _) => Raise TypeError
       | JArr [] => Raise IndexError
       | JArr (JObj first :: _) =>
           match first !! "message" with
           | None => Raise (KeyError "message")
           | Some (JObj m) =>
               match m !! "content" with
               | Some v => Ok v
               | None => Raise (KeyError "content")
               end
           | Some _ => Raise TypeError
           end
       | JArr (_ :: _) => Raise TypeError
       end).
Proof.
  intros He Hd Hk Hs Hok.
  rewrite (summarize_text_eq endpoint deployment key w He Hd Hk text), Hs.
  cbn [snd]. unfold answer_of, resp_json.
  rewrite (raise_for_status_pass resp Hok).
  split; [|split].
  - now intros ->.
  - intros j -> Hn. destruct j as [| | | | |d]; try reflexivity. now destruct (Hn d).
  - intros d c -> Hc. unfold getitem_str at 1. rewrite Hc.
    destruct c as [| | |s|items|o]; try reflexivity.
    + destruct s as [|a s]; [reflexivity|].
      assert (E0 : getitem_int (JStr (String a s)) 0 = Ok (JStr (String a EmptyString))).
      { unfold getitem_int, py_index. simpl list_ascii_of_string.
        simpl Datatypes.length.
        replace (0 <? Z.of_nat (S (Datatypes.length (list_ascii_of_string s))))
          with true by (symmetry; apply Z.ltb_lt; lia).
        reflexivity. }
      rewrite E0. reflexivity.
    + destruct items as [|x rest]; [reflexivity|].
      assert (E0 : getitem_int (JArr (x :: rest)) 0 = Ok x).
      { unfold getitem_int, py_index. simpl Datatypes.length.
        replace (0 <? Z.of_nat (S (Datatypes.length rest)))
          with true by (symmetry; apply Z.ltb_lt; lia).
        reflexivity. }
      rewrite E0.
      destruct x as [| | | | |first]; try reflexivity.
      unfold getitem_str at 1.
      destruct (first !! "message") as [[| | | | |m]|]; try reflexivity.
Qed.

(** ** The endpoint's trailing slashes *)

Section Endpoint.

Lemma rstrip_app_sep (c : ascii) (s : string) :
  rstrip c (s +:+ String c EmptyString) = rstrip c s.
Proof.
  induction s as [|x s IH].
  - rewrite append_nil_l. simpl. now rewrite Ascii.eqb_refl.
  - rewrite append_cons. simpl rstrip. now rewrite IH.
Qed.

Lemma rstrip_no_trailing (c : ascii) (s t : string) :
  rstrip c s <> t +:+ String c EmptyString.
Proof.
  revert t. induction s as [|x s IH]; intros t H.
  - destruct t; discriminate.
  - simpl in H. destruct (rstrip c s) as [|y r] eqn:E.
    + destruct (Ascii.eqb_spec x c) as [->|Hne].
      * destruct t; discriminate.
      * destruct t as [|z t]; [injection H as ->; contradiction|].
        rewrite append_cons in H. injection H as _ H. destruct t; discriminate.
    + destruct t as [|z t]; [discriminate|].
      rewrite append_cons in H. injection H as _ H. now apply (IH t).
Qed.

Lemma rstrip_decompose (c : ascii) (s : string) :
  exists stripped, s = rstrip c s +:+ stripped /\
                   count_char c stripped = String.length stripped.
Proof.
  induction s as [|x s (tl & Hs & Hc)].
  - exists EmptyString. split; reflexivity.
  - simpl rstrip. destruct (rstrip c s) as [|y r] eqn:E.
    + rewrite append_nil_l in Hs. subst tl.
      destruct (Ascii.eqb_spec x c) as [->|Hne].
      * exists (String c s). split; [reflexivity|].
        simpl. rewrite Ascii.eqb_refl, Hc. reflexivity.
      * exists s. split; [reflexivity | exact Hc].
    + exists tl. split; [|exact Hc]. rewrite !append_cons. f_equal.
      rewrite append_cons in Hs. exact Hs.
Qed.

End Endpoint.

(** X11.  The request of [summarize_text] does not depend on how many
    slashes end the endpoint setting: with one slash more it is the same
    request.  Its URL is a base that does not end with a slash, followed by
    the path; the endpoint is that base followed by slashes only. *)
Theorem endpoint_trailing_slashes_do_not_matter
    (endpoint deployment key : string) (text : json) (w1 w2 : world) :
  environ w1 !! "AZURE_OPENAI_ENDPOINT" = Some endpoint ->
  environ w2 !! "AZURE_OPENAI_ENDPOINT" = Some (endpoint +:+ "/") ->
  environ w1 !! "AZURE_OPENAI_DEPLOYMENT_NAME" = Some deployment ->
  environ w2 !! "AZURE_OPENAI_DEPLOYMENT_NAME" = Some deployment ->
  environ w1 !! "AZURE_OPENAI_KEY" = Some key ->
  environ w2 !! "AZURE_OPENAI_KEY" = Some key ->
  exists (req : Request) (base slashes : string),
    posted (fst (summarize_text text w1)) = posted w1 ++ [req] /\
    posted (fst (summarize_text text w2)) = posted w2 ++ [req] /\
    url req = base +:+ "/openai/deployments/" +:+ deployment +:+
              "/chat/completions?api-version=2025-01-01-preview" /\
    (forall t, base <> t +:+ "/") /\
    endpoint = base +:+ slashes /\
    count_char slash slashes = String.length slashes.
Proof.
  intros He1 He2 Hd1 Hd2 Hk1 Hk2.
  destruct (rstrip_decompose slash endpoint) as (slashes & Hs & Hc).
  exists (completion_request (rstrip slash endpoint) deployment key text),
         (rstrip slash endpoint), slashes.
  rewrite (summarize_text_eq endpoint deployment key w1 He1 Hd1 Hk1 text).
  rewrite (summarize_text_eq (endpoint +:+ "/") deployment key w2 He2 Hd2 Hk2 text).
  change (endpoint +:+ "/") with (endpoint +:+ String slash EmptyString).
  rewrite rstrip_app_sep. cbn [fst].
  split; [reflexivity|]. split; [reflexivity|]. split; [reflexivity|].
  split; [|split; assumption].
  intros t. apply (rstrip_no_trailing slash endpoint t).
Qed.

(** ** The diagnostic script *)

(** X12.  With the endpoint and the key set, the script sends exactly one
    request, a GET for the list of deployments with the key in the
    [api-key] header, and prints the status of the response whatever it is:
    an error status is printed, not raised.  It then prints the response
    document and ends, or, when the body is not JSON, ends with
    [JSONDecodeError] after the status line.  Without the endpoint or the
    key it raises [KeyError] before it sends or prints anything; it does
    not read the deployment name. *)
Theorem script_prints_the_status (w : world) :
  (forall endpoint key resp later,
     environ w !! "AZURE_OPENAI_ENDPOINT" = Some endpoint ->
     environ w !! "AZURE_OPENAI_KEY" = Some key ->
     completion_service w = resp :: later ->
     exists w' out r,
       test_openai_http w = (w', out, r) /\
       posted w' = posted w ++ [deployments_request (rstrip slash endpoint) key] /\
       storage w' = storage w /\
       head out = Some [JStr "Status:"; JNum (status_code resp)] /\
       (forall j, body resp = Some j ->
          out = [[JStr "Status:"; JNum (status_code resp)]; [j]] /\ r = Ok tt) /\
       (body resp = None ->
          out = [[JStr "Status:"; JNum (status_code resp)]] /\ r = Raise JSONDecodeError)) /\
  (environ w !! "AZURE_OPENAI_ENDPOINT" = None ->
   test_openai_http w = (w, [], Raise (KeyError "AZURE_OPENAI_ENDPOINT"))) /\
  (forall endpoint,
     environ w !! "AZURE_OPENAI_ENDPOINT" = Some endpoint ->
     environ w !! "AZURE_OPENAI_KEY" = None ->
     test_openai_http w = (w, [], Raise (KeyError "AZURE_OPENAI_KEY"))).
Proof.
  split; [|split].
  - intros endpoint key resp later He Hk Hs.
    unfold test_openai_http, bind, os_environ, requests_get.
    rewrite He, Hk, Hs. unfold resp_json.
    destruct (body resp) as [j|] eqn:Hb.
    + eexists _, _, _. split; [reflexivity|].
      split; [reflexivity|]. split; [reflexivity|]. split; [reflexivity|].
      split; [|discriminate]. intros j' [= <-]. split; reflexivity.
    + eexists _, _, _. split; [reflexivity|].
      split; [reflexivity|]. split; [reflexivity|]. split; [reflexivity|].
      split; [discriminate|]. intros _. split; reflexivity.
  - intros He. unfold test_openai_http, bind, os_environ. now rewrite He.
  - intros endpoint He Hk. unfold test_openai_http, bind, os_environ. now rewrite He, Hk.
Qed.

(** ** The order of the names *)

Section Order.

Lemma ascii_compare_refl (c : ascii) : Ascii.compare c c = Eq.
Proof. apply N.compare_refl. Qed.

Lemma compare_common_prefix (p a b : string) :
  String.compare (p +:+ a) (p +:+ b) = String.compare a b.
Proof.
  induction p as [|c p IH]; [reflexivity|].
  rewrite !append_cons. simpl. now rewrite ascii_compare_refl.
Qed.

(** Two strings that begin with parts of the same length compare by these
    parts first. *)
Lemma compare_app (a1 a2 s1 s2 : string) :
  String.length a1 = String.length a2 ->
  String.compare (a1 +:+ s1) (a2 +:+ s2) =
    match String.compare a1 a2 with
    | Eq => String.compare s1 s2
    | ne => ne
    end.
Proof.
  revert a2. induction a1 as [|c a1 IH]; intros [|c2 a2] Hl; simpl in Hl; try discriminate.
  - reflexivity.
  - rewrite !append_cons. simpl. destruct (Ascii.compare c c2); try reflexivity.
    apply IH. now injection Hl.
Qed.

Lemma digit_compare (a b : Z) :
  Ascii.compare (digit a) (digit b) = (a mod 10 ?= b mod 10).
Proof.
  pose proof (Z.mod_pos_bound a 10 ltac:(lia)) as Ha.
  pose proof (Z.mod_pos_bound b 10 ltac:(lia)) as Hb.
  unfold Ascii.compare, digit, ascii_of_nat.
  rewrite !N_ascii_embedding by lia.
  destruct (Z.compare_spec (a mod 10) (b mod 10)) as [E|L|G].
  - apply N.compare_eq_iff. lia.
  - apply N.compare_lt_iff. lia.
  - apply N.compare_gt_iff. lia.
Qed.

Lemma compare_div_mod (a b : Z) :
  (a ?= b) = match (a / 10 ?= b / 10) with
             | Eq => (a mod 10 ?= b mod 10)
             | ne => ne
             end.
Proof.
  pose proof (Z.div_mod a 10 ltac:(lia)) as Ha.
  pose proof (Z.div_mod b 10 ltac:(lia)) as Hb.
  pose proof (Z.mod_pos_bound a 10 ltac:(lia)).
  pose proof (Z.mod_pos_bound b 10 ltac:(lia)).
  destruct (Z.compare_spec (a / 10) (b / 10)) as [E|L|G].
  - destruct (Z.compare_spec (a mod 10) (b mod 10)) as [E'|L'|G'].
    + apply Z.compare_eq_iff. lia.
    + apply Z.compare_lt_iff. lia.
    + apply Z.compare_gt_iff. lia.
  - apply Z.compare_lt_iff. lia.
  - apply Z.compare_gt_iff. lia.
Qed.

(** Padded numbers compare as strings the way they compare as numbers. *)
Lemma zpad_compare (width : nat) (a b : Z) :
  0 <= a < 10 ^ Z.of_nat width -> 0 <= b < 10 ^ Z.of_nat width ->
  String.compare (zpad width a) (zpad width b) = (a ?= b).
Proof.
  revert a b. induction width as [|k IH]; intros a b Ha Hb.
  - cbn [Z.of_nat] in Ha, Hb. rewrite Z.pow_0_r in Ha, Hb.
    assert (a = 0) by lia. assert (b = 0) by lia. subst. reflexivity.
  - rewrite Nat2Z.inj_succ, Z.pow_succ_r in Ha, Hb by lia.
    simpl zpad. rewrite compare_app by now rewrite !zpad_length.
    rewrite IH.
    2:{ split; [apply Z.div_pos; lia | apply Z.div_lt_upper_bound; lia]. }
    2:{ split; [apply Z.div_pos; lia | apply Z.div_lt_upper_bound; lia]. }
    rewrite (compare_div_mod a b).
    destruct (a / 10 ?= b / 10); try reflexivity.
    change (String.compare (String (digit a) EmptyString) (String (digit b) EmptyString))
      with (match Ascii.compare (digit a) (digit b) with Eq => Eq | ne => ne end).
    rewrite digit_compare. now destruct (a mod 10 ?= b mod 10).
Qed.

(** The stamps compare as strings the way the times compare. *)
Lemma strftime_compare (t1 t2 : datetime) :
  valid_datetime t1 -> valid_datetime t2 ->
  (String.compare (strftime_YmdHMS t1) (strftime_YmdHMS t2) = Lt <-> earlier t1 t2).
Proof.
  intros (Hy1 & Hm1 & Hd1 & HH1 & HM1 & HS1) (Hy2 & Hm2 & Hd2 & HH2 & HM2 & HS2).
  unfold strftime_YmdHMS, earlier, datetime_key. cbn [lex_lt].
  rewrite !compare_app by now rewrite !zpad_length.
  rewrite !zpad_compare by (cbn [Z.of_nat Pos.of_succ_nat Pos.succ]; lia).
  repeat match goal with
         | |- context [Z.compare ?a ?b] => destruct (Z.compare_spec a b)
         end;
    split; intros Hlt; try discriminate; try reflexivity; try lia; try tauto.
Qed.

End Order.

(** X13.  The names of the summaries of one document sort the way the
    summaries were written: of two successful runs of [write_summary] with
    the same document name, the one at the earlier second returns the name
    that is smaller in the order of strings. *)
Theorem summary_names_sort_by_time
    (g : globals) (d1 d2 : gmap string json) (f S1 S2 : string)
    (w1 w2 w1' w2' : world) (out1 out2 : json) :
  d1 !! "blob" = Some (JStr f) -> d1 !! "summary" = Some (JStr S1) ->
  d2 !! "blob" = Some (JStr f) -> d2 !! "summary" = Some (JStr S2) ->
  valid_datetime (now w1) -> valid_datetime (now w2) ->
  write_summary g (JObj d1) w1 = (w1', Ok out1) ->
  write_summary g (JObj d2) w2 = (w2', Ok out2) ->
  exists n1 n2,
    out1 = JStr n1 /\ out2 = JStr n2 /\
    (String.ltb n1 n2 = true <-> earlier (now w1) (now w2)).
Proof.
  intros Hb1 Hs1 Hb2 Hs2 Hv1 Hv2 H1 H2.
  rewrite (write_summary_eq g d1 f S1 w1 Hb1 Hs1) in H1.
  rewrite (write_summary_eq g d2 f S2 w2 Hb2 Hs2) in H2. cbv zeta in H1, H2.
  destruct (upload_blob _ _ _ _ (tick w1)) as [u1 [[]|e1]]; [|discriminate].
  destruct (upload_blob _ _ _ _ (tick w2)) as [u2 [[]|e2]]; [|discriminate].
  injection H1 as _ <-. injection H2 as _ <-.
  eexists _, _. split; [reflexivity|]. split; [reflexivity|].
  unfold String.ltb. rewrite !compare_common_prefix.
  rewrite compare_app by now rewrite !strftime_length.
  rewrite <- (strftime_compare _ _ Hv1 Hv2).
  destruct (String.compare (strftime_YmdHMS (now w1)) (strftime_YmdHMS (now w2)));
    simpl; split; intros H; try reflexivity; try discriminate.
Qed.

(** ** Witnesses of the further properties *)

Lemma nested_upload_is_not_found_witness :
  snd (on_blob_event nested_event nested_world) = Raise ResourceNotFoundError.
Proof.
  apply (nested_upload_is_not_found nested_event nested_world
           "UseDevelopmentStorage=true" "input/2025" "invoice.pdf"
           (<["2025/invoice.pdf" := "%PDF-1.7"]> ∅));
    vm_compute; reflexivity.
Defined.

Lemma analyze_pdf_sends_one_request_witness :
  analyzed (fst (analyze_pdf app0 (JStr "invoice.pdf") invoice_world))
    = analyzed invoice_world ++ [layout_request "%PDF-1.7"].
Proof.
  apply (analyze_pdf_sends_one_request app0 "invoice.pdf" "%PDF-1.7"
           "https://di.example" "k1" (<["invoice.pdf" := "%PDF-1.7"]> ∅) invoice_world);
    vm_compute; reflexivity.
Defined.

Lemma analyze_pdf_text_shape_witness :
  exists txt,
    snd (analyze_pdf app0 (JStr "invoice.pdf") invoice_world) = Ok (JStr txt) /\
    (txt = EmptyString <->
     lines_in_order (pages invoice) = [] \/ lines_in_order (pages invoice) = [EmptyString]) /\
    (lines_in_order (pages invoice) <> [] ->
     count_char (ascii_of_nat 10) txt =
       (Datatypes.length (lines_in_order (pages invoice)) - 1
        + total_count (ascii_of_nat 10) (lines_in_order (pages invoice)))%nat).
Proof.
  apply (analyze_pdf_text_shape app0 "invoice.pdf" "%PDF-1.7"
           "https://di.example" "k1" (<["invoice.pdf" := "%PDF-1.7"]> ∅)
           invoice [Ok invoice; Ok invoice] invoice_world);
    vm_compute; reflexivity.
Defined.

Lemma write_summary_never_overwrites_witness :
  snd (write_summary app0 (summary_input "invoice.pdf" "S") taken_world)
    = Raise ResourceExistsError /\
  storage (fst (write_summary app0 (summary_input "invoice.pdf" "S") taken_world))
    = storage taken_world.
Proof.
  destruct (write_summary_never_overwrites app0 (summary_input "invoice.pdf" "S") taken_world)
    as (_ & _ & A).
  apply (A (<["blob" := JStr "invoice.pdf"]> (<["summary" := JStr "S"]> ∅))
           "invoice.pdf" "S" (<["invoice.pdf-20250101120000.txt" := "old"]> ∅) "old");
    vm_compute; reflexivity.
Defined.

Lemma successful_instance_stores_the_summary_witness :
  exists (f text S : string) (t : datetime) (blobs : gmap string string) (w1 w2 : world),
    JStr "invoice.pdf" = JStr f /\
    run_task app0 (extraction_task (JStr "invoice.pdf")) invoice_world = (w1, Ok (JStr text)) /\
    run_task app0 (summarization_task (JStr text)) w1 = (w2, Ok (JStr S)) /\
    run_task app0 (persistence_task (JStr "invoice.pdf") (JStr S)) w2 =
      (fst (run_instance app0 (JStr "invoice.pdf") invoice_world),
       Ok (JStr "invoice.pdf-20250101120000.txt")) /\
    JStr "invoice.pdf-20250101120000.txt"
      = JStr (f +:+ "-" +:+ strftime_YmdHMS t +:+ ".txt") /\
    storage invoice_world !! "output" = Some blobs /\
    blobs !! (f +:+ "-" +:+ strftime_YmdHMS t +:+ ".txt") = None /\
    storage (fst (run_instance app0 (JStr "invoice.pdf") invoice_world)) =
      <["output" := <[f +:+ "-" +:+ strftime_YmdHMS t +:+ ".txt" := S]> blobs]>
        (storage invoice_world).
Proof.
  apply (successful_instance_stores_the_summary app0 (JStr "invoice.pdf")
           (JStr "invoice.pdf-20250101120000.txt") invoice_world
           (fst (run_instance app0 (JStr "invoice.pdf") invoice_world))).
  vm_compute; reflexivity.
Defined.

Lemma non_string_summary_fails_in_persistence_witness :
  snd (run_instance app0 (JStr "invoice.pdf") null_content_world) = Raise TypeError.
Proof.
  apply (non_string_summary_fails_in_persistence app0 (JStr "invoice.pdf")
           (JStr (join LF ["Line 1"; "Line 2"])) JNull null_content_world
           (fst (run_task app0 (extraction_task (JStr "invoice.pdf")) null_content_world))
           (fst (run_task app0 (summarization_task (JStr (join LF ["Line 1"; "Line 2"])))
                   (fst (run_task app0 (extraction_task (JStr "invoice.pdf"))
                           null_content_world)))));
    [vm_compute; reflexivity | vm_compute; reflexivity | discriminate].
Defined.

Lemma summarization_recovers_from_errors_witness :
  snd (run_task app0 (summarization_task (JStr "text")) recovering_world) = Ok (JStr "S").
Proof.
  assert (Hf : Forall (fun q => is_error_status (status_code q)) [throttled; throttled])
    by (repeat constructor; unfold is_error_status; simpl; lia).
  assert (Hr : ~ is_error_status (status_code (completion 200 "S")))
    by (unfold is_error_status; simpl; lia).
  apply (summarization_recovers_from_errors app0 "https://oai.example/" "gpt" "k2"
           (JStr "text") recovering_world [throttled; throttled] (completion 200 "S") []
           (JObj (<["choices" :=
              JArr [JObj (<["message" := JObj (<["content" := JStr "S"]> ∅)]> ∅)]]> ∅))
           (JStr "S"));
    try assumption; try (vm_compute; reflexivity).
Defined.

Lemma summarize_text_malformed_response_witness :
  snd (summarize_text (JStr "text") not_json_world) = Raise JSONDecodeError.
Proof.
  assert (He : environ not_json_world !! "AZURE_OPENAI_ENDPOINT" = Some "https://oai.example/")
    by (vm_compute; reflexivity).
  assert (Hd : environ not_json_world !! "AZURE_OPENAI_DEPLOYMENT_NAME" = Some "gpt")
    by (vm_compute; reflexivity).
  assert (Hk : environ not_json_world !! "AZURE_OPENAI_KEY" = Some "k2")
    by (vm_compute; reflexivity).
  assert (Hs : completion_service not_json_world
               = {| status_code := 200; body := None |} :: []) by reflexivity.
  assert (Hok : ~ is_error_status (status_code {| status_code := 200; body := None |}))
    by (unfold is_error_status; simpl; lia).
  destruct (summarize_text_malformed_response "https://oai.example/" "gpt" "k2"
              (JStr "text") not_json_world {| status_code := 200; body := None |} []
              He Hd Hk Hs Hok) as (A & _).
  apply A. reflexivity.
Defined.

Lemma endpoint_trailing_slashes_do_not_matter_witness :
  exists (req : Request) (base slashes : string),
    posted (fst (summarize_text (JStr "text") no_slash_world)) = posted no_slash_world ++ [req] /\
    posted (fst (summarize_text (JStr "text") invoice_world)) = posted invoice_world ++ [req] /\
    url req = base +:+ "/openai/deployments/" +:+ "gpt" +:+
              "/chat/completions?api-version=2025-01-01-preview" /\
    (forall t, base <> t +:+ "/") /\
    "https://oai.example" = base +:+ slashes /\
    count_char slash slashes = String.length slashes.
Proof.
  apply (endpoint_trailing_slashes_do_not_matter "https://oai.example" "gpt" "k2"
           (JStr "text") no_slash_world invoice_world);
    vm_compute; reflexivity.
Defined.

Lemma script_prints_the_status_witness :
  exists w' out r,
    test_openai_http throttled_world = (w', out, r) /\
    posted w' = posted throttled_world ++
                [deployments_request (rstrip slash "https://oai.example/") "k2"] /\
    storage w' = storage throttled_world /\
    head out = Some [JStr "Status:"; JNum (status_code throttled)] /\
    (forall j, body throttled = Some j ->
       out = [[JStr "Status:"; JNum (status_code throttled)]; [j]] /\ r = Ok tt) /\
    (body throttled = None ->
       out = [[JStr "Status:"; JNum (status_code throttled)]] /\ r = Raise JSONDecodeError).
Proof.
  destruct (script_prints_the_status throttled_world) as (A & _).
  apply (A "https://oai.example/" "k2" throttled [throttled; throttled]);
    vm_compute; reflexivity.
Defined.

Lemma summary_names_sort_by_time_witness :
  exists n1 n2,
    JStr "invoice.pdf-20250101120000.txt" = JStr n1 /\
    JStr "invoice.pdf-20250101120005.txt" = JStr n2 /\
    (String.ltb n1 n2 = true <-> earlier (now invoice_world) (now later_world)).
Proof.
  apply (summary_names_sort_by_time app0
           (<["blob" := JStr "invoice.pdf"]> (<["summary" := JStr "S"]> ∅))
           (<["blob" := JStr "invoice.pdf"]> (<["summary" := JStr "S"]> ∅))
           "invoice.pdf" "S" "S" invoice_world later_world
           (fst (write_summary app0 (summary_input "invoice.pdf" "S") invoice_world))
           (fst (write_summary app0 (summary_input "invoice.pdf" "S") later_world)));
    try (vm_compute; reflexivity); unfold valid_datetime; simpl; lia.
Defined.
